(** * Resume OCR pipeline: a shallow embedding of the seven-layer extractor

    The development follows the Python package [Backend/ocr]:
    - [PyStr]                 the string and regular-expression primitives the
                              layers call ([str.lower], [in], [split], [re.search]);
    - [PyNum], [PyExc]        float comparisons and products; exceptions and
                              the calls that return or raise;
    - [ContentValidator]      layer 4, [content_validator.py];
    - [SectionIdentifier]     layer 3, the headingless classifier of
                              [section_identifier.py];
    - [VisualLayoutAnalyzer]  layer 1, [visual_layout_analyzer.py];
    - [PostProcessor]         layer 7, the quality scores of [post_processor.py];
    - [AdvancedResumeOCR]     the orchestrator, [advanced_resume_ocr.py];
    - [SectionAssembly]       layer 3, header matching and [identify_sections];
    - [HeaderExtractor]       layer 5, the phone number of [header_extractor.py];
    - [TemplateMapper]        layer 6, [template_mapper.py].

    Conventions.  Python [float]s are modelled by exact rationals [Q]: every
    float the modelled code compares is a quotient of small integers (or a
    short decimal literal), far from the rounding granularity of a double, so
    the comparisons agree.  The one product of floats that is stored,
    [conf * 100] of the layout analyzer, is rounded as a double
    ([PyNum.float_mul]).  Python [str] is modelled by [string]; the model is
    exact on ASCII text (plus the UTF-8 bullet used as a list marker), which is
    where [str.lower], [\b], [\s] and [\d] coincide with their ASCII readings.
    A [print] of ASCII text is taken to be written; in the orchestrator and
    in [_extract_text_blocks] a [print] of other text is a call that returns
    or raises, as the console decides. *)

From Stdlib Require Import String Ascii List ZArith QArith Qminmax Lia Bool.
From Stdlib Require Import Permutation Sorted DecimalString Lqa.
From stdpp Require Import gmap strings.

Set Warnings "-register-all".

Import ListNotations.
Local Open Scope string_scope.
Local Open Scope list_scope.

(* ===================================================================== *)
(** * Python string primitives *)
(* ===================================================================== *)

Module PyStr.

Definition code (c : ascii) : nat := nat_of_ascii c.

Definition in_range (lo hi : nat) (c : ascii) : bool :=
  (lo <=? code c)%nat && (code c <=? hi)%nat.

Definition is_upper (c : ascii) : bool := in_range 65 90 c.
Definition is_lower (c : ascii) : bool := in_range 97 122 c.
Definition is_digit (c : ascii) : bool := in_range 48 57 c.

(** [\w] on ASCII text: letters, digits and the underscore. *)
Definition is_word (c : ascii) : bool :=
  is_upper c || is_lower c || is_digit c || (code c =? 95)%nat.

(** Whitespace as [str.split], [str.strip] and [\s] see it on ASCII text:
    TAB, LF, VT, FF, CR, the four separators 0x1c-0x1f and the space. *)
Definition is_space (c : ascii) : bool :=
  in_range 9 13 c || in_range 28 31 c || (code c =? 32)%nat.

Definition lower_char (c : ascii) : ascii :=
  if is_upper c then ascii_of_nat (code c + 32) else c.

(** [s.lower()] *)
Fixpoint lower (s : string) : string :=
  match s with
  | EmptyString => EmptyString
  | String c s' => String (lower_char c) (lower s')
  end.

(** [s.startswith(p)] *)
Fixpoint startswith (p s : string) : bool :=
  match p, s with
  | EmptyString, _ => true
  | String a p', String b s' =>
      if Ascii.eqb a b then startswith p' s' else false
  | String _ _, EmptyString => false
  end.

(** [needle in s] *)
Fixpoint contains (needle s : string) : bool :=
  if startswith needle s then true
  else match s with
       | EmptyString => false
       | String _ s' => contains needle s'
       end.

(** [s.count(c)] for a one-character [c]. *)
Fixpoint count_char (c : ascii) (s : string) : nat :=
  match s with
  | EmptyString => 0
  | String d s' => (if Ascii.eqb c d then 1 else 0) + count_char c s'
  end.

(** [len(s.split(sep))] for a one-character separator: one more than the
    number of separators. *)
Definition split_count (c : ascii) (s : string) : nat := S (count_char c s).

(** [bool(s.strip())]: some character is not whitespace. *)
Fixpoint has_nonspace (s : string) : bool :=
  match s with
  | EmptyString => false
  | String c s' => if is_space c then has_nonspace s' else true
  end.

(** [len(s.split())]: the number of maximal runs of non-whitespace.
    [inword] records whether the previous character was part of a word. *)
Fixpoint count_words_from (inword : bool) (s : string) : nat :=
  match s with
  | EmptyString => 0
  | String c s' =>
      if is_space c then count_words_from false s'
      else (if inword then 0 else 1) + count_words_from true s'
  end.

Definition word_count (s : string) : nat := count_words_from false s.

(** [s[:n]] *)
Fixpoint take (n : nat) (s : string) : string :=
  match n, s with
  | O, _ => EmptyString
  | _, EmptyString => EmptyString
  | S n', String c s' => String c (take n' s')
  end.

(** [str(n)] for a non-negative integer. *)
Definition str_of_nat (n : nat) : string :=
  NilZero.string_of_uint (Nat.to_uint n).

(** [sep.join(parts)] *)
Fixpoint join (sep : string) (parts : list string) : string :=
  match parts with
  | [] => EmptyString
  | [p] => p
  | p :: rest => (p ++ sep ++ join sep rest)%string
  end.

(** The bullet U+2022 in UTF-8. *)
Definition bullet : string :=
  String (ascii_of_nat 226) (String (ascii_of_nat 128)
    (String (ascii_of_nat 162) EmptyString)).

(** ** Regular expressions

    The fragment of [re] the patterns of the package use: literals,
    character classes, concatenation, alternation, repetition of a class
    and the word boundary [\b]. *)
Inductive regex : Type :=
| Eps
| Chr (c : ascii)
| Cls (p : ascii -> bool)
| Seq (r1 r2 : regex)
| Alt (r1 r2 : regex)
| StarCls (p : ascii -> bool)
| WordB.

Definition opt_word (o : option ascii) : bool :=
  match o with Some c => is_word c | None => false end.

Definition head (s : string) : option ascii :=
  match s with String c _ => Some c | EmptyString => None end.

(** [\b] holds between [prev] and the head of [s] when exactly one of the
    two is a word character. *)
Definition at_boundary (prev : option ascii) (s : string) : bool :=
  xorb (opt_word prev) (opt_word (head s)).

Fixpoint star_cls (p : ascii -> bool) (k : option ascii -> string -> bool)
         (prev : option ascii) (s : string) : bool :=
  if k prev s then true
  else match s with
       | String c s' => if p c then star_cls p k (Some c) s' else false
       | EmptyString => false
       end.

(** Continuation-passing matcher: [rmatch r k prev s] holds when [r]
    matches a prefix of [s] (preceded by character [prev]) and [k] accepts
    what follows. *)
Fixpoint rmatch (r : regex) (k : option ascii -> string -> bool)
         (prev : option ascii) (s : string) : bool :=
  match r with
  | Eps => k prev s
  | Chr c =>
      match s with
      | String d s' => if Ascii.eqb c d then k (Some d) s' else false
      | EmptyString => false
      end
  | Cls p =>
      match s with
      | String d s' => if p d then k (Some d) s' else false
      | EmptyString => false
      end
  | Seq r1 r2 => rmatch r1 (rmatch r2 k) prev s
  | Alt r1 r2 => if rmatch r1 k prev s then true else rmatch r2 k prev s
  | StarCls p => star_cls p k prev s
  | WordB => if at_boundary prev s then k prev s else false
  end.

Fixpoint search_from (r : regex) (prev : option ascii) (s : string) : bool :=
  if rmatch r (fun _ _ => true) prev s then true
  else match s with
       | String c s' => search_from r (Some c) s'
       | EmptyString => false
       end.

(** [bool(re.search(r, s))] *)
Definition re_search (r : regex) (s : string) : bool := search_from r None s.

(** Pattern combinators. *)
Fixpoint lit (s : string) : regex :=
  match s with
  | EmptyString => Eps
  | String c EmptyString => Chr c
  | String c s' => Seq (Chr c) (lit s')
  end.

Fixpoint alts (rs : list regex) : regex :=
  match rs with
  | [] => Cls (fun _ => false)
  | [r] => r
  | r :: rest => Alt r (alts rest)
  end.

Definition words (ws : list string) : regex := alts (map lit ws).
Definition opt (r : regex) : regex := Alt r Eps.
Definition plus_cls (p : ascii -> bool) : regex := Seq (Cls p) (StarCls p).
Fixpoint seqs (rs : list regex) : regex :=
  match rs with
  | [] => Eps
  | [r] => r
  | r :: rest => Seq r (seqs rest)
  end.

(** [\b(w1|w2|...)\b] *)
Definition bounded_words (ws : list string) : regex :=
  seqs [WordB; words ws; WordB].

(** [[:\-]] *)
Definition colon_or_dash (c : ascii) : bool :=
  (code c =? 58)%nat || (code c =? 45)%nat.

(** [s.lstrip()], [s.rstrip()] and [s.strip()] *)
Fixpoint lstrip (s : string) : string :=
  match s with
  | EmptyString => EmptyString
  | String c s' => if is_space c then lstrip s' else s
  end.

Fixpoint rstrip (s : string) : string :=
  match s with
  | EmptyString => EmptyString
  | String c s' =>
      match rstrip s' with
      | EmptyString => if is_space c then EmptyString else String c EmptyString
      | r => String c r
      end
  end.

Definition strip (s : string) : string := lstrip (rstrip s).


(** [s.isupper()] on ASCII text: some letter is cased and no letter is
    lower case. *)
Fixpoint has_upper (s : string) : bool :=
  match s with
  | EmptyString => false
  | String c s' => if is_upper c then true else has_upper s'
  end.

Fixpoint has_lower (s : string) : bool :=
  match s with
  | EmptyString => false
  | String c s' => if is_lower c then true else has_lower s'
  end.

Definition isupper (s : string) : bool :=
  if has_lower s then false else has_upper s.

(** [c.upper()] for an ASCII character. *)
Definition upper_char (c : ascii) : ascii :=
  if is_lower c then ascii_of_nat (code c - 32) else c.

(** [s[n:]] *)
Fixpoint drop (n : nat) (s : string) : string :=
  match n, s with
  | O, _ => s
  | _, EmptyString => EmptyString
  | S n', String _ s' => drop n' s'
  end.

(** [s.split(sep)] for a non-empty separator: [skip] counts the remaining
    characters of a separator being consumed. *)
Fixpoint split_scan (sep : string) (skip : nat) (s : string) : list string :=
  match s with
  | EmptyString => [EmptyString]
  | String c s' =>
      match skip with
      | S k => split_scan sep k s'
      | O =>
          if startswith sep s
          then EmptyString :: split_scan sep (String.length sep - 1) s'
          else match split_scan sep 0 s' with
               | p :: ps => String c p :: ps
               | [] => [String c EmptyString]
               end
      end
  end.

Definition split (sep s : string) : list string := split_scan sep 0 s.

(** The length of the longest prefix of [s] whose characters satisfy [p]. *)
Fixpoint run (p : ascii -> bool) (s : string) : nat :=
  match s with
  | EmptyString => 0
  | String c s' => if p c then S (run p s') else 0
  end.

(** ** Substitution: [re.sub] for patterns that match no empty string *)

(** A pattern at a position of the text: [prev] is the character before
    the position, the string is the text from the position on; a match
    gives the number of characters it spans and the text that replaces
    them. *)
Definition rule : Type := option ascii -> string -> option (nat * string).

(** [re.sub]: the text is scanned from the left; where the pattern
    matches, the replacement is written and the scan goes on behind the
    match; [skip] counts the remaining characters of a match. *)
Fixpoint sub_scan (r : rule) (skip : nat) (prev : option ascii) (s : string)
  : string :=
  match s with
  | EmptyString => EmptyString
  | String c s' =>
      match skip with
      | S k => sub_scan r k (Some c) s'
      | O =>
          match r prev s with
          | Some (S k, replacement) =>
              (replacement ++ sub_scan r k (Some c) s')%string
          | _ => String c (sub_scan r 0 (Some c) s')
          end
      end
  end.

Definition re_sub (r : rule) (s : string) : string := sub_scan r 0 None s.

(** The character after the position is no word character ([\b] behind a
    word character), resp. the one before it ([\b] in front of one). *)
Definition word_ends (s : string) : bool := negb (opt_word (head s)).
Definition word_starts (prev : option ascii) : bool := negb (opt_word prev).

(** [\bword\b] replaced by [replacement]. *)
Definition whole_word (word replacement : string) : rule :=
  fun prev s =>
    if word_starts prev then
      if startswith word s then
        if word_ends (drop (String.length word) s)
        then Some (String.length word, replacement)
        else None
      else None
    else None.


End PyStr.


(* ===================================================================== *)
(** * Comparisons of floats *)
(* ===================================================================== *)

Module PyNum.

(** [a <= b] on floats is [Qle_bool a b]; [a < b] is its dual. *)
Definition Qlt_bool (a b : Q) : bool := negb (Qle_bool b a).

(** ** Products of floats

    A Python [float] is an IEEE 754 double.  The product of two finite
    doubles is the double nearest to the exact product, the one with the
    even significand of two that are equally near, and an infinity from
    [2^1024 - 2^970] on.  A finite double is given by its value, so the
    sign of a zero is not kept. *)
Inductive pyfloat : Type :=
| Finite (q : Q)
| Infinite (negative : bool).

(** [floor(log2(a/d))] for positive [a] and [d]. *)
Definition floor_log2 (a d : Z) : Z :=
  let e0 := (Z.log2 a - Z.log2 d)%Z in
  if (d * 2 ^ Z.max e0 0 <=? a * 2 ^ Z.max (- e0) 0)%Z then e0
  else (e0 - 1)%Z.

(** The integer nearest to [n/d] for [n >= 0] and [d > 0], the even one of
    two that are equally near. *)
Definition nearest_even (n d : Z) : Z :=
  let fl := (n / d)%Z in
  match (2 * (n mod d) ?= d)%Z with
  | Lt => fl
  | Gt => (fl + 1)%Z
  | Eq => if Z.even fl then fl else (fl + 1)%Z
  end.

(** The double nearest to the rational [q]: 53 bits of significand above
    [2^-1022], multiples of [2^-1074] below. *)
Definition round_double (q : Q) : pyfloat :=
  let n := Qnum q in
  let d := Z.pos (Qden q) in
  if (n =? 0)%Z then Finite 0
  else
    let a := Z.abs n in
    let u := Z.max (floor_log2 a d - 52) (-1074) in
    let m := nearest_even (a * 2 ^ Z.max (- u) 0) (d * 2 ^ Z.max u 0) in
    let r := Qred (Qmake (Z.sgn n * m * 2 ^ Z.max u 0)
                         (Z.to_pos (2 ^ Z.max (- u) 0))) in
    if (2 ^ 1024 * 2 ^ Z.max (- u) 0 <=? m * 2 ^ Z.max u 0)%Z
    then Infinite (n <? 0)%Z
    else Finite r.

(** [a * b] for finite doubles [a] and [b]. *)
Definition float_mul (a b : Q) : pyfloat := round_double (a * b).

End PyNum.

(* ===================================================================== *)
(** * Insertion-ordered dictionaries *)
(* ===================================================================== *)

Module PyDict.

(** A Python [dict] whose iteration order matters is a list of key-value
    pairs in insertion order; a dictionary never holds a key twice. *)

(** [d.get(k)] *)
Fixpoint dict_get {V : Type} (k : string) (d : list (string * V)) : option V :=
  match d with
  | [] => None
  | (k', v) :: rest => if String.eqb k k' then Some v else dict_get k rest
  end.

(** [d.keys()] *)
Definition dict_keys {V : Type} (d : list (string * V)) : list string :=
  map fst d.

(** [k in d] *)
Definition has_key {V : Type} (k : string) (d : list (string * V)) : bool :=
  existsb (String.eqb k) (dict_keys d).

(** [d[k] = v]: an existing key keeps its place, a new one goes last. *)
Fixpoint dict_set {V : Type} (k : string) (v : V) (d : list (string * V))
  : list (string * V) :=
  match d with
  | [] => [(k, v)]
  | (k', v') :: rest =>
      if String.eqb k k' then (k', v) :: rest
      else (k', v') :: dict_set k v rest
  end.

End PyDict.

(* ===================================================================== *)
(** * Exceptions *)
(* ===================================================================== *)

Module PyExc.

(** A raised exception of class [Exception], which is what the handlers of
    the package catch, with its class name and the text [str(e)].
    Interrupts of the interpreter ([KeyboardInterrupt], [SystemExit]) are not
    of that class and are not results of a call. *)
Record exn : Type := { exn_class : string; exn_str : string }.

(** The error monad of a [try] body. *)
Inductive outcome (A : Type) : Type :=
| Ok (a : A)
| Raised (e : exn).
Arguments Ok {A} a.
Arguments Raised {A} e.

Definition ret {A : Type} (a : A) : outcome A := Ok a.

Definition bind {A B : Type} (m : outcome A) (f : A -> outcome B) : outcome B :=
  match m with
  | Ok a => f a
  | Raised e => Raised e
  end.

Notation "'let!' x ':=' m 'in' k" := (bind m (fun x => k))
  (at level 10, x name, m at level 100, k at level 200).

Definition raise {A : Type} (cls msg : string) : outcome A :=
  Raised {| exn_class := cls; exn_str := msg |}.

End PyExc.

(* ===================================================================== *)
(** * The optional named-entity capability *)
(* ===================================================================== *)

Module Spacy.

(** The optional spaCy handle [self.nlp] of the identifier and of the
    validator.  A loaded model maps a text to the labels of its entities
    ([ent.label_] for [ent] in [doc.ents]); [None] as a result stands for a
    call that raised.  The handle itself is [None] when spaCy or its model is
    not installed. *)
Definition ner : Type := string -> option (list string).

(** [sum(1 for ent in doc.ents if ent.label_ == l)] *)
Definition count_label (l : string) (labels : list string) : nat :=
  List.length (List.filter (String.eqb l) labels).

End Spacy.

(* ===================================================================== *)
(** * Layer 4: the content validator ([content_validator.py]) *)
(* ===================================================================== *)

Module ContentValidator.
Import PyStr PyNum PyDict Spacy.
Local Open Scope Q_scope.

Inductive text_format : Type := FormatList | FormatParagraph.

(** One entry of [CONTENT_SIGNATURES].  Keys a signature does not carry
    ([format], [strong_negative_weight]) are [None]. *)
Record signature : Type := {
  required_patterns : list regex;
  positive_keywords : list string;
  negative_keywords : list string;
  entity_types : list string;
  min_entities : list (string * nat);
  format : option text_format;
  strong_negative_weight : option Q
}.

Definition CONTENT_SIGNATURES : list (string * signature) :=
  [ ("EMPLOYMENT",
     {| required_patterns :=
          [ bounded_words ["managed"; "developed"; "led"; "created";
                           "implemented"; "designed"; "built"; "responsible"];
            bounded_words ["company"; "corporation"; "team"; "project";
                           "product"] ];
        positive_keywords :=
          ["managed"; "developed"; "led"; "created"; "implemented"; "designed";
           "built"; "responsible"; "achieved"; "increased"; "improved";
           "reduced"; "collaborated"; "coordinated"; "delivered";
           "established"; "maintained"];
        negative_keywords :=
          ["bachelor"; "master"; "phd"; "degree"; "university"; "college";
           "gpa"; "graduated"; "coursework"];
        entity_types := ["ORG"; "DATE"];
        min_entities := [("ORG", 1%nat)];
        format := None;
        strong_negative_weight := None |});
    ("EDUCATION",
     {| required_patterns :=
          [ bounded_words ["bachelor"; "master"; "phd"; "b.s."; "m.s."; "b.a.";
                           "m.a."; "b.tech"; "m.tech"; "degree"];
            bounded_words ["university"; "college"; "institute"; "school"] ];
        positive_keywords :=
          ["bachelor"; "master"; "phd"; "doctorate"; "degree"; "university";
           "college"; "graduated"; "gpa"; "honors"; "cum laude"; "summa";
           "magna"; "diploma"; "certificate"; "coursework"; "thesis";
           "dissertation"; "academic"; "student"; "scholar"; "major"; "minor";
           "concentration"; "education"; "school"; "institute"];
        negative_keywords :=
          ["managed team"; "developed product"; "implemented solution";
           "led project"; "company"; "corporation"; "responsibilities";
           "duties"; "position"; "role"; "achieved"; "increased revenue";
           "improved performance"; "reduced cost"; "collaborated with";
           "reported to"; "supervised"];
        entity_types := ["ORG"; "DATE"];
        min_entities := [];
        format := None;
        strong_negative_weight := Some 5%Q |});
    ("SKILLS",
     {| required_patterns := [];
        positive_keywords :=
          ["python"; "java"; "javascript"; "c++"; "sql"; "html"; "css";
           "react"; "angular"; "node"; "aws"; "azure"; "docker"; "kubernetes";
           "git"; "linux"; "windows"; "api"; "rest"; "graphql"; "mongodb";
           "postgresql"; "mysql"; "agile"; "scrum"; "ci/cd"];
        negative_keywords :=
          ["bachelor"; "master"; "university"; "graduated"; "gpa";
           "managed"; "developed"; "led"; "responsibilities"];
        entity_types := [];
        min_entities := [];
        format := Some FormatList;
        strong_negative_weight := None |});
    ("SUMMARY",
     {| required_patterns := [];
        positive_keywords :=
          ["years of experience"; "professional"; "expertise"; "specialized";
           "passionate"; "dedicated"; "seeking"; "objective"; "goal"];
        negative_keywords := [];
        entity_types := [];
        min_entities := [];
        format := Some FormatParagraph;
        strong_negative_weight := None |});
    ("PROJECTS",
     {| required_patterns :=
          [ bounded_words ["project"; "developed"; "built"; "created";
                           "implemented"] ];
        positive_keywords :=
          ["project"; "developed"; "built"; "created"; "implemented";
           "application"; "website"; "system"; "tool"; "platform"];
        negative_keywords := ["bachelor"; "master"; "university"; "gpa"];
        entity_types := [];
        min_entities := [];
        format := None;
        strong_negative_weight := None |});
    ("CERTIFICATIONS",
     {| required_patterns :=
          [ bounded_words ["certified"; "certification"; "license";
                           "credential"] ];
        positive_keywords :=
          ["certified"; "certification"; "license"; "credential";
           "aws"; "microsoft"; "cisco"; "google"; "oracle"];
        negative_keywords := [];
        entity_types := ["ORG"; "DATE"];
        min_entities := [];
        format := None;
        strong_negative_weight := None |}) ].

(** [sum(1 for kw in kws if kw in text)] *)
Definition count_hits (kws : list string) (text : string) : nat :=
  List.length (List.filter (fun kw => contains kw text) kws).

(** The three running locals of [_validate_content]. *)
Record tally : Type := {
  score : Q;
  max_score : Q;
  reasons : list string
}.

Definition bump (t : tally) (ds dm : Q) (why : list string) : tally :=
  {| score := score t + ds; max_score := max_score t + dm;
     reasons := reasons t ++ why |}.

Definition qnat (n : nat) : Q := inject_Z (Z.of_nat n).

(** Check 1: the first required pattern that matches earns 2 points. *)
Definition check_required (sg : signature) (text_lower : string) (t : tally)
  : tally :=
  match required_patterns sg with
  | [] => t
  | ps =>
      if existsb (fun p => re_search p text_lower) ps
      then bump t 2 2 ["has required pattern"]
      else bump t 0 2 []
  end.

(** Check 2: half a point per positive keyword, capped at 3. *)
Definition check_positive (sg : signature) (text_lower : string) (t : tally)
  : tally :=
  match positive_keywords sg with
  | [] => t
  | kws =>
      let matches := count_hits kws text_lower in
      if (0 <? matches)%nat
      then bump t (Qmin 3 (qnat matches / 2)) 3
                [(str_of_nat matches ++ " positive keywords")%string]
      else bump t 0 3 []
  end.

(** Check 3: negative keywords, weighted by [strong_negative_weight]. *)
Definition check_negative (sg : signature) (text_lower : string) (t : tally)
  : tally :=
  let w := match strong_negative_weight sg with Some w => w | None => 1 end in
  match negative_keywords sg with
  | [] => t
  | kws =>
      let neg_matches := count_hits kws text_lower in
      if (neg_matches =? 0)%nat
      then bump t (2 * w) (2 * w) []
      else bump t (- (qnat neg_matches * w)) (2 * w)
                [(str_of_nat neg_matches ++ " NEGATIVE keywords found (major issue)")%string]
  end.

(** Check 4: list or paragraph shape, read off the original text. *)
Definition check_format (sg : signature) (text : string) (t : tally) : tally :=
  match format sg with
  | None => t
  | Some expected =>
      let is_list :=
        contains "," text || contains bullet text || contains "|" text in
      let is_paragraph := (2 <? split_count "." text)%nat in
      match expected with
      | FormatList =>
          if is_list then bump t 1 1 ["list format"] else bump t 0 1 []
      | FormatParagraph =>
          if is_paragraph then bump t 1 1 ["paragraph format"]
          else bump t 0 1 []
      end
  end.

(** Check 5: named entities, only with a loaded model and a signature that
    lists entity types; a failing model call still counts in [max_score]. *)
Definition check_entities (nlp : option ner) (sg : signature) (text : string)
           (t : tally) : tally :=
  match nlp, entity_types sg with
  | Some run, _ :: _ =>
      match run (take 500%nat text) with
      | Some labels =>
          if forallb (fun '(ty, n) => (n <=? count_label ty labels)%nat)
                     (min_entities sg)
          then bump t 2 2 ["has required entities"]
          else bump t 0 2 []
      | None => bump t 0 2 []
      end
  | _, _ => t
  end.

Definition empty_tally : tally := {| score := 0; max_score := 0; reasons := [] |}.

Definition run_checks (nlp : option ner) (sg : signature) (text : string)
  : tally :=
  let text_lower := lower text in
  check_entities nlp sg text
    (check_format sg text
      (check_negative sg text_lower
        (check_positive sg text_lower
          (check_required sg text_lower empty_tally)))).

(** [_validate_content(text, section_type)] returns
    [(is_valid, confidence, reason)]. *)
Definition _validate_content (nlp : option ner) (text section_type : string)
  : bool * Q * string :=
  match dict_get section_type CONTENT_SIGNATURES with
  | None => (true, 1, "Unknown section type")
  | Some sg =>
      let t := run_checks nlp sg text in
      let confidence :=
        if Qlt_bool 0 (max_score t) then score t / max_score t else 1 in
      let is_valid := Qle_bool 0.4 confidence in
      let reason :=
        match reasons t with
        | [] => "no matching indicators"
        | rs => join ", " rs
        end in
      (is_valid, confidence, reason)
  end.

Definition confidence_of (nlp : option ner) (text section_type : string) : Q :=
  snd (fst (_validate_content nlp text section_type)).

(** [_find_correct_section]: the first type, in the order of
    [CONTENT_SIGNATURES], whose confidence is strictly the largest; it is
    returned only when that confidence reaches 0.5. *)
Definition best_step (nlp : option ner) (text : string)
           (best : option string * Q) (section_type : string)
  : option string * Q :=
  let '(_, confidence, _) := _validate_content nlp text section_type in
  if Qlt_bool (snd best) confidence then (Some section_type, confidence)
  else best.

Definition best_section (nlp : option ner) (text : string) (types : list string)
  : option string * Q :=
  fold_left (best_step nlp text) types (None, 0).

Definition _find_correct_section (nlp : option ner) (text : string)
  : option string :=
  let '(best, best_confidence) :=
    best_section nlp text (dict_keys CONTENT_SIGNATURES) in
  if Qle_bool 0.5 best_confidence then best else None.

(** A block of the multi-pass OCR, the value under [data]. *)
Record ocr_block : Type := {
  ocr_text : string;
  original_bbox : Z * Z * Z * Z;
  ocr_confidence : Q
}.

(** A content block: the dictionary [{type, text, y, data}] built by the
    section identifier, with the [validation_warning] key the validator may
    add.  The identifier may file a block object more than once, but always
    under one and the same section; the validator reads nothing but [text],
    and the warning it writes depends on the section and the text only, so
    blocks taken by value end as the shared objects do. *)
Record block : Type := {
  type : string;
  text : string;
  y : Z;
  data : ocr_block;
  validation_warning : option string
}.

(** [block['validation_warning'] = reason] *)
Definition flag (reason : string) (b : block) : block :=
  {| type := type b; text := text b; y := y b; data := data b;
     validation_warning := Some reason |}.

Definition sections : Type := list (string * list block).

(** [if k not in d: d[k] = []] *)
Definition ensure_key (k : string) (d : sections) : sections :=
  if has_key k d then d else d ++ [(k, [])].

(** [d[k].append(b)] *)
Fixpoint append_block (k : string) (b : block) (d : sections) : sections :=
  match d with
  | [] => []
  | (k', bs) :: rest =>
      if String.eqb k k' then (k', bs ++ [b]) :: rest
      else (k', bs) :: append_block k b rest
  end.

(** What the body of the block loop decides for one non-empty block. *)
Inductive disposition : Type :=
| Keep
| Move (correct_section : string)
| Remove
| Flag (reason : string).

Definition decide_block (nlp : option ner) (section_name text : string)
  : disposition :=
  let '(is_valid, confidence, reason) :=
    _validate_content nlp text section_name in
  let unplaced :=
    if Qlt_bool confidence 0.3 then Remove else Flag reason in
  if is_valid && Qle_bool 0.5 confidence then Keep
  else
    match _find_correct_section nlp text with
    | Some correct_section =>
        if negb (String.eqb correct_section section_name)
        then Move correct_section
        else unplaced
    | None => unplaced
    end.

Record move_note : Type :=
  { move_from : string; move_to : string; move_text : string }.
Record removal_note : Type :=
  { removal_section : string; removal_text : string; removal_confidence : Q }.

(** The locals [validated_sections], [moved_content], [removed_content]. *)
Record vstate : Type := {
  validated_sections : sections;
  moved_content : list move_note;
  removed_content : list removal_note
}.

Definition process_block (nlp : option ner) (section_name : string)
           (st : vstate) (b : block) : vstate :=
  if negb (has_nonspace (text b)) then st
  else
    match decide_block nlp section_name (text b) with
    | Keep =>
        {| validated_sections :=
             append_block section_name b (validated_sections st);
           moved_content := moved_content st;
           removed_content := removed_content st |}
    | Move correct_section =>
        {| validated_sections :=
             append_block correct_section b
               (ensure_key correct_section (validated_sections st));
           moved_content :=
             moved_content st ++
             [{| move_from := section_name; move_to := correct_section;
                 move_text := take 60%nat (text b) |}];
           removed_content := removed_content st |}
    | Remove =>
        {| validated_sections := validated_sections st;
           moved_content := moved_content st;
           removed_content :=
             removed_content st ++
             [{| removal_section := section_name;
                 removal_text := take 60%nat (text b);
                 removal_confidence :=
                   confidence_of nlp (text b) section_name |}] |}
    | Flag reason =>
        {| validated_sections :=
             append_block section_name (flag reason b) (validated_sections st);
           moved_content := moved_content st;
           removed_content := removed_content st |}
    end.

Definition process_section (nlp : option ner) (st : vstate)
           (entry : string * list block) : vstate :=
  let '(section_name, content_blocks) := entry in
  let st0 :=
    {| validated_sections := ensure_key section_name (validated_sections st);
       moved_content := moved_content st;
       removed_content := removed_content st |} in
  fold_left (process_block nlp section_name) content_blocks st0.

Definition initial_vstate : vstate :=
  {| validated_sections := []; moved_content := []; removed_content := [] |}.

Definition run_validation (nlp : option ner) (s : sections) : vstate :=
  fold_left (process_section nlp) s initial_vstate.

(** [validate_sections(sections)] *)
Definition validate_sections (nlp : option ner) (s : sections) : sections :=
  validated_sections (run_validation nlp s).

(** ** The aggressive filter and the deduplication *)

(** The body of the block loop of [filter_mismatched_content]:
    [filtered_sections] is the result under construction, [filtered_blocks]
    the blocks kept for the section at hand. *)
Definition filter_block (nlp : option ner) (section_name : string)
           (st : sections * list block) (b : block) : sections * list block :=
  let '(filtered_sections, filtered_blocks) := st in
  let '(is_valid, confidence, _) :=
    _validate_content nlp (text b) section_name in
  if is_valid || Qle_bool 0.3 confidence then
    (filtered_sections, filtered_blocks ++ [b])
  else
    match _find_correct_section nlp (text b) with
    | Some correct_section =>
        (append_block correct_section b
           (ensure_key correct_section filtered_sections),
         filtered_blocks)
    | None => (filtered_sections, filtered_blocks)
    end.

Definition filter_section (nlp : option ner) (filtered_sections : sections)
           (entry : string * list block) : sections :=
  let '(section_name, content_blocks) := entry in
  let '(filtered_sections, filtered_blocks) :=
    fold_left (filter_block nlp section_name) content_blocks
              (filtered_sections, []) in
  match filtered_blocks with
  | [] => filtered_sections
  | _ => dict_set section_name filtered_blocks filtered_sections
  end.

(** [filter_mismatched_content(sections)] *)
Definition filter_mismatched_content (nlp : option ner) (s : sections)
  : sections :=
  fold_left (filter_section nlp) s [].

(** [hash(block.get('text', '').strip()[:100])], for the hash function
    [hash] of the interpreter. *)
Definition text_hash (hash : string -> Z) (b : block) : Z :=
  hash (take 100 (strip (text b))).

(** The block loop of [check_content_duplication]: [seen_texts] is the set
    of hashes met so far. *)
Definition dedup_block (hash : string -> Z) (st : gset Z * list block)
           (b : block) : gset Z * list block :=
  let '(seen_texts, unique_blocks) := st in
  if decide (text_hash hash b ∈ seen_texts) then st
  else (seen_texts ∪ {[ text_hash hash b ]}, unique_blocks ++ [b]).

Definition dedup_section (hash : string -> Z) (st : gset Z * sections)
           (entry : string * list block) : gset Z * sections :=
  let '(seen_texts, deduped_sections) := st in
  let '(section_name, content_blocks) := entry in
  let '(seen_texts, unique_blocks) :=
    fold_left (dedup_block hash) content_blocks (seen_texts, []) in
  match unique_blocks with
  | [] => (seen_texts, deduped_sections)
  | _ => (seen_texts, dict_set section_name unique_blocks deduped_sections)
  end.

(** [check_content_duplication(sections)] *)
Definition check_content_duplication (hash : string -> Z) (s : sections)
  : sections :=
  snd (fold_left (dedup_section hash) s (∅, [])).

(** [validate_and_fix_sections(sections)] *)
Definition validate_and_fix_sections (nlp : option ner) (hash : string -> Z)
           (s : sections) : sections :=
  check_content_duplication hash (validate_sections nlp s).

End ContentValidator.

(* ===================================================================== *)
(** * Layer 3: the headingless classifier ([section_identifier.py]) *)
(* ===================================================================== *)

Module SectionIdentifier.
Import PyStr Spacy.
Local Open Scope Z_scope.

Definition zcount (hits : list bool) : Z :=
  Z.of_nat (List.length (List.filter (fun b => b) hits)).

(** [sum(1 for p in patterns if re.search(p, text))] *)
Definition pattern_hits (ps : list regex) (text : string) : Z :=
  zcount (map (fun p => re_search p text) ps).

(** [sum(1 for kw in kws if kw in text)] *)
Definition keyword_hits (kws : list string) (text : string) : Z :=
  zcount (map (fun kw => contains kw text) kws).

Definition strong_education_patterns : list regex :=
  [ bounded_words ["bachelor"; "master"; "phd"; "doctorate"; "b.s."; "m.s.";
                   "b.a."; "m.a."; "b.tech"; "m.tech"];
    bounded_words ["university"; "college"];
    seqs [WordB; lit "gpa"; StarCls is_space; opt (Cls colon_or_dash);
          StarCls is_space; Cls is_digit];
    bounded_words ["cum laude"; "magna cum laude"; "summa cum laude"];
    bounded_words ["thesis"; "dissertation"];
    seqs [WordB; words ["major"; "minor"]; StarCls is_space;
          Cls colon_or_dash];
    bounded_words ["academic"] ].

Definition education_keywords : list string :=
  ["graduated"; "graduation"; "degree"; "diploma"; "school"; "institute";
   "coursework"; "honors"; "academic"; "student"; "education"].

Definition strong_employment_patterns : list regex :=
  [ bounded_words ["company"; "corporation"; "inc."; "ltd."; "llc"];
    seqs [WordB; words ["position"; "title"; "role"]; StarCls is_space;
          Cls colon_or_dash];
    seqs [WordB; words ["responsibilities"; "duties"]; StarCls is_space;
          Cls colon_or_dash];
    seqs [plus_cls is_digit; StarCls is_space;
          Alt (Seq (lit "year") (opt (lit "s")))
              (Seq (lit "month") (opt (lit "s")));
          plus_cls is_space;
          opt (Seq (lit "of") (plus_cls is_space));
          opt (Seq (lit "work") (plus_cls is_space));
          lit "experience"];
    seqs [WordB; words ["achieved"; "increased"; "improved"; "reduced"];
          plus_cls is_space; plus_cls is_digit; lit "%"];
    bounded_words ["promoted"; "hired"; "recruited"];
    bounded_words ["employee"; "employer"; "worked at"] ].

Definition employment_verbs : list string :=
  ["managed team"; "led team"; "supervised"; "coordinated team";
   "responsibilities included"; "duties included"; "reported to";
   "collaborated with"; "partnered with"].

Definition tech_keywords : list string :=
  ["python"; "java"; "javascript"; "sql"; "aws"; "azure"; "docker";
   "react"; "angular"; "node"; "api"; "database"; "cloud"; "agile";
   "c++"; "c#"; "ruby"; "php"; "swift"; "kotlin"; "typescript"].

Definition summary_keywords : list string :=
  ["years of experience"; "professional"; "expertise in"; "specialized in";
   "seeking"; "passionate about"; "dedicated"; "experienced";
   "background in"].

Definition project_keywords : list string :=
  ["project"; "built application"; "developed application"; "created tool";
   "implemented system"].

Definition edu_institutions : list string :=
  ["university"; "college"; "institute"; "school"].

(** The dictionary [scores], in its insertion order. *)
Record scores : Type := {
  EDUCATION : Z;
  EMPLOYMENT : Z;
  SKILLS : Z;
  SUMMARY : Z;
  PROJECTS : Z
}.

Definition items (sc : scores) : list (string * Z) :=
  [ ("EDUCATION"%string, EDUCATION sc); ("EMPLOYMENT"%string, EMPLOYMENT sc);
    ("SKILLS"%string, SKILLS sc); ("SUMMARY"%string, SUMMARY sc);
    ("PROJECTS"%string, PROJECTS sc) ].

(** Priority 1: [scores['EDUCATION']] after the strong patterns (5 each) and
    the additional keywords (2 each). *)
Definition education_score (content_lower : string) : Z :=
  pattern_hits strong_education_patterns content_lower * 5
  + keyword_hits education_keywords content_lower * 2.

(** Priority 2: [scores['EMPLOYMENT']]; the patterns and verbs are looked at
    only under the guard [scores['EDUCATION'] < 5]. *)
Definition employment_score (content_lower : string) : Z :=
  if education_score content_lower <? 5
  then pattern_hits strong_employment_patterns content_lower * 4
       + keyword_hits employment_verbs content_lower * 3
  else 0.

(** [re.split(r'[,•|\n]', content)]; [skip] counts the remaining bytes of a
    bullet being consumed, [cur] is the item under construction. *)
Fixpoint split_items (skip : nat) (cur : string) (s : string) : list string :=
  match s with
  | EmptyString => [cur]
  | String c s' =>
      match skip with
      | S n => split_items n cur s'
      | O =>
          if startswith bullet s then cur :: split_items 2 EmptyString s'
          else if (code c =? 44)%nat || (code c =? 124)%nat || (code c =? 10)%nat
               then cur :: split_items 0 EmptyString s'
               else split_items 0 (cur ++ String c EmptyString)%string s'
      end
  end.

(** [np.mean([len(w.split()) for w in words if w.strip()]) < 4]; the mean of
    an empty list is NaN, which compares false. *)
Definition short_items (content : string) : bool :=
  let counted :=
    map (fun w => Z.of_nat (word_count w))
        (List.filter has_nonspace (split_items 0 EmptyString content)) in
  match counted with
  | [] => false
  | _ => fold_right Z.add 0 counted <? 4 * Z.of_nat (List.length counted)
  end.

Definition skills_score (content content_lower : string) : Z :=
  if contains "," content || contains bullet content || contains "|" content
  then if short_items content
       then 5 + keyword_hits tech_keywords content_lower * 2
       else 0
  else 0.

Definition summary_score (content content_lower : string) : Z :=
  keyword_hits summary_keywords content_lower * 3
  + (if negb (startswith bullet content) && negb (startswith "-" content)
     then if (2 <? split_count "." content)%nat then 2 else 0
     else 0).

Definition projects_score (content_lower : string) : Z :=
  keyword_hits project_keywords content_lower * 3.

(** The NER block: a boost of EDUCATION or of EMPLOYMENT. *)
Definition ner_boost (nlp : option ner) (content content_lower : string)
           (sc : scores) : scores :=
  match nlp with
  | None => sc
  | Some run =>
      match run (take 500 content) with
      | None => sc
      | Some labels =>
          let org_count := count_label "ORG" labels in
          let date_count := count_label "DATE" labels in
          let has_edu_institution :=
            existsb (fun inst => contains inst content_lower) edu_institutions in
          if has_edu_institution && (1 <=? date_count)%nat
          then {| EDUCATION := EDUCATION sc + 5; EMPLOYMENT := EMPLOYMENT sc;
                  SKILLS := SKILLS sc; SUMMARY := SUMMARY sc;
                  PROJECTS := PROJECTS sc |}
          else if (1 <=? org_count)%nat && (1 <=? date_count)%nat
                  && negb has_edu_institution
          then {| EDUCATION := EDUCATION sc; EMPLOYMENT := EMPLOYMENT sc + 3;
                  SKILLS := SKILLS sc; SUMMARY := SUMMARY sc;
                  PROJECTS := PROJECTS sc |}
          else sc
      end
  end.

(** [max(scores, key=scores.get)]: the first key with the largest value. *)
Fixpoint argmax (best : string * Z) (rest : list (string * Z)) : string * Z :=
  match rest with
  | [] => best
  | (k, v) :: rest' => if snd best <? v then argmax (k, v) rest' else argmax best rest'
  end.

Definition best_of (sc : scores) : string * Z :=
  argmax ("EDUCATION"%string, EDUCATION sc) (tl (items sc)).

(** The table [scores] as it stands when the two early returns are tested. *)
Definition priority_scores (content : string) : scores :=
  let content_lower := lower content in
  {| EDUCATION := education_score content_lower;
     EMPLOYMENT := employment_score content_lower;
     SKILLS := 0; SUMMARY := 0; PROJECTS := 0 |}.

(** [_classify_content_by_analysis(content)] *)
Definition _classify_content_by_analysis (nlp : option ner) (content : string)
  : option string :=
  let content_lower := lower content in
  let sc := priority_scores content in
  if 5 <=? EDUCATION sc then Some "EDUCATION"%string
  else if 8 <=? EMPLOYMENT sc then Some "EMPLOYMENT"%string
  else
    let sc :=
      ner_boost nlp content content_lower
        {| EDUCATION := EDUCATION sc;
           EMPLOYMENT := EMPLOYMENT sc;
           SKILLS := skills_score content content_lower;
           SUMMARY := summary_score content content_lower;
           PROJECTS := projects_score content_lower |} in
    let '(best_section, best) := best_of sc in
    if 0 <? best then Some best_section else None.

End SectionIdentifier.

(* ===================================================================== *)
(** * Layer 1: the visual layout analyzer ([visual_layout_analyzer.py]) *)
(* ===================================================================== *)

Module VisualLayoutAnalyzer.
Import PyNum PyExc.
Local Open Scope Q_scope.

(** The box of a detection as [readtext] hands it over: the flat tuple of
    coordinates [(x1,y1, x2,y2, x3,y3, x4,y4)] the conversion loop is
    written for, of whatever length, or the list of four corner points
    [[x, y]] that EasyOCR returns. *)
Inductive ocr_box : Type :=
| Flat (coordinates : list Q)
| Corners (top_left top_right bottom_right bottom_left : Q * Q).

(** One entry [(bbox, text, confidence)] of the result of [readtext]; the
    confidence is a finite double. *)
Record ocr_result : Type := {
  result_bbox : ocr_box;
  result_text : string;
  result_conf : Q
}.

(** The eight values [bbox[0]] to [bbox[7]] the loop body reads. *)
Record quad : Type := {
  x1 : Q; y1 : Q; x2 : Q; y2 : Q; x3 : Q; y3 : Q; x4 : Q; y4 : Q
}.

(** The locals [bbox], [text], [conf] of the loop body once the eight
    coordinates are read. *)
Record detection : Type := {
  det_bbox : quad;
  det_text : string;
  det_conf : Q
}.

(** [bbox[i]] on a flat tuple. *)
Definition coordinate (coordinates : list Q) (i : nat) : outcome Q :=
  match nth_error coordinates i with
  | Some q => Ok q
  | None => raise "IndexError" "tuple index out of range"
  end.

(** [x_coords = [bbox[0], bbox[2], bbox[4], bbox[6]]] and
    [y_coords = [bbox[1], bbox[3], bbox[5], bbox[7]]]: the eight
    coordinates, or the [IndexError] of the first index past the end.  Of
    four corner points [bbox[0]] and [bbox[2]] are read and [bbox[4]] is
    past the end of the list. *)
Definition read_box (b : ocr_box) : outcome quad :=
  match b with
  | Corners _ _ _ _ => raise "IndexError" "list index out of range"
  | Flat cs =>
      let! a1 := coordinate cs 0 in
      let! a2 := coordinate cs 2 in
      let! a3 := coordinate cs 4 in
      let! a4 := coordinate cs 6 in
      let! b1 := coordinate cs 1 in
      let! b2 := coordinate cs 3 in
      let! b3 := coordinate cs 5 in
      let! b4 := coordinate cs 7 in
      Ok {| x1 := a1; y1 := b1; x2 := a2; y2 := b2;
            x3 := a3; y3 := b3; x4 := a4; y4 := b4 |}
  end.

Inductive zone_name : Type := header | body.

Record text_block : Type := {
  text : string;
  bbox : Z * Z * Z * Z;
  confidence : pyfloat;
  x : Z;
  y : Z;
  width : Z;
  height : Z;
  is_heading : bool;
  zone : zone_name;
  block_num : nat;
  line_num : nat
}.

Definition header_zone_threshold : Q := 0.15.

(** [int(q)]: truncation towards zero. *)
Definition int (q : Q) : Z := Z.quot (Qnum q) (Zpos (Qden q)).

Definition min4 (a b c d : Q) : Q := Qmin (Qmin (Qmin a b) c) d.
Definition max4 (a b c d : Q) : Q := Qmax (Qmax (Qmax a b) c) d.

(** The body of the conversion loop for detection number [idx], from the
    eight coordinates on: the dictionary it appends.  [conf * 100] is a
    product of floats. *)
Definition block_of_detection (img_height : Z) (idx : nat) (d : detection)
  : text_block :=
  let q := det_bbox d in
  let bx := int (min4 (x1 q) (x2 q) (x3 q) (x4 q)) in
  let by_ := int (min4 (y1 q) (y2 q) (y3 q) (y4 q)) in
  let w := int (max4 (x1 q) (x2 q) (x3 q) (x4 q) - inject_Z bx) in
  let h := int (max4 (y1 q) (y2 q) (y3 q) (y4 q) - inject_Z by_) in
  {| text := det_text d;
     bbox := (bx, by_, w, h);
     confidence := float_mul (det_conf d) 100;
     x := bx; y := by_; width := w; height := h;
     is_heading := false;
     zone := if Qlt_bool (inject_Z by_) (inject_Z img_height * header_zone_threshold)
             then header else body;
     block_num := idx;
     line_num := idx |}.

Fixpoint enumerate_from {A : Type} (i : nat) (l : list A) : list (nat * A) :=
  match l with
  | [] => []
  | a :: l' => (i, a) :: enumerate_from (S i) l'
  end.

(** [enumerate(l)] *)
Definition enumerate {A : Type} (l : list A) : list (nat * A) :=
  enumerate_from 0 l.

(** A PIL image, as far as the analyzer looks at it: [mode] and [size],
    which is [(width, height)]. *)
Record pil_image : Type := {
  image_mode : string;
  image_dims : nat * nat
}.

(** What the analyzer calls outside the package, each a call that returns
    or raises: [Image.open], [convert('RGB')], [np.array], the [readtext]
    of the EasyOCR reader; the [print] of the warning line for an exception
    of [readtext]; and [_estimate_boldness], which catches what it raises
    and always returns. *)
Record imaging : Type := {
  image_open : string -> outcome pil_image;
  convert_rgb : pil_image -> outcome pil_image;
  np_array : pil_image -> outcome unit;
  readtext : pil_image -> outcome (list ocr_result);
  print_warning : exn -> outcome unit;
  estimate_boldness : pil_image -> Z * Z * Z * Z -> Q
}.

(** One turn of the conversion loop. *)
Definition convert_detection (img_height : Z) (entry : nat * ocr_result)
  : outcome text_block :=
  let '(idx, r) := entry in
  let! q := read_box (result_bbox r) in
  Ok (block_of_detection img_height idx
        {| det_bbox := q; det_text := result_text r;
           det_conf := result_conf r |}).

Fixpoint convert_detections (img_height : Z) (entries : list (nat * ocr_result))
  : outcome (list text_block) :=
  match entries with
  | [] => Ok []
  | entry :: rest =>
      let! b := convert_detection img_height entry in
      let! bs := convert_detections img_height rest in
      Ok (b :: bs)
  end.

(** [_extract_text_blocks(pil_img)]: the [try] holds the call of [readtext]
    only; [np.array] before it and the conversion loop after it are
    outside. *)
Definition _extract_text_blocks (env : imaging) (pil_img : pil_image)
  : outcome (list text_block) :=
  let! _ := np_array env pil_img in
  match readtext env pil_img with
  | Raised e =>
      let! _ := print_warning env e in
      Ok []
  | Ok result =>
      convert_detections (Z.of_nat (snd (image_dims pil_img)))
                         (enumerate result)
  end.

(** The dictionary returned by [_detect_columns]; the key [divider] exists
    only in the two-column case. *)
Record columns : Type := {
  count : Z;
  boundaries : list (Z * Z);
  divider : option Z
}.

Definition column_gap_threshold : Z := 50.

(** The bound [i] of a slice of an array of length [n], as numpy clips it:
    a negative bound counts from the end. *)
Definition slice_bound (n i : Z) : Z :=
  if (i <? 0)%Z then Z.max (i + n) 0 else Z.min i n.

(** [hist[px] != 0]: some block was added over the pixel column [px] by
    [hist[x_start:min(x_end, page_width)] += 1]. *)
Definition covered (text_blocks : list text_block) (page_width px : Z) : bool :=
  existsb (fun b =>
             let x_start := x b in
             let x_end := (x b + width b)%Z in
             (slice_bound page_width x_start <=? px)%Z
             && (px <? slice_bound page_width (Z.min x_end page_width))%Z)
          text_blocks.

(** The locals [gaps], [in_gap], [gap_start] of the scan. *)
Record gap_scan : Type := {
  gaps : list (Z * Z);
  in_gap : bool;
  gap_start : Z
}.

Definition scan_step (text_blocks : list text_block) (page_width : Z)
           (st : gap_scan) (px : nat) : gap_scan :=
  let px := Z.of_nat px in
  if covered text_blocks page_width px then
    if in_gap st then
      {| gaps := if (column_gap_threshold <? px - gap_start st)%Z
                 then gaps st ++ [(gap_start st, px)] else gaps st;
         in_gap := false;
         gap_start := gap_start st |}
    else st
  else
    if in_gap st then st
    else {| gaps := gaps st; in_gap := true; gap_start := px |}.

(** [max(gaps, key=lambda g: g[1] - g[0])]: the first widest gap. *)
Fixpoint widest (best : Z * Z) (rest : list (Z * Z)) : Z * Z :=
  match rest with
  | [] => best
  | g :: rest' =>
      if (snd best - fst best <? snd g - fst g)%Z then widest g rest'
      else widest best rest'
  end.

(** [_detect_columns(text_blocks, page_width)], for the width of an image. *)
Definition _detect_columns (text_blocks : list text_block) (page_width : nat)
  : columns :=
  let w := Z.of_nat page_width in
  let one := {| count := 1; boundaries := [(0%Z, w)]; divider := None |} in
  match text_blocks with
  | [] => one
  | _ =>
      let scan :=
        fold_left (scan_step text_blocks w) (seq 0 page_width)
                  {| gaps := []; in_gap := false; gap_start := 0 |} in
      match gaps scan with
      | [] => one
      | g :: rest =>
          let largest_gap := widest g rest in
          let mid_point := ((fst largest_gap + snd largest_gap) / 2)%Z in
          {| count := 2;
             boundaries := [(0%Z, mid_point); (mid_point, w)];
             divider := Some mid_point |}
      end
  end.

(** The sort key [(block['y'], block['x'])] of an enumerated block and the
    order of Python tuples on it. *)
Definition sort_key (e : nat * text_block) : Z * Z := (y (snd e), x (snd e)).

Definition key_le (a b : Z * Z) : bool :=
  (fst a <? fst b)%Z || ((fst a =? fst b)%Z && (snd a <=? snd b)%Z).

(** A stable sort by key: [insert_sorted] puts an element in front of the
    first element whose key is not smaller, so elements with equal keys keep
    the order of the input, as with [sorted] and [list.sort]. *)
Fixpoint insert_sorted {A : Type} (key : A -> Z * Z) (a : A) (l : list A)
  : list A :=
  match l with
  | [] => [a]
  | b :: l' =>
      if key_le (key a) (key b) then a :: b :: l'
      else b :: insert_sorted key a l'
  end.

Fixpoint sorted_by {A : Type} (key : A -> Z * Z) (l : list A) : list A :=
  match l with
  | [] => []
  | a :: l' => insert_sorted key a (sorted_by key l')
  end.

(** [block['x'] + block['width'] / 2] *)
Definition block_center (b : text_block) : Q :=
  inject_Z (x b) + inject_Z (width b) / 2.

Definition in_left_column (d : Z) (b : text_block) : bool :=
  Qlt_bool (block_center b) (inject_Z d).

(** [_create_reading_order(text_blocks, columns)]; [None] is the [KeyError]
    of [columns['divider']] on a two-column dictionary without that key. *)
Definition _create_reading_order (text_blocks : list text_block)
           (cols : columns) : option (list nat) :=
  match text_blocks with
  | [] => Some []
  | _ =>
      if (count cols =? 1)%Z then
        Some (map fst (sorted_by sort_key (enumerate text_blocks)))
      else if (count cols =? 2)%Z then
        match divider cols with
        | None => None
        | Some d =>
            let left_blocks :=
              List.filter (fun e => in_left_column d (snd e))
                          (enumerate text_blocks) in
            let right_blocks :=
              List.filter (fun e => negb (in_left_column d (snd e)))
                          (enumerate text_blocks) in
            Some (map fst (sorted_by sort_key left_blocks)
                  ++ map fst (sorted_by sort_key right_blocks))
        end
      else Some (seq 0 (List.length text_blocks))
  end.


(** ** Zones, headings and the accessors *)

(** The dictionary [{'header': (0, header_end), 'body': (header_end,
    height)}].  For heights below 2^50 the double [height * 0.15] truncates
    to the integer that the exact product truncates to. *)
Record zone_map : Type := { header_zone : Z * Z; body_zone : Z * Z }.

Definition _detect_zones (img_height : Z) : zone_map :=
  let header_end := int (inject_Z img_height * header_zone_threshold) in
  {| header_zone := (0%Z, header_end); body_zone := (header_end, img_height) |}.

(** The string stored under [zone]. *)
Definition zone_str (z : zone_name) : string :=
  match z with header => "header" | body => "body" end.

(** [get_blocks_in_zone(text_blocks, zone)] *)
Definition get_blocks_in_zone (text_blocks : list text_block) (zone_ : string)
  : list text_block :=
  List.filter (fun b => String.eqb (zone_str (zone b)) zone_) text_blocks.

(** [l[i]]: a negative index counts from the end, [None] is [IndexError]. *)
Definition index {A : Type} (l : list A) (i : Z) : option A :=
  let n := Z.of_nat (List.length l) in
  if (i <? 0)%Z then
    if (i + n <? 0)%Z then None else nth_error l (Z.to_nat (i + n))
  else nth_error l (Z.to_nat i).

(** [get_blocks_by_reading_order(text_blocks, reading_order)]:
    [[text_blocks[i] for i in reading_order if i < len(text_blocks)]]. *)
Fixpoint get_blocks_by_reading_order {A : Type} (text_blocks : list A)
         (reading_order : list Z) : option (list A) :=
  match reading_order with
  | [] => Some []
  | i :: rest =>
      if (i <? Z.of_nat (List.length text_blocks))%Z then
        match index text_blocks i with
        | None => None
        | Some b =>
            match get_blocks_by_reading_order text_blocks rest with
            | None => None
            | Some bs => Some (b :: bs)
            end
        end
      else get_blocks_by_reading_order text_blocks rest
  end.

Definition heading_size_ratio : Q := 1.3.

(** The double nearest to 1.2, the bound of the boldness test. *)
Definition bold_threshold : Q := 5404319552844595 # 4503599627370496.

Fixpoint insert_height (a : Z) (l : list Z) : list Z :=
  match l with
  | [] => [a]
  | b :: l' => if (a <=? b)%Z then a :: b :: l' else b :: insert_height a l'
  end.

Definition sort_heights (l : list Z) : list Z := fold_right insert_height [] l.

(** [np.median(heights)]: the middle value, or the mean of the two middle
    values. *)
Definition median (heights : list Z) : Q :=
  let s := sort_heights heights in
  let n := List.length s in
  if Nat.even n then
    (inject_Z (nth (n / 2 - 1) s 0%Z) + inject_Z (nth (n / 2) s 0%Z)) / 2
  else inject_Z (nth (n / 2) s 0%Z).

Definition section_keywords : list string :=
  ["employment"; "experience"; "work"; "education"; "skills";
   "summary"; "profile"; "objective"; "projects"; "certifications";
   "achievements"; "awards"; "languages"; "history"; "background"].

(** The five checks of the loop body: the list [reasons]; [is_heading] is
    set exactly when a reason is appended.  [boldness] is
    [_estimate_boldness] on the page image; the products with 1.3 and 1.1
    compare with an integer height as the exact products do. *)
Definition heading_reasons_of (boldness : Z * Z * Z * Z -> Q) (avg_height : Q)
           (b : text_block) : list string :=
  let word_count := PyStr.word_count (text b) in
  (if Qlt_bool (avg_height * heading_size_ratio) (inject_Z (height b))
   then ["size"] else [])
  ++ (if PyStr.isupper (text b) && (PyStr.word_count (text b) <=? 5)%nat
      then ["all_caps"] else [])
  ++ (if Qlt_bool bold_threshold (boldness (bbox b)) then ["bold"] else [])
  ++ (if (word_count <=? 4)%nat
         && Qlt_bool (avg_height * 1.1) (inject_Z (height b))
      then ["short"] else [])
  ++ (if existsb (fun kw => PyStr.contains kw (PyStr.lower (text b)))
                 section_keywords
      then if (word_count <=? 5)%nat then ["keyword"] else []
      else []).

(** A block dictionary after the heading pass: [heading_reasons] is the key
    the pass adds to a heading. *)
Record marked_block : Type := {
  base : text_block;
  heading_reasons : option (list string)
}.

(** [block['is_heading'] = True] *)
Definition set_heading (b : text_block) : text_block :=
  {| text := text b; bbox := bbox b; confidence := confidence b;
     x := x b; y := y b; width := width b; height := height b;
     is_heading := true;
     zone := zone b; block_num := block_num b; line_num := line_num b |}.

Definition mark_block (boldness : Z * Z * Z * Z -> Q) (avg_height : Q)
           (b : text_block) : marked_block :=
  match heading_reasons_of boldness avg_height b with
  | [] => {| base := b; heading_reasons := None |}
  | reasons => {| base := set_heading b; heading_reasons := Some reasons |}
  end.

Definition unmarked (b : text_block) : marked_block :=
  {| base := b; heading_reasons := None |}.

Definition is_marked (m : marked_block) : bool :=
  match heading_reasons m with Some _ => true | None => false end.

(** [_identify_headings(text_blocks, img)]: the blocks as the pass leaves
    them, and the list [headings] it returns. *)
Definition _identify_headings (boldness : Z * Z * Z * Z -> Q)
           (text_blocks : list text_block)
  : list marked_block * list marked_block :=
  match List.filter (fun h => (0 <? h)%Z) (map height text_blocks) with
  | [] => (map unmarked text_blocks, [])
  | heights =>
      let avg_height := median heights in
      let marked := map (mark_block boldness avg_height) text_blocks in
      (marked, List.filter is_marked marked)
  end.

(** The dictionary returned by [analyze_layout]. *)
Record layout : Type := {
  zones : zone_map;
  text_blocks : list marked_block;
  headings : list marked_block;
  layout_columns : columns;
  reading_order : list nat;
  image_size : nat * nat
}.

(** The argument [image_path]: a path or an image object. *)
Inductive image_input : Type :=
| ImagePath (p : string)
| ImageObject (img : pil_image).

(** The first lines of [analyze_layout]: the image is opened when a path is
    given and converted when its mode is not RGB. *)
Definition load_image (env : imaging) (image_path : image_input)
  : outcome pil_image :=
  let! pil_img := match image_path with
                  | ImagePath p => image_open env p
                  | ImageObject img => Ok img
                  end in
  if String.eqb (image_mode pil_img) "RGB" then Ok pil_img
  else convert_rgb env pil_img.

(** [analyze_layout(image_path)]; the [KeyError] is that of the look-up
    [columns['divider']] in [_create_reading_order]. *)
Definition analyze_layout (env : imaging) (image_path : image_input)
  : outcome layout :=
  let! pil_img := load_image env image_path in
  let '(width, height) := image_dims pil_img in
  let zones := _detect_zones (Z.of_nat height) in
  let! text_blocks := _extract_text_blocks env pil_img in
  let columns := _detect_columns text_blocks width in
  let '(marked, headings) :=
    _identify_headings (estimate_boldness env pil_img) text_blocks in
  match _create_reading_order text_blocks columns with
  | None => raise "KeyError" "'divider'"
  | Some reading_order =>
      Ok {| zones := zones; text_blocks := marked; headings := headings;
            layout_columns := columns; reading_order := reading_order;
            image_size := (width, height) |}
  end.

End VisualLayoutAnalyzer.

(* ===================================================================== *)
(** * Layer 3: header matching and the assembly of sections
      ([section_identifier.py]) *)
(* ===================================================================== *)

Module SectionAssembly.
Import PyStr Spacy SectionIdentifier.
Import VisualLayoutAnalyzer(sorted_by).
Local Open Scope Z_scope.


(** The class attribute [SECTION_MAPPINGS], in its order. *)
Definition SECTION_MAPPINGS : list (string * list string) :=
  [ ("EMPLOYMENT",
     ["employment"; "employment history"; "work experience";
      "professional experience"; "work history"; "career history";
      "experience"; "professional background"; "relevant employment";
      "career experience"; "work"; "jobs"; "positions";
      "professional summary"; "work record"]);
    ("EDUCATION",
     ["education"; "educational background"; "academic background";
      "academic qualifications"; "qualifications"; "academics";
      "education background"; "schooling"; "degrees"; "academic history"]);
    ("SKILLS",
     ["skills"; "technical skills"; "core competencies"; "key skills";
      "professional skills"; "areas of expertise"; "competencies";
      "skill set"; "expertise"; "technical competencies"; "technologies";
      "technical proficiencies"; "core skills"]);
    ("SUMMARY",
     ["summary"; "professional summary"; "career summary"; "profile";
      "professional profile"; "career objective"; "objective";
      "executive summary"; "career overview"; "about me"; "about";
      "overview"]);
    ("PROJECTS",
     ["projects"; "key projects"; "project experience"; "notable projects";
      "portfolio"; "selected projects"; "project work"]);
    ("CERTIFICATIONS",
     ["certifications"; "certificates"; "professional certifications";
      "licenses"; "credentials"; "certified"; "licensing";
      "professional licenses"]);
    ("ACHIEVEMENTS",
     ["achievements"; "awards"; "honors"; "recognition"; "accomplishments";
      "awards and honors"; "distinctions"]);
    ("LANGUAGES",
     ["languages"; "language skills"; "language proficiency";
      "linguistic skills"]) ]%string.

(** The local [keyword_patterns] of technique 4. *)
Definition keyword_patterns : list (string * list string) :=
  [ ("EMPLOYMENT", ["work"; "employ"; "job"; "career"; "position"; "company"]);
    ("EDUCATION",
     ["educat"; "school"; "university"; "college"; "degree"; "academic"]);
    ("SKILLS", ["skill"; "technolog"; "competenc"; "proficien"; "expertise"]);
    ("SUMMARY", ["summar"; "profile"; "objective"; "overview"; "about"]);
    ("PROJECTS", ["project"; "portfolio"]);
    ("CERTIFICATIONS", ["certif"; "license"; "credential"]);
    ("ACHIEVEMENTS", ["achieve"; "award"; "honor"; "recognition"]);
    ("LANGUAGES", ["language"; "linguistic"]) ]%string.

(** [re.sub(r'[^a-z\s]', '', s)] *)
Fixpoint keep_letters (s : string) : string :=
  match s with
  | EmptyString => EmptyString
  | String c s' =>
      if is_lower c || is_space c then String c (keep_letters s')
      else keep_letters s'
  end.

(** The local [header_clean]. *)
Definition clean_header (header_text : string) : string :=
  keep_letters (lower (strip header_text)).

(** Technique 1: the first section whose synonyms hold [header_clean]. *)
Fixpoint exact_match (header_clean : string)
         (mappings : list (string * list string)) : option string :=
  match mappings with
  | [] => None
  | (section, synonyms) :: rest =>
      if existsb (String.eqb header_clean) synonyms then Some section
      else exact_match header_clean rest
  end.

(** Technique 2: the locals [best_match] and [best_score] through the two
    loops; [ratio] is [fuzz.token_sort_ratio]. *)
Definition fuzzy_step (ratio : string -> string -> Z) (header_clean : string)
           (section : string) (best : option string * Z) (synonym : string)
  : option string * Z :=
  let score := ratio header_clean synonym in
  if snd best <? score then (Some section, score) else best.

Definition fuzzy_best (ratio : string -> string -> Z) (header_clean : string)
  : option string * Z :=
  fold_left
    (fun best entry =>
       fold_left (fuzzy_step ratio header_clean (fst entry)) (snd entry) best)
    SECTION_MAPPINGS (None, 0).

(** The sentence-transformer model, when one was loaded: [encode] of the
    header gives, unless it raises ([None]), the largest similarity of the
    header to a list of synonyms, unless that raises. *)
Definition semantic_model : Type :=
  string -> option (list string -> option Q).

(** Technique 3: the loop over the sections; [None] when [encode] raised. *)
Fixpoint semantic_loop (max_sim : list string -> option Q)
         (mappings : list (string * list string)) (best : option string * Q)
  : option (option string * Q) :=
  match mappings with
  | [] => Some best
  | (section, synonyms) :: rest =>
      match max_sim synonyms with
      | None => None
      | Some sim =>
          semantic_loop max_sim rest
            (if PyNum.Qlt_bool (snd best) sim then (Some section, sim) else best)
      end
  end.

(** What technique 3 returns from the function; [None] when it falls
    through to technique 4. *)
Definition semantic_match (model : option semantic_model)
           (header_clean : string) : option (option string) :=
  match model with
  | None => None
  | Some encode =>
      match encode header_clean with
      | None => None
      | Some max_sim =>
          match semantic_loop max_sim SECTION_MAPPINGS (None, 0%Q) with
          | None => None
          | Some (best_section, best_sim) =>
              if PyNum.Qlt_bool 0.65 best_sim then Some best_section else None
          end
      end
  end.

(** Technique 4: the first section one of whose keywords occurs. *)
Fixpoint keyword_match (header_clean : string)
         (patterns : list (string * list string)) : option string :=
  match patterns with
  | [] => None
  | (section, keywords) :: rest =>
      if existsb (fun kw => contains kw header_clean) keywords
      then Some section
      else keyword_match header_clean rest
  end.

(** [_match_header_to_section(header_text)] *)
Definition _match_header_to_section (ratio : string -> string -> Z)
           (model : option semantic_model) (header_text : string)
  : option string :=
  let header_clean := clean_header header_text in
  match header_clean with
  | EmptyString => None
  | _ =>
      match exact_match header_clean SECTION_MAPPINGS with
      | Some section => Some section
      | None =>
          let '(best_match, best_score) := fuzzy_best ratio header_clean in
          if 80 <? best_score then best_match
          else
            match semantic_match model header_clean with
            | Some returned => returned
            | None => keyword_match header_clean keyword_patterns
            end
      end
  end.

(** The OCR results read by [identify_sections]: the lists under
    [section_headers_ocr] and [body_ocr], empty when the key is missing. *)
Record ocr_results : Type := {
  section_headers_ocr : list ContentValidator.ocr_block;
  body_ocr : list ContentValidator.ocr_block
}.

(** The dictionary built for a header or a body block. *)
Definition make_block (type_ : string) (d : ContentValidator.ocr_block)
  : ContentValidator.block :=
  {| ContentValidator.type := type_;
     ContentValidator.text := ContentValidator.ocr_text d;
     ContentValidator.y := snd (fst (fst (ContentValidator.original_bbox d)));
     ContentValidator.data := d;
     ContentValidator.validation_warning := None |}.

(** [all_blocks] after [all_blocks.sort(key=lambda x: x['y'])]: headers
    first, then bodies, sorted by a stable sort. *)
Definition all_blocks (r : ocr_results) : list ContentValidator.block :=
  sorted_by
    (fun b => (ContentValidator.y b, 0))
    (map (make_block "header") (section_headers_ocr r)
     ++ map (make_block "body") (body_ocr r)).

(** The locals of the loop of [identify_sections]. *)
Record assembly : Type := {
  matched_sections : ContentValidator.sections;
  unmatched_content : list ContentValidator.block;
  current_section : option string;
  current_content : list ContentValidator.block
}.

(** The truth value of an optional section name. *)
Definition named (o : option string) : bool :=
  match o with
  | Some (String _ _) => true
  | _ => false
  end.

(** [d[k].extend(bs)] *)
Definition extend_blocks (k : string) (bs : list ContentValidator.block)
           (d : ContentValidator.sections) : ContentValidator.sections :=
  fold_left (fun d b => ContentValidator.append_block k b d) bs d.

(** [if k not in d: d[k] = []] followed by [d[k].append(b)]. *)
Definition file_block (k : string) (b : ContentValidator.block)
           (d : ContentValidator.sections) : ContentValidator.sections :=
  ContentValidator.append_block k b (ContentValidator.ensure_key k d).

(** The saving of the current section's content, done at every header and
    after the loop. *)
Definition save_section (st : assembly) : ContentValidator.sections :=
  match current_section st, current_content st with
  | Some (String c s), _ :: _ =>
      extend_blocks (String c s) (current_content st)
        (ContentValidator.ensure_key (String c s) (matched_sections st))
  | _, _ => matched_sections st
  end.

Definition name_of (o : option string) : string :=
  match o with Some s => s | None => EmptyString end.

(** The body of the loop over [all_blocks]. *)
Definition assemble_step (nlp : option ner) (ratio : string -> string -> Z)
           (model : option semantic_model) (st : assembly)
           (b : ContentValidator.block) : assembly :=
  if String.eqb (ContentValidator.type b) "header" then
    let saved := save_section st in
    let matched_section :=
      _match_header_to_section ratio model (ContentValidator.text b) in
    if named matched_section then
      {| matched_sections := saved;
         unmatched_content := unmatched_content st;
         current_section := matched_section;
         current_content := [] |}
    else
      let classified :=
        _classify_content_by_analysis nlp (ContentValidator.text b) in
      if named classified then
        {| matched_sections := saved;
           unmatched_content := unmatched_content st;
           current_section := classified;
           current_content := [] |}
      else if named (current_section st) then
        {| matched_sections := saved;
           unmatched_content := unmatched_content st;
           current_section := current_section st;
           current_content := current_content st ++ [b] |}
      else
        {| matched_sections := saved;
           unmatched_content := unmatched_content st ++ [b];
           current_section := current_section st;
           current_content := current_content st |}
  else if String.eqb (ContentValidator.type b) "body" then
    if named (current_section st) then
      let content_classification :=
        _classify_content_by_analysis nlp (ContentValidator.text b) in
      if named content_classification
         && negb (String.eqb (name_of content_classification)
                             (name_of (current_section st)))
      then
        {| matched_sections :=
             file_block (name_of content_classification) b
                        (matched_sections st);
           unmatched_content := unmatched_content st;
           current_section := current_section st;
           current_content := current_content st |}
      else
        {| matched_sections := matched_sections st;
           unmatched_content := unmatched_content st;
           current_section := current_section st;
           current_content := current_content st ++ [b] |}
    else
      {| matched_sections := matched_sections st;
         unmatched_content := unmatched_content st ++ [b];
         current_section := current_section st;
         current_content := current_content st |}
  else st.

(** Step 2: an unmatched block is filed under its classification. *)
Definition classify_unmatched (nlp : option ner)
           (d : ContentValidator.sections) (b : ContentValidator.block)
  : ContentValidator.sections :=
  let classified_section :=
    _classify_content_by_analysis nlp (ContentValidator.text b) in
  if named classified_section
  then file_block (name_of classified_section) b d
  else d.

Definition initial_assembly : assembly :=
  {| matched_sections := []; unmatched_content := [];
     current_section := None; current_content := [] |}.

(** [identify_sections(ocr_results)] *)
Definition identify_sections (nlp : option ner)
           (ratio : string -> string -> Z) (model : option semantic_model)
           (r : ocr_results) : ContentValidator.sections :=
  let st :=
    fold_left (assemble_step nlp ratio model) (all_blocks r)
              initial_assembly in
  fold_left (classify_unmatched nlp) (unmatched_content st) (save_section st).

End SectionAssembly.

(* ===================================================================== *)
(** * Layer 5: the phone number of the header ([header_extractor.py]) *)
(* ===================================================================== *)

Module HeaderExtractor.
Import PyStr.

(** ** The text a pattern matches

    [re.search(r, s).group(0)] needs the matcher of [re], which tries the
    alternatives of a pattern in order: the first branch of [|] before the
    second, one more character of a class under [*] before one less, an
    optional part present before absent.  [k] is what follows the pattern;
    it answers with the text behind the whole match. *)
Fixpoint greedy_cls {A : Type} (p : ascii -> bool)
         (k : option ascii -> string -> option A)
         (prev : option ascii) (s : string) : option A :=
  match s with
  | String c s' =>
      if p c then
        match greedy_cls p k (Some c) s' with
        | Some x => Some x
        | None => k prev s
        end
      else k prev s
  | EmptyString => k prev s
  end.

Fixpoint rfind {A : Type} (r : regex)
         (k : option ascii -> string -> option A)
         (prev : option ascii) (s : string) : option A :=
  match r with
  | Eps => k prev s
  | Chr c =>
      match s with
      | String d s' => if Ascii.eqb c d then k (Some d) s' else None
      | EmptyString => None
      end
  | Cls p =>
      match s with
      | String d s' => if p d then k (Some d) s' else None
      | EmptyString => None
      end
  | Seq r1 r2 => rfind r1 (rfind r2 k) prev s
  | Alt r1 r2 =>
      match rfind r1 k prev s with
      | Some x => Some x
      | None => rfind r2 k prev s
      end
  | StarCls p => greedy_cls p k prev s
  | WordB => if at_boundary prev s then k prev s else None
  end.

(** The leftmost position of [s] where [r] matches, and the text matched
    there. *)
Fixpoint group_from (r : regex) (prev : option ascii) (s : string)
  : option string :=
  match rfind r (fun _ rest => Some rest) prev s with
  | Some rest => Some (take (String.length s - String.length rest) s)
  | None =>
      match s with
      | String c s' => group_from r (Some c) s'
      | EmptyString => None
      end
  end.

(** [m = re.search(r, s)] and [m.group(0)], [None] when there is no
    match. *)
Definition search_group (r : regex) (s : string) : option string :=
  group_from r None s.

(** [[\s.-]] *)
Definition phone_separator (c : ascii) : bool :=
  is_space c || (code c =? 46)%nat || (code c =? 45)%nat.

(** [\d{n}] *)
Definition digits (n : nat) : regex := seqs (repeat (Cls is_digit) n).

(** [self.phone_patterns] *)
Definition phone_patterns : list regex :=
  [ (* \+?1?\s*\(?\d{3}\)?[\s.-]?\d{3}[\s.-]?\d{4} *)
    seqs [opt (Chr "+"); opt (Chr "1"); StarCls is_space; opt (Chr "(");
          digits 3; opt (Chr ")"); opt (Cls phone_separator); digits 3;
          opt (Cls phone_separator); digits 4];
    (* \d{3}[\s.-]\d{3}[\s.-]\d{4} *)
    seqs [digits 3; Cls phone_separator; digits 3; Cls phone_separator;
          digits 4];
    (* \(\d{3}\)\s*\d{3}[\s.-]\d{4} *)
    seqs [Chr "("; digits 3; Chr ")"; StarCls is_space; digits 3;
          Cls phone_separator; digits 4] ].

(** [\D], replaced by the empty string. *)
Definition non_digit : rule :=
  fun _ s =>
    match s with
    | String c _ => if is_digit c then None else Some (1%nat, EmptyString)
    | EmptyString => None
    end.

(** [s[i:j]] *)
Definition slice (i j : nat) (s : string) : string := take (j - i) (drop i s).

(** [_normalize_phone(phone)] *)
Definition _normalize_phone (phone : string) : string :=
  let digits := re_sub non_digit phone in
  if (String.length digits =? 10)%nat then
    "(" ++ take 3 digits ++ ") " ++ slice 3 6 digits ++ "-" ++ drop 6 digits
  else if (String.length digits =? 11)%nat
          && match head digits with
             | Some c => Ascii.eqb c "1"
             | None => false
             end then
    "+1 (" ++ slice 1 4 digits ++ ") " ++ slice 4 7 digits ++ "-"
      ++ drop 7 digits
  else phone.

(** The loop of [_extract_phone] over the patterns. *)
Fixpoint first_phone (patterns : list regex) (text : string)
  : option string :=
  match patterns with
  | [] => None
  | pattern :: rest =>
      match search_group pattern text with
      | Some phone => Some (_normalize_phone phone)
      | None => first_phone rest text
      end
  end.

(** [_extract_phone(text)] *)
Definition _extract_phone (text : string) : option string :=
  first_phone phone_patterns text.

End HeaderExtractor.

(* ===================================================================== *)
(** * Layer 6: the template mapper ([template_mapper.py]) *)
(* ===================================================================== *)

Module TemplateMapper.
Import PyStr PyDict.

(** A line feed. *)
Definition LF : string := String (ascii_of_nat 10) EmptyString.

(** The list [texts]: the stripped texts of the blocks that are not
    blank. *)
Definition block_texts (content_blocks : list ContentValidator.block)
  : list string :=
  map (fun b => strip (ContentValidator.text b))
      (List.filter
         (fun b =>
            match ContentValidator.text b with
            | EmptyString => false
            | t => has_nonspace t
            end)
         content_blocks).

(** [_format_section_content(section_name, content_blocks)] *)
Definition _format_section_content (section_name : string)
           (content_blocks : list ContentValidator.block) : string :=
  match content_blocks with
  | [] => EmptyString
  | _ =>
      match block_texts content_blocks with
      | [] => EmptyString
      | texts =>
          if existsb (String.eqb section_name)
                     ["EMPLOYMENT"; "EDUCATION"; "PROJECTS"]%string
          then join (LF ++ LF) texts
          else if String.eqb section_name "SKILLS" then
            let combined := join " " texts in
            if contains "," combined || contains bullet combined
            then combined
            else join ", " texts
          else if String.eqb section_name "SUMMARY" then join " " texts
          else join LF texts
      end
  end.

(** The argument of [map_to_template]: the keys [header] and [sections]
    may be absent. *)
Record extracted_data : Type := {
  header : option (gmap string string);
  sections : option ContentValidator.sections
}.

(** The dictionary [map_to_template] returns. *)
Record mapped_data : Type := {
  name : string;
  email : string;
  phone : string;
  linkedin : string;
  github : string;
  location : string;
  title : string;
  mapped_sections : list (string * string)
}.

(** The loop that fills [formatted_sections]. *)
Definition format_entry (formatted_sections : list (string * string))
           (entry : string * list ContentValidator.block)
  : list (string * string) :=
  let formatted_content := _format_section_content (fst entry) (snd entry) in
  match formatted_content with
  | EmptyString => formatted_sections
  | _ => dict_set (fst entry) formatted_content formatted_sections
  end.

(** [map_to_template(extracted_data, template_path)]; the template path is
    not read. *)
Definition map_to_template (e : extracted_data) : mapped_data :=
  let header_info := default ∅ (header e) in
  let get := fun k => default EmptyString (header_info !! k) in
  {| name := get "name"%string;
     email := get "email"%string;
     phone := get "phone"%string;
     linkedin := get "linkedin"%string;
     github := get "github"%string;
     location := get "location"%string;
     title := get "title"%string;
     mapped_sections := fold_left format_entry (default [] (sections e)) [] |}.

End TemplateMapper.

(* ===================================================================== *)
(** * Layer 7: the quality scores ([post_processor.py]) *)
(* ===================================================================== *)

Module PostProcessor.
Import PyStr.
Local Open Scope Q_scope.

(** The cleaned data handed to [_calculate_quality_scores]: the keys
    [candidate_info] and [sections] may be absent. *)
Record data : Type := {
  candidate_info : option (gmap string string);
  sections : option (gmap string string)
}.

(** [d.get(k, '')] *)
Definition get_str (d : gmap string string) (k : string) : string :=
  default EmptyString (d !! k).

(** Truth value of a string. *)
Definition truthy (s : string) : bool :=
  match s with EmptyString => false | _ => true end.

Definition name_score (d : data) : Q :=
  let name := get_str (default ∅ (candidate_info d)) "name" in
  if truthy name then
    let word_count := word_count name in
    if (2 <=? word_count)%nat && (word_count <=? 4)%nat then 0.95
    else if (word_count =? 1)%nat then 0.5
    else 0.7
  else 0.

Definition contact_fields : list string := ["email"; "phone"; "linkedin"].

Definition contact_count (d : data) : nat :=
  List.length
    (List.filter (fun field => truthy (get_str (default ∅ (candidate_info d)) field))
                 contact_fields).

Definition contact_score (d : data) : Q :=
  Qmin 1 (inject_Z (Z.of_nat (contact_count d)) / 2).

Definition section_score (d : data) (section_name : string) : Q :=
  let content := get_str (default ∅ (sections d)) section_name in
  if truthy content then
    let word_count := word_count content in
    if (20 <? word_count)%nat then 0.9
    else if (5 <? word_count)%nat then 0.7
    else 0.5
  else 0.

Definition scored_sections : list string :=
  ["EMPLOYMENT"; "EDUCATION"; "SKILLS"; "SUMMARY"].

Definition weights : list (string * Q) :=
  [ ("name"%string, 0.25); ("contact"%string, 0.15);
    ("employment"%string, 0.25); ("education"%string, 0.20);
    ("skills"%string, 0.10); ("summary"%string, 0.05) ].

(** [scores.get(key, 0)] *)
Definition get_score (scores : gmap string Q) (key : string) : Q :=
  default 0 (scores !! key).

(** [sum(scores.get(key, 0) * weight for key, weight in weights.items())] *)
Definition weighted_sum (scores : gmap string Q) (ws : list (string * Q)) : Q :=
  fold_left (fun acc '(key, weight) => acc + get_score scores key * weight)
            ws 0.

(** [_calculate_quality_scores(data, completeness)]; the argument
    [completeness] is not read by the function. *)
Definition _calculate_quality_scores (d : data) : gmap string Q :=
  let scores : gmap string Q := <["name"%string := name_score d]> ∅ in
  let scores := <["contact"%string := contact_score d]> scores in
  let scores :=
    fold_left (fun sc section_name =>
                 <[lower section_name := section_score d section_name]> sc)
              scored_sections scores in
  <["overall"%string := weighted_sum scores weights]> scores.

(** ** Cleaning of the text fields *)

(** [OCR_CORRECTIONS], in the order of the dictionary. *)
Definition OCR_CORRECTIONS : list rule :=
  [ (* \bl\b -> I *)
    whole_word "l" "I";
    (* \bO\b(?=\d) -> 0 *)
    (fun prev s =>
       match s with
       | String c s' =>
           if Ascii.eqb c "O" && word_starts prev && word_ends s'
              && match head s' with Some d => is_digit d | None => false end
           then Some (1%nat, "0") else None
       | EmptyString => None
       end);
    (* (?<=\d)O\b -> 0 *)
    (fun prev s =>
       match s with
       | String c s' =>
           if Ascii.eqb c "O"
              && match prev with Some d => is_digit d | None => false end
              && word_ends s'
           then Some (1%nat, "0") else None
       | EmptyString => None
       end);
    (* (?<=[A-Z])0(?=[A-Z]) -> O *)
    (fun prev s =>
       match s with
       | String c s' =>
           if Ascii.eqb c "0"
              && match prev with Some d => is_upper d | None => false end
              && match head s' with Some d => is_upper d | None => false end
           then Some (1%nat, "O") else None
       | EmptyString => None
       end);
    (* \b5(?=\w{2,}) -> S *)
    (fun prev s =>
       match s with
       | String c s' =>
           if Ascii.eqb c "5" && word_starts prev && (2 <=? run is_word s')%nat
           then Some (1%nat, "S") else None
       | EmptyString => None
       end);
    (* \b8(?=\w{2,}) -> B *)
    (fun prev s =>
       match s with
       | String c s' =>
           if Ascii.eqb c "8" && word_starts prev && (2 <=? run is_word s')%nat
           then Some (1%nat, "B") else None
       | EmptyString => None
       end);
    whole_word "wa5" "was";
    whole_word "h4s" "has";
    whole_word "4nd" "and";
    whole_word "th3" "the";
    whole_word "c4n" "can";
    (* \s{2,} -> one space *)
    (fun _ s =>
       if (2 <=? run is_space s)%nat then Some (run is_space s, " ")
       else None);
    (* \n{3,} -> two newlines *)
    (fun _ s =>
       let is_newline := fun c => (code c =? 10)%nat in
       if (3 <=? run is_newline s)%nat
       then Some (run is_newline s,
                  String (ascii_of_nat 10) (String (ascii_of_nat 10) ""))
       else None) ]%string.

(** [(\w+)-\s+(\w+)] replaced by the two groups: a word, a hyphen, white
    space and a word; each run is the longest one, since the character
    behind a word is no word character and the one behind the white space
    is no white space. *)
Definition broken_word : rule :=
  fun _ s =>
    let n1 := run is_word s in
    let s1 := drop n1 s in
    match s1 with
    | String c s2 =>
        let n2 := run is_space s2 in
        let s3 := drop n2 s2 in
        let n3 := run is_word s3 in
        if (1 <=? n1)%nat && (code c =? 45)%nat && (1 <=? n2)%nat
           && (1 <=? n3)%nat
        then Some ((n1 + 1 + n2 + n3)%nat, (take n1 s ++ take n3 s3)%string)
        else None
    | EmptyString => None
    end.

(** The capital first letter of a sentence. *)
Definition capitalize_first (sent : string) : string :=
  match sent with
  | EmptyString => EmptyString
  | String c rest => String (upper_char c) rest
  end.

(** [_fix_capitalization(text)] *)
Definition _fix_capitalization (text : string) : string :=
  if isupper text then text
  else join ". " (map capitalize_first (split ". " text)).

(** [_clean_text(text)] *)
Definition _clean_text (text : string) : string :=
  match text with
  | EmptyString => text
  | _ =>
      let cleaned := fold_left (fun t r => re_sub r t) OCR_CORRECTIONS text in
      let cleaned := re_sub broken_word cleaned in
      let cleaned := _fix_capitalization cleaned in
      strip cleaned
  end.


(** ** The argument of [process_final_output] and its cleaning *)

(** The dictionary read by [process_final_output]: the keys
    [candidate_info], [sections] and [metadata], each of which may be
    absent; the sections are strings. *)
Record input : Type := {
  input_candidate_info : option (list (string * string));
  input_sections : option (list (string * string));
  input_metadata : option (list (string * list string))
}.

Definition clean_values (d : list (string * string)) : list (string * string) :=
  map (fun kv => (fst kv, _clean_text (snd kv))) d.

(** [_clean_all_text(data)] *)
Definition _clean_all_text (d : input) : input :=
  {| input_candidate_info := option_map clean_values (input_candidate_info d);
     input_sections := option_map clean_values (input_sections d);
     input_metadata := input_metadata d |}.

(** The cleaned dictionary as the scoring functions read it, by key. *)
Definition as_data (d : input) : data :=
  {| candidate_info := option_map list_to_map (input_candidate_info d);
     sections := option_map list_to_map (input_sections d) |}.

(** The dictionary [_validate_completeness] returns. *)
Record completeness : Type := {
  has_name : bool;
  has_email : bool;
  has_phone : bool;
  has_contact_info : bool;
  has_employment : bool;
  has_education : bool;
  has_skills : bool;
  has_summary : bool;
  required_fields_present : bool
}.

(** [_validate_completeness(data)] *)
Definition _validate_completeness (d : data) : completeness :=
  let candidate_info := default ∅ (candidate_info d) in
  let sections := default ∅ (sections d) in
  let name := truthy (get_str candidate_info "name") in
  let email := truthy (get_str candidate_info "email") in
  let phone := truthy (get_str candidate_info "phone") in
  let contact_info := email || phone in
  let employment := truthy (get_str sections "EMPLOYMENT") in
  let education := truthy (get_str sections "EDUCATION") in
  {| has_name := name;
     has_email := email;
     has_phone := phone;
     has_contact_info := contact_info;
     has_employment := employment;
     has_education := education;
     has_skills := truthy (get_str sections "SKILLS");
     has_summary := truthy (get_str sections "SUMMARY");
     required_fields_present :=
       name && contact_info && employment && education |}.

(** The first loop of [_cross_reference_validation]. *)
Definition short_section_issues (sections : list (string * string))
  : list string :=
  flat_map
    (fun kv =>
       if truthy (snd kv) && (word_count (snd kv) <? 5)%nat
       then [(fst kv ++ " section is very short - may be incomplete")%string]
       else [])
    sections.

(** [len(text1) > 50 and len(text2) > 50 and text1[:50] == text2[:50]] *)
Definition same_opening (text1 text2 : string) : bool :=
  (50 <? String.length text1)%nat && (50 <? String.length text2)%nat
  && String.eqb (take 50 text1) (take 50 text2).

(** The second loop: one issue for every text that opens as a later one
    does (the inner loop stops at the first). *)
Fixpoint duplicate_issues (section_texts : list string) : list string :=
  match section_texts with
  | [] => []
  | text1 :: rest =>
      (if existsb (same_opening text1) rest
       then ["Potential duplicate content detected across sections"%string]
       else [])
      ++ duplicate_issues rest
  end.

(** [_cross_reference_validation(data)] on the ordered sections. *)
Definition _cross_reference_validation (d : input) : list string :=
  let sections := default [] (input_sections d) in
  short_section_issues sections
  ++ duplicate_issues (List.filter truthy (map snd sections)).


End PostProcessor.

(* ===================================================================== *)
(** * The orchestrator ([advanced_resume_ocr.py], [docx_image_extractor.py]) *)
(* ===================================================================== *)

Module AdvancedResumeOCR.
Import PyStr PyDict.
Export PyExc.

(** The loosely typed values the layers exchange and the caller receives. *)
Inductive pyval : Type :=
| PNone
| PBool (b : bool)
| PInt (z : Z)
| PFloat (q : Q)
| PStr (s : string)
| PList (l : list pyval)
| PDict (d : list (string * pyval)).

Definition type_name (v : pyval) : string :=
  match v with
  | PNone => "NoneType"
  | PBool _ => "bool"
  | PInt _ => "int"
  | PFloat _ => "float"
  | PStr _ => "str"
  | PList _ => "list"
  | PDict _ => "dict"
  end.

(** [v[k]] for a string key. *)
Definition subscript (v : pyval) (k : string) : outcome pyval :=
  match v with
  | PDict d =>
      match dict_get k d with
      | Some x => Ok x
      | None => raise "KeyError" ("'" ++ k ++ "'")
      end
  | PStr _ => raise "TypeError" "string indices must be integers, not 'str'"
  | PList _ =>
      raise "TypeError" "list indices must be integers or slices, not str"
  | _ =>
      raise "TypeError" ("'" ++ type_name v ++ "' object is not subscriptable")
  end.

(** [len(v)] *)
Definition len (v : pyval) : outcome nat :=
  match v with
  | PStr s => Ok (String.length s)
  | PList l => Ok (List.length l)
  | PDict d => Ok (List.length d)
  | _ =>
      raise "TypeError" ("object of type '" ++ type_name v ++ "' has no len()")
  end.

(** A value under a float format specification, [code] being [f] in
    [:.1f] and the percent sign in [:.1%]. *)
Definition format_float (code : string) (v : pyval) : outcome unit :=
  match v with
  | PFloat _ | PInt _ | PBool _ => Ok tt
  | PStr _ =>
      raise "ValueError"
            ("Unknown format code '" ++ code ++ "' for object of type 'str'")
  | _ =>
      raise "TypeError"
            ("unsupported format string passed to " ++ type_name v ++ ".__format__")
  end.

(** [v.keys()] and [v.get(k, default)] exist on dictionaries only. *)
Definition keys_of (v : pyval) : outcome (list string) :=
  match v with
  | PDict d => Ok (dict_keys d)
  | _ =>
      raise "AttributeError"
            ("'" ++ type_name v ++ "' object has no attribute 'keys'")
  end.

Definition get_or (v : pyval) (k : string) (dflt : pyval) : outcome pyval :=
  match v with
  | PDict d => Ok (match dict_get k d with Some x => x | None => dflt end)
  | _ =>
      raise "AttributeError"
            ("'" ++ type_name v ++ "' object has no attribute 'get'")
  end.

(** [v[k] = x] *)
Definition set_item (v : pyval) (k : string) (x : pyval) : outcome pyval :=
  match v with
  | PDict d => Ok (PDict (dict_set k x d))
  | PList _ =>
      raise "TypeError" "list indices must be integers or slices, not str"
  | _ =>
      raise "TypeError"
            ("'" ++ type_name v ++ "' object does not support item assignment")
  end.

(** A PIL image, as far as the orchestrator looks at it. *)
Record image : Type := { size : Z * Z }.

(** The argument [image_path]: a path or an image object. *)
Inductive source : Type :=
| Path (p : string)
| Pil (img : image).

(** The processor object: the flag [verbose] and the seven layers, each a
    call that returns or raises.  [stdout] is the console the process runs
    with: what [print] does with a line that holds a character outside
    ASCII, written or refused with a [UnicodeEncodeError] where the encoding
    of the console lacks the character. *)
Record processor : Type := {
  verbose : bool;
  stdout : list string -> outcome unit;
  analyze_layout : source -> outcome pyval;
  perform_multipass_ocr : source -> pyval -> outcome pyval;
  identify_sections : pyval -> outcome pyval;
  validate_sections : pyval -> outcome pyval;
  extract_header_info : pyval -> pyval -> outcome pyval;
  map_to_template : pyval -> option string -> outcome pyval;
  process_final_output : pyval -> outcome pyval;
  generate_user_report : pyval -> outcome string
}.

(** ** The console *)

Definition newline : string := String (ascii_of_nat 10) EmptyString.

(** The check mark U+2713 and the cross mark U+274C in UTF-8. *)
Definition check_mark : string :=
  String (ascii_of_nat 226) (String (ascii_of_nat 156)
    (String (ascii_of_nat 147) EmptyString)).

Definition cross_mark : string :=
  String (ascii_of_nat 226) (String (ascii_of_nat 157)
    (String (ascii_of_nat 140) EmptyString)).

Fixpoint is_ascii (s : string) : bool :=
  match s with
  | EmptyString => true
  | String c s' => if (code c <? 128)%nat then is_ascii s' else false
  end.

(** The strings a value holds: what [str(v)] can bring to a line beyond
    ASCII (the text of a number is ASCII). *)
Fixpoint strings_of (v : pyval) : list string :=
  match v with
  | PStr s => [s]
  | PList l =>
      (fix go (l : list pyval) : list string :=
         match l with
         | [] => []
         | x :: rest => strings_of x ++ go rest
         end) l
  | PDict d =>
      (fix go (d : list (string * pyval)) : list string :=
         match d with
         | [] => []
         | (k, x) :: rest => k :: strings_of x ++ go rest
         end) d
  | _ => []
  end.

(** [print(line)]: [pieces] are the literal parts of the line and the
    strings formatted into it, in order; a formatted number is left out.  A
    line of ASCII characters is written by every console; for any other
    line the console answers. *)
Definition print (self : processor) (pieces : list string) : outcome unit :=
  if forallb is_ascii pieces then Ok tt else stdout self pieces.

(** [os.path.basename(p)], as [posixpath] has it: what follows the last
    slash. *)
Fixpoint basename (p : string) : string :=
  match p with
  | EmptyString => EmptyString
  | String c p' =>
      if contains "/" p' then basename p'
      else if Ascii.eqb c "/" then p' else p
  end.

(** The progress lines of verbose mode.  Evaluating what is printed can
    raise, and so can writing it; the lines that are ASCII whatever the
    data are ([[Layer 1/7] ...], the rules of [=], the time, the overall
    quality) are written and have no case here. *)
Definition when (b : bool) (m : outcome unit) : outcome unit :=
  if b then m else Ok tt.

Definition report_layout (self : processor) (layout_info : pyval)
  : outcome unit :=
  let! tb := subscript layout_info "text_blocks" in
  let! _ := len tb in
  let! _ := print self [("  " ++ check_mark ++ " Found ")%string; " text blocks"] in
  let! hs := subscript layout_info "headings" in
  let! _ := len hs in
  let! _ := print self [("  " ++ check_mark ++ " Detected ")%string; " headings"] in
  let! cs := subscript layout_info "columns" in
  let! count := subscript cs "count" in
  print self ([("  " ++ check_mark ++ " Layout: ")%string] ++ strings_of count
              ++ ["-column"]).

Definition report_ocr (self : processor) (ocr_results : pyval)
  : outcome unit :=
  let! h := subscript ocr_results "header_ocr" in
  let! c := subscript h "confidence" in
  let! _ := format_float "f" c in
  let! _ := print self [("  " ++ check_mark ++ " Header OCR: ")%string;
                        "% confidence"] in
  let! sh := subscript ocr_results "section_headers_ocr" in
  let! _ := len sh in
  let! _ := print self [("  " ++ check_mark ++ " Extracted ")%string;
                        " section headers"] in
  let! bo := subscript ocr_results "body_ocr" in
  let! _ := len bo in
  print self [("  " ++ check_mark ++ " Extracted ")%string; " content blocks"].

(** [for section_name in keys: print(f"    - {section_name}")] *)
Fixpoint print_names (self : processor) (keys : list string)
  : outcome unit :=
  match keys with
  | [] => Ok tt
  | section_name :: rest =>
      let! _ := print self [("    - " ++ section_name)%string] in
      print_names self rest
  end.

Definition report_sections (self : processor) (identified_sections : pyval)
  : outcome unit :=
  let! _ := len identified_sections in
  let! _ := print self [("  " ++ check_mark ++ " Identified ")%string; " sections:"] in
  let! keys := keys_of identified_sections in
  print_names self keys.

Definition report_final (self : processor) (final_output : pyval)
  : outcome unit :=
  let! qs := subscript final_output "quality_scores" in
  let! o := subscript qs "overall" in
  let! _ := format_float "%" o in
  let! ci := subscript final_output "candidate_info" in
  let! name := get_or ci "name" (PStr "N/A") in
  let! _ := print self ("Candidate: " :: strings_of name) in
  let! report := generate_user_report self final_output in
  print self [(newline ++ report)%string].

(** The body of the [try] block of [process_resume]; [start_time] and
    [end_time] are the two readings of [time.time()]. *)
Definition pipeline (self : processor) (image_path : source)
           (template_path : option string) (start_time end_time : Q)
  : outcome pyval :=
  let! layout_info := analyze_layout self image_path in
  let! _ := when (verbose self) (report_layout self layout_info) in
  let! ocr_results := perform_multipass_ocr self image_path layout_info in
  let! _ := when (verbose self) (report_ocr self ocr_results) in
  let! identified_sections := identify_sections self ocr_results in
  let! _ := when (verbose self) (report_sections self identified_sections) in
  let! validated_sections := validate_sections self identified_sections in
  let! header_ocr := subscript ocr_results "header_ocr" in
  let! header_info := extract_header_info self header_ocr layout_info in
  let extracted_data :=
    PDict [("header", header_info); ("sections", validated_sections)] in
  let! mapped_data := map_to_template self extracted_data template_path in
  let! final_output := process_final_output self mapped_data in
  let! final_output :=
    set_item final_output "processing_time" (PFloat (end_time - start_time)) in
  let! final_output := set_item final_output "pipeline_version" (PStr "1.0.0") in
  let! _ := when (verbose self) (report_final self final_output) in
  Ok final_output.

(** The dictionary returned by the [except Exception] handler. *)
Definition failure_result (e : exn) : pyval :=
  let error_msg := ("Error processing resume: " ++ exn_str e)%string in
  PDict [ ("success", PBool false);
          ("error", PStr error_msg);
          ("candidate_info", PDict []);
          ("sections", PDict []);
          ("quality_scores", PDict [("overall", PFloat 0)]);
          ("warnings", PList [PStr error_msg]);
          ("recommendations", PList [PStr "Please try manual data entry"]) ].

(** The lines printed before the [try] block: the last one names the
    input. *)
Definition announce (self : processor) (image_path : source) : outcome unit :=
  when (verbose self)
       (print self [("Input: " ++ match image_path with
                                   | Path p => basename p
                                   | Pil _ => "Image object"
                                   end)%string]).

(** The [except Exception] handler: under [verbose] it prints the cross
    mark and the message before it returns its dictionary.
    [traceback.print_exc()] writes to [sys.stderr], which replaces what it
    cannot encode and raises nothing. *)
Definition handler (self : processor) (e : exn) : outcome pyval :=
  let error_msg := ("Error processing resume: " ++ exn_str e)%string in
  let! _ := when (verbose self)
                 (print self [(newline ++ cross_mark ++ " " ++ error_msg)%string]) in
  Ok (failure_result e).

(** [process_resume(image_path, template_path)]: what it returns, or the
    exception that leaves it. *)
Definition process_resume (self : processor) (image_path : source)
           (template_path : option string) (start_time end_time : Q)
  : outcome pyval :=
  let! _ := announce self image_path in
  match pipeline self image_path template_path start_time end_time with
  | Ok final_output => Ok final_output
  | Raised e => handler self e
  end.

(** ** DOCX input *)

(** A DOCX file as [docx_image_extractor.py] sees it: whether
    [Document(path)] opens it, the images that load from its relationships,
    the images that load from [word/media/] of the archive, and the texts of
    its paragraphs. *)
Record docx_file : Type := {
  opens : bool;
  relationship_images : list image;
  media_images : list image;
  paragraphs : list string
}.

(** [extract_images_from_docx]: the archive is read only when the
    relationships gave nothing; any failure gives the empty list. *)
Definition extract_images_from_docx (f : docx_file) : list image :=
  if opens f then
    match relationship_images f with
    | [] => media_images f
    | images => images
    end
  else [].

(** [combine_images_vertically] *)
Definition combine_images_vertically (images : list image) : option image :=
  match images with
  | [] => None
  | [img] => Some img
  | _ =>
      let total_height := fold_right Z.add 0%Z (map (fun i => snd (size i)) images) in
      let max_width := fold_right Z.max 0%Z (map (fun i => fst (size i)) images) in
      Some {| size := (max_width, total_height) |}
  end.

(** [extract_and_combine], which is also [docx_to_ocr_image]. *)
Definition extract_and_combine (f : docx_file) : option image :=
  match extract_images_from_docx f with
  | [] => None
  | images => combine_images_vertically images
  end.

Definition docx_to_ocr_image (f : docx_file) : option image :=
  extract_and_combine f.

(** [extract_text_from_docx]: the non-blank paragraphs joined by newlines,
    or the empty string when the file does not open. *)
Definition extract_text_from_docx (f : docx_file) : string :=
  if opens f then join newline (List.filter has_nonspace (paragraphs f))
  else EmptyString.

Definition truthy (s : string) : bool :=
  match s with EmptyString => false | _ => true end.

Definition text_only_result (text : string) : pyval :=
  PDict [ ("success", PBool true);
          ("candidate_info", PDict [("name", PStr "Unknown")]);
          ("sections", PDict [("RAW_TEXT", PStr text)]);
          ("quality_scores", PDict [("overall", PFloat 0.5)]);
          ("warnings",
           PList [PStr "No images found in DOCX, extracted text only"]);
          ("recommendations",
           PList [PStr "Convert resume to image format for better OCR"]) ].

Definition empty_docx_result : pyval :=
  PDict [ ("success", PBool false);
          ("error", PStr "No images or text found in DOCX");
          ("warnings", PList [PStr "DOCX appears to be empty"]);
          ("recommendations", PList [PStr "Please check the DOCX file"]) ].

(** The dictionary returned by the [except Exception] handler of
    [process_docx_resume]. *)
Definition docx_failure_result (e : exn) : pyval :=
  PDict [ ("success", PBool false);
          ("error", PStr ("Error processing DOCX: " ++ exn_str e)%string);
          ("warnings", PList [PStr (exn_str e)]);
          ("recommendations",
           PList [PStr "Try converting DOCX to PDF or image first"]) ].

(** [process_docx_resume(docx_path, template_path)].  The lines it prints
    are ASCII, and the extraction calls of its [try] body are total in this
    model: its handler is reached by an exception that leaves
    [process_resume]. *)
Definition process_docx_resume (self : processor) (docx_path : docx_file)
           (template_path : option string) (start_time end_time : Q) : pyval :=
  match docx_to_ocr_image docx_path with
  | None =>
      let text := extract_text_from_docx docx_path in
      if truthy text then text_only_result text else empty_docx_result
  | Some combined_image =>
      match process_resume self (Pil combined_image) template_path
                           start_time end_time with
      | Ok result => result
      | Raised e => docx_failure_result e
      end
  end.

(** ** Reading a result *)

(** [r.get(k)] on a result dictionary. *)
Definition field (r : pyval) (k : string) : option pyval :=
  match r with
  | PDict d => dict_get k d
  | _ => None
  end.

(** The terminal failure shape: [success] is false, [candidate_info] and
    [sections] are empty, the overall quality is 0, the only warning is
    [msg] and manual data entry is recommended. *)
Definition terminal_failure (r : pyval) (msg : string) : Prop :=
  field r "success" = Some (PBool false)
  /\ field r "candidate_info" = Some (PDict [])
  /\ field r "sections" = Some (PDict [])
  /\ field r "quality_scores" = Some (PDict [("overall", PFloat 0)])
  /\ field r "warnings" = Some (PList [PStr msg])
  /\ field r "recommendations"
     = Some (PList [PStr "Please try manual data entry"]).

(** [stage_raises self image_path template_path e]: one of the seven layer
    calls of [process_resume] raises [e], the layer calls and the argument
    look-up before it having returned. *)
Inductive stage_raises (self : processor) (image_path : source)
          (template_path : option string) (e : exn) : Prop :=
| raises_layer1 :
    analyze_layout self image_path = Raised e ->
    stage_raises self image_path template_path e
| raises_layer2 layout_info :
    analyze_layout self image_path = Ok layout_info ->
    perform_multipass_ocr self image_path layout_info = Raised e ->
    stage_raises self image_path template_path e
| raises_layer3 layout_info ocr_results :
    analyze_layout self image_path = Ok layout_info ->
    perform_multipass_ocr self image_path layout_info = Ok ocr_results ->
    identify_sections self ocr_results = Raised e ->
    stage_raises self image_path template_path e
| raises_layer4 layout_info ocr_results identified :
    analyze_layout self image_path = Ok layout_info ->
    perform_multipass_ocr self image_path layout_info = Ok ocr_results ->
    identify_sections self ocr_results = Ok identified ->
    validate_sections self identified = Raised e ->
    stage_raises self image_path template_path e
| raises_layer5 layout_info ocr_results identified validated header_ocr :
    analyze_layout self image_path = Ok layout_info ->
    perform_multipass_ocr self image_path layout_info = Ok ocr_results ->
    identify_sections self ocr_results = Ok identified ->
    validate_sections self identified = Ok validated ->
    subscript ocr_results "header_ocr" = Ok header_ocr ->
    extract_header_info self header_ocr layout_info = Raised e ->
    stage_raises self image_path template_path e
| raises_layer6 layout_info ocr_results identified validated header_ocr
                header_info :
    analyze_layout self image_path = Ok layout_info ->
    perform_multipass_ocr self image_path layout_info = Ok ocr_results ->
    identify_sections self ocr_results = Ok identified ->
    validate_sections self identified = Ok validated ->
    subscript ocr_results "header_ocr" = Ok header_ocr ->
    extract_header_info self header_ocr layout_info = Ok header_info ->
    map_to_template self
      (PDict [("header", header_info); ("sections", validated)])
      template_path = Raised e ->
    stage_raises self image_path template_path e
| raises_layer7 layout_info ocr_results identified validated header_ocr
                header_info mapped_data :
    analyze_layout self image_path = Ok layout_info ->
    perform_multipass_ocr self image_path layout_info = Ok ocr_results ->
    identify_sections self ocr_results = Ok identified ->
    validate_sections self identified = Ok validated ->
    subscript ocr_results "header_ocr" = Ok header_ocr ->
    extract_header_info self header_ocr layout_info = Ok header_info ->
    map_to_template self
      (PDict [("header", header_info); ("sections", validated)])
      template_path = Ok mapped_data ->
    process_final_output self mapped_data = Raised e ->
    stage_raises self image_path template_path e.

(** The eight canonical section types ([SECTION_MAPPINGS]). *)
Definition canonical_section_types : list string :=
  ["EMPLOYMENT"; "EDUCATION"; "SKILLS"; "SUMMARY"; "PROJECTS";
   "CERTIFICATIONS"; "ACHIEVEMENTS"; "LANGUAGES"].

(** ** The convenience functions *)

(** [AdvancedResumeOCR(verbose=verbose)]: the processor with the layers of
    [self], as the constructor builds them, and the given flag. *)
Definition with_verbose (verbose : bool) (self : processor) : processor :=
  {| verbose := verbose;
     stdout := stdout self;
     analyze_layout := analyze_layout self;
     perform_multipass_ocr := perform_multipass_ocr self;
     identify_sections := identify_sections self;
     validate_sections := validate_sections self;
     extract_header_info := extract_header_info self;
     map_to_template := map_to_template self;
     process_final_output := process_final_output self;
     generate_user_report := generate_user_report self |}.

(** [process_resume_image(image_path, template_path, verbose)] *)
Definition process_resume_image (self : processor) (image_path : source)
           (template_path : option string) (verbose : bool)
           (start_time end_time : Q) : outcome pyval :=
  process_resume (with_verbose verbose self) image_path template_path
                 start_time end_time.

(** [quick_extract(image_path)]: the look-ups of its dictionary display run
    from left to right and are not guarded. *)
Definition quick_extract (self : processor) (image_path : source)
           (start_time end_time : Q) : outcome pyval :=
  let! result :=
    process_resume_image self image_path None false start_time end_time in
  let! candidate_info := subscript result "candidate_info" in
  let! name := get_or candidate_info "name" (PStr "") in
  let! candidate_info := subscript result "candidate_info" in
  let! email := get_or candidate_info "email" (PStr "") in
  let! candidate_info := subscript result "candidate_info" in
  let! phone := get_or candidate_info "phone" (PStr "") in
  let! sections := get_or result "sections" (PDict []) in
  let! quality_scores := subscript result "quality_scores" in
  let! quality := subscript quality_scores "overall" in
  Ok (PDict [ ("name", name); ("email", email); ("phone", phone);
              ("sections", sections); ("quality", quality) ]).

End AdvancedResumeOCR.

(* ===================================================================== *)
(** * Vocabulary of the properties and sample inputs *)
(* ===================================================================== *)

Section OrchestratorVocabulary.
Import PyStr PyDict AdvancedResumeOCR.

(** A processor whose first layer fails on every input and whose other
    layers hand their argument on. *)
Definition failing_processor : processor :=
  {| verbose := false;
     stdout := fun _ => Ok tt;
     analyze_layout := fun _ => raise "OSError" "cannot identify image file";
     perform_multipass_ocr := fun _ v => Ok v;
     identify_sections := fun v => Ok v;
     validate_sections := fun v => Ok v;
     extract_header_info := fun v _ => Ok v;
     map_to_template := fun v _ => Ok v;
     process_final_output := fun v => Ok v;
     generate_user_report := fun _ => Ok EmptyString |}.

(** The exception of [Image.open] for a file that does not exist, and the
    one of [print] for the handler's line on a console with a character
    map that lacks the cross mark. *)
Definition missing_file_error : exn :=
  {| exn_class := "FileNotFoundError";
     exn_str := "[Errno 2] No such file or directory: 'missing.png'" |}.

Definition cross_mark_error : exn :=
  {| exn_class := "UnicodeEncodeError";
     exn_str := "'charmap' codec can't encode character '\u274c' in position 1: character maps to <undefined>" |}.

(** A processor in verbose mode whose console refuses the lines that hold
    the cross mark and whose first layer cannot open the image; the other
    layers hand their argument on. *)
Definition charmap_console_processor : processor :=
  {| verbose := true;
     stdout := fun pieces =>
                 if existsb (contains cross_mark) pieces
                 then Raised cross_mark_error else Ok tt;
     analyze_layout := fun _ => Raised missing_file_error;
     perform_multipass_ocr := fun _ v => Ok v;
     identify_sections := fun v => Ok v;
     validate_sections := fun v => Ok v;
     extract_header_info := fun v _ => Ok v;
     map_to_template := fun v _ => Ok v;
     process_final_output := fun v => Ok v;
     generate_user_report := fun _ => Ok EmptyString |}.

(** A DOCX that opens, with no image and no paragraph. *)
Definition empty_docx : docx_file :=
  {| opens := true; relationship_images := []; media_images := [];
     paragraphs := [] |}.

(** A DOCX with no image and two lines of text around a blank paragraph. *)
Definition text_docx : docx_file :=
  {| opens := true; relationship_images := []; media_images := [];
     paragraphs := ["Jane Roe"; " "; "Engineer"] |}.

End OrchestratorVocabulary.

Section ClassifierVocabulary.
Import SectionIdentifier.

(** A responsibilities text that names a company and a managed team, and
    mentions a university. *)
Definition mixed_content : string :=
  "Responsibilities: managed team at Acme Corporation; studied at a University".

End ClassifierVocabulary.

Section LayoutVocabulary.
Import PyNum PyExc VisualLayoutAnalyzer.
Local Open Scope Q_scope.

(** The doubles written [0.9] and [0.57]. *)
Definition double_0_9 : Q := 8106479329266893 # 9007199254740992.
Definition double_0_57 : Q := 5134103575202365 # 9007199254740992.

(** Two detections with a flat box of eight coordinates, read with
    confidence 0.9 and 0.57, and the first of them with the four corner
    points of EasyOCR. *)
Definition flat_results : list ocr_result :=
  [ {| result_bbox := Flat [10; 20; 110; 20; 110; 40; 10; 40];
       result_text := "JOHN DOE"; result_conf := double_0_9 |};
    {| result_bbox := Flat [10; 60; 90; 60; 90; 75; 10; 75];
       result_text := "Engineer"; result_conf := double_0_57 |} ].

Definition corner_results : list ocr_result :=
  [ {| result_bbox := Corners (10, 20) (110, 20) (110, 40) (10, 40);
       result_text := "JOHN DOE"; result_conf := double_0_9 |} ].

(** An RGB page 800 wide and 1000 high, and the calls around it: every
    file opens as that page and [readtext] answers [results]. *)
Definition sample_image : pil_image :=
  {| image_mode := "RGB"; image_dims := (800%nat, 1000%nat) |}.

Definition reading (results : list ocr_result) : imaging :=
  {| image_open := fun _ => Ok sample_image;
     convert_rgb := fun img => Ok img;
     np_array := fun _ => Ok tt;
     readtext := fun _ => Ok results;
     print_warning := fun _ => Ok tt;
     estimate_boldness := fun _ _ => 1 |}.

(** Four blocks of a page 400 wide: two in a left column, two in a right
    column, given in no particular order, and the layout that splits the
    page at 200. *)
Definition sample_block (bx by_ bw : Z) : text_block :=
  {| text := "line"; bbox := (bx, by_, bw, 10%Z); confidence := Finite 90;
     x := bx; y := by_; width := bw; height := 10;
     is_heading := false; zone := body; block_num := 0; line_num := 0 |}.

Definition sample_page : list text_block :=
  [ sample_block 300 10 100; sample_block 10 50 90;
    sample_block 10 10 90; sample_block 300 5 80 ].

Definition two_columns : columns :=
  {| count := 2; boundaries := [(0, 200); (200, 400)]%Z;
     divider := Some 200%Z |}.

(** [a] carries the key [k]. *)
Definition has_key_value {A : Type} (key : A -> Z * Z) (k : Z * Z) (a : A)
  : bool :=
  (fst (key a) =? fst k)%Z && (snd (key a) =? snd k)%Z.

(** [a] may stand before [b] in a list sorted by [key]. *)
Definition key_ordered {A : Type} (key : A -> Z * Z) (a b : A) : Prop :=
  key_le (key a) (key b) = true.

(** The block with index [i] lies left of the divider [d] (its centre is
    before it), resp. right of it, as [_create_reading_order] tells them
    apart. *)
Definition left_of (blocks : list text_block) (d : Z) (i : nat) : Prop :=
  exists b, nth_error blocks i = Some b /\ block_center b < inject_Z d.

Definition right_of (blocks : list text_block) (d : Z) (i : nat) : Prop :=
  exists b, nth_error blocks i = Some b /\ inject_Z d <= block_center b.

(** The key [(y, x)] of the block with index [i]. *)
Definition index_key (blocks : list text_block) (i : nat) : Z * Z :=
  match nth_error blocks i with
  | Some b => (y b, x b)
  | None => (0%Z, 0%Z)
  end.

(** Every index of [order] has a key [(y, x)] not larger than the keys of
    the indices after it. *)
Definition top_to_bottom (blocks : list text_block) (order : list nat) : Prop :=
  StronglySorted (key_ordered (index_key blocks)) order.

End LayoutVocabulary.

Section QualityVocabulary.
Local Open Scope Q_scope.

(** A score lies in the closed interval [0,1]. *)
Definition in_unit (q : Q) : Prop := 0 <= q /\ q <= 1.

End QualityVocabulary.

Section ValidatorVocabulary.
Import PyStr PyNum PyDict Spacy ContentValidator.
Local Open Scope Q_scope.

(** [reason_of] is the third component of [_validate_content]. *)
Definition reason_of (nlp : option ner) (text section_type : string) : string :=
  snd (_validate_content nlp text section_type).

(** [all_blocks P d]: every block [b] filed under a key [k] of [d] satisfies
    [P k b]. *)
Definition all_blocks (P : string -> block -> Prop) (d : sections) : Prop :=
  Forall (fun e => Forall (P (fst e)) (snd e)) d.

(** A block is settled in a section when a validation pass leaves it there
    unchanged: it is not blank, and it is either kept cleanly or flagged with
    the warning it already carries. *)
Definition settled (nlp : option ner) (section_name : string) (b : block)
  : Prop :=
  has_nonspace (text b) = true
  /\ (decide_block nlp section_name (text b) = Keep
      \/ exists reason,
           decide_block nlp section_name (text b) = Flag reason
           /\ validation_warning b = Some reason).

(** The number of blocks filed in a dictionary, and of non-blank blocks. *)
Definition total_blocks (d : sections) : nat :=
  fold_right (fun e n => (List.length (snd e) + n)%nat) 0%nat d.

Definition nonblank (bs : list block) : nat :=
  List.length (List.filter (fun b => has_nonspace (text b)) bs).

Definition nonblank_count (d : sections) : nat :=
  fold_right (fun e n => (nonblank (snd e) + n)%nat) 0%nat d.

(** The relocation record of one examined block: empty or a single note. *)
Definition relocation_of (nlp : option ner) (section_name : string) (b : block)
  : list move_note :=
  if has_nonspace (text b) then
    match decide_block nlp section_name (text b) with
    | Move correct_section =>
        [{| move_from := section_name; move_to := correct_section;
            move_text := take 60 (text b) |}]
    | _ => []
    end
  else [].

Definition relocation_notes (nlp : option ner) (d : sections) : list move_note :=
  flat_map (fun e => flat_map (relocation_of nlp (fst e)) (snd e)) d.

(** The blocks filed under the key [K] of a dictionary of sections. *)
Definition blocks_under (K : string) (d : sections) : list block :=
  default [] (dict_get K d).

(** Where the score bands send a block filed under [section_name], [c]
    being its score against that section: a blank block is skipped; with
    [c >= 0.5] the block stays as it is; with [c < 0.5] it goes to the type
    [_find_correct_section] names, if any; failing that it is dropped when
    [c < 0.3] and stays, flagged with the validation reason, otherwise.
    [None] says that nothing is filed, [Some (T, b')] that [b'] is filed
    under [T]. *)
Definition band_destination (nlp : option ner) (section_name : string)
           (b : block) : option (string * block) :=
  let c := confidence_of nlp (text b) section_name in
  if negb (has_nonspace (text b)) then None
  else if Qle_bool 0.5 c then Some (section_name, b)
  else match _find_correct_section nlp (text b) with
       | Some T => Some (T, b)
       | None =>
           if Qlt_bool c 0.3 then None
           else Some (section_name,
                      flag (reason_of nlp (text b) section_name) b)
       end.

(** What one block filed under [section_name] brings to the key [K]. *)
Definition sent_to (nlp : option ner) (K section_name : string) (b : block)
  : list block :=
  match band_destination nlp section_name b with
  | Some (T, b') => if String.eqb T K then [b'] else []
  | None => []
  end.

(** The blocks the bands file under [K]: those of every section of the
    input, in the order of the input. *)
Definition filed_by_bands (nlp : option ner) (K : string) (s : sections)
  : list block :=
  flat_map (fun entry => flat_map (sent_to nlp K (fst entry)) (snd entry)) s.

(** A block whose text names two achievements and two summary words in
    three short sentences. *)
Definition borderline_block : block :=
  {| type := "body";
     text := "professional expertise. achieved. increased.";
     y := 120;
     data := {| ocr_text := "professional expertise. achieved. increased.";
                original_bbox := (40, 120, 300, 18)%Z;
                ocr_confidence := 88 |};
     validation_warning := None |}.

(** A body block holding the text [t]. *)
Definition plain_block (t : string) : block :=
  {| type := "body"; text := t; y := 0;
     data := {| ocr_text := t; original_bbox := (0, 0, 100, 10)%Z;
                ocr_confidence := 90 |};
     validation_warning := None |}.

(** Two sections: the borderline block between a job line and a blank
    block of an employment section, and a degree line filed under
    EDUCATION. *)
Definition job_line : block :=
  plain_block "Managed a team of developers at Acme Inc from 2019 to 2021".

Definition mixed_sections : sections :=
  [("EMPLOYMENT", [job_line; borderline_block; plain_block "   "]);
   ("EDUCATION", [plain_block "Bachelor of Science, University of Texas"])].

End ValidatorVocabulary.

Section DedupVocabulary.
Import PyStr PyNum PyDict Spacy ContentValidator.

(** The hashes of the blocks of a dictionary, in iteration order. *)
Definition section_hashes (hash : string -> Z) (d : sections) : list Z :=
  flat_map (fun e => map (text_hash hash) (snd e)) d.

(** No key of [d] holds the empty list. *)
Definition no_empty_section (d : sections) : Prop :=
  Forall (fun e => snd e <> []) d.

(** Every entry of [d] holds, in their order, some of the blocks that [s]
    holds under the same key. *)
Definition drawn_from (d s : sections) : Prop :=
  Forall (fun e => exists bs, In (fst e, bs) s /\ sublist (snd e) bs) d.

(** The blocks of a dictionary, in iteration order. *)
Definition blocks_of (d : sections) : list block := flat_map snd d.

(** What the section loop maintains, whatever the keys are. *)
Definition dedup_inv (hash : string -> Z) (s : sections)
           (st : gset Z * sections) : Prop :=
  (forall z, In z (section_hashes hash (snd st)) -> z ∈ fst st)
  /\ List.NoDup (section_hashes hash (snd st))
  /\ no_empty_section (snd st)
  /\ drawn_from (snd st) s.

Local Open Scope Q_scope.

(** What the two loops maintain: [from] are the blocks examined so far. *)
Definition filter_inv (nlp : option ner) (from : list block) (d : sections)
  : Prop :=
  all_blocks (fun k b => 0.3 <= confidence_of nlp (text b) k) d
  /\ no_empty_section d
  /\ incl (blocks_of d) from.


(** A stand-in for Python's [hash] on strings: the length. *)
Definition length_hash (s : string) : Z := Z.of_nat (String.length s).

(** A dictionary naming one skill twice. *)
Definition repeated_skill : sections :=
  [("SKILLS", [plain_block "python"; plain_block "docker"]);
   ("SUMMARY", [plain_block "python"])].

(** Two texts of more than 100 characters that differ after the 100th. *)
Definition ten_words : string :=
  "managed the delivery of a data platform for five business units across three regions and two clouds ".
Definition long_block_1 : block := plain_block (ten_words ++ "in 2020").
Definition long_block_2 : block := plain_block (ten_words ++ "in 2023").

(** The two degree lines of the validator's self-test. *)
Definition bachelor_block : block :=
  plain_block "Bachelor of Science in Computer Science, MIT".
Definition master_block : block :=
  plain_block "Master of Science in AI, Stanford, 2020".

End DedupVocabulary.

Section LayoutVocabulary2.
Import PyNum VisualLayoutAnalyzer.
Local Open Scope Q_scope.

(** A detection whose box, 100 by 20, has its upper left corner at
    [(bx, by_)]. *)
Definition detection_at (bx by_ : Z) : detection :=
  {| det_bbox := {| x1 := inject_Z bx; y1 := inject_Z by_;
                    x2 := inject_Z bx + 100; y2 := inject_Z by_;
                    x3 := inject_Z bx + 100; y3 := inject_Z by_ + 20;
                    x4 := inject_Z bx; y4 := inject_Z by_ + 20 |};
     det_text := "Summary"; det_conf := 0.9 |}.

End LayoutVocabulary2.

Section ColumnVocabulary.
Import PyNum VisualLayoutAnalyzer.
Local Open Scope Z_scope.

(** The locals of the scan of [_detect_columns] before the first pixel
    column. *)
Definition initial_scan : gap_scan :=
  {| gaps := []; in_gap := false; gap_start := 0 |}.

(** [a, b) is a blank stripe of the histogram, closed by the covered pixel
    column [b]. *)
Definition blank_stripe (blocks : list text_block) (page_width a b : Z) : Prop :=
  (forall px, a <= px < b -> covered blocks page_width px = false)
  /\ covered blocks page_width b = true.

(** What the scan has established after the pixel columns below [k]. *)
Definition scan_inv (blocks : list text_block) (page_width k : Z)
           (st : gap_scan) : Prop :=
  (forall a b, In (a, b) (gaps st) ->
     0 <= a /\ a + column_gap_threshold < b /\ b < k
     /\ blank_stripe blocks page_width a b)
  /\ (in_gap st = true ->
      0 <= gap_start st < k
      /\ forall px, gap_start st <= px < k ->
                    covered blocks page_width px = false).

End ColumnVocabulary.

Section LayoutSamples.
Import PyNum VisualLayoutAnalyzer.
Local Open Scope Z_scope.

(** A one-column page 400 wide whose two lines start at pixel column 60. *)
Definition margin_page : list text_block :=
  [ sample_block 60 10 300; sample_block 60 40 280 ].

(** The boldness estimate on a page image of uniform brightness. *)
Definition uniform_boldness (bbox : Z * Z * Z * Z) : Q := 1%Q.

(** A line reading EDUCATION of height [h], and a page that has it above an
    ordinary line. *)
Definition keyword_block (h : Z) : text_block :=
  {| text := "EDUCATION"; bbox := (10, 10, 120, h); confidence := Finite 90;
     x := 10; y := 10; width := 120; height := h;
     is_heading := false; zone := header; block_num := 0; line_num := 0 |}.

Definition heading_page : list text_block :=
  [ keyword_block 10; sample_block 10 50 90 ].

End LayoutSamples.

Section AssemblyVocabulary.
Import PyStr PyNum PyDict Spacy ContentValidator SectionIdentifier.
Import SectionAssembly.
Local Open Scope Z_scope.

(** The five section names the headingless classifier can return. *)
Definition classifier_names : list string :=
  ["EDUCATION"; "EMPLOYMENT"; "SKILLS"; "SUMMARY"; "PROJECTS"].

(** A stand-in for [fuzz.token_sort_ratio] that knows equal strings only. *)
Definition exact_ratio (a b : string) : Z :=
  if String.eqb a b then 100 else 0.

(** An OCR block reading [t] at height [top]. *)
Definition ocr_line (t : string) (top : Z) : ocr_block :=
  {| ocr_text := t; original_bbox := (0, top, 200, 30);
     ocr_confidence := 90%Q |}.

(** A page with a matched header, a line of content and a header that
    nothing recognises. *)
Definition references_page : ocr_results :=
  {| section_headers_ocr :=
       [ocr_line "WORK EXPERIENCE" 100; ocr_line "References" 400];
     body_ocr := [ocr_line "Acme Corp" 150] |}.

(** The vertical position [original_bbox[1]] of an OCR block. *)
Definition top_of (d : ocr_block) : Z := snd (fst (fst (original_bbox d))).

(** What the assembly has established: the sections filed so far have
    distinct section names of the table, none is empty, and their blocks
    are blocks of [pool]. *)
Definition filed_from (pool : list block) (d : sections) : Prop :=
  incl (dict_keys d) (dict_keys SECTION_MAPPINGS)
  /\ List.NoDup (dict_keys d)
  /\ no_empty_section d
  /\ incl (blocks_of d) pool.

Definition assembly_inv (pool : list block) (st : assembly) : Prop :=
  filed_from pool (matched_sections st)
  /\ incl (unmatched_content st) pool
  /\ incl (current_content st) pool
  /\ (named (current_section st) = true ->
      In (name_of (current_section st)) (dict_keys SECTION_MAPPINGS)).

End AssemblyVocabulary.

Section CleaningVocabulary.
Import PyStr PyNum PyDict ContentValidator TemplateMapper PostProcessor.

(** The last character of [s] is no white space ([false] on the empty
    string), resp. the first one. *)
Fixpoint ends_clean (s : string) : bool :=
  match s with
  | EmptyString => false
  | String c EmptyString => negb (is_space c)
  | String _ s' => ends_clean s'
  end.

Definition starts_clean (s : string) : bool :=
  match s with
  | EmptyString => false
  | String c _ => negb (is_space c)
  end.

(** No two neighbouring characters of [s] are white space; [after_space]
    tells whether the character before [s] is white space. *)
Fixpoint single_spaced_from (after_space : bool) (s : string) : bool :=
  match s with
  | EmptyString => true
  | String c s' =>
      if is_space c
      then if after_space then false else single_spaced_from true s'
      else single_spaced_from false s'
  end.

Definition single_spaced (s : string) : bool := single_spaced_from false s.

(** For every character of [s], whether it is white space. *)
Fixpoint spaces_of (s : string) : list bool :=
  match s with
  | EmptyString => []
  | String c s' => is_space c :: spaces_of s'
  end.

(** Every character of [s] satisfies [p]. *)
Fixpoint all_chars (p : ascii -> bool) (s : string) : bool :=
  match s with
  | EmptyString => true
  | String c s' => if p c then all_chars p s' else false
  end.

(** The rule of [OCR_CORRECTIONS] with index [i]. *)
Definition correction (i : nat) : rule :=
  nth i OCR_CORRECTIONS (fun _ _ => None).

(** The dictionary that [map_to_template] returns, as
    [process_final_output] reads it in [process_resume]: it has the key
    [sections] and neither [candidate_info] nor [metadata]. *)
Definition as_post_input (m : mapped_data) : input :=
  {| input_candidate_info := None;
     input_sections := Some (mapped_sections m);
     input_metadata := None |}.

(** The cleaned data that [process_final_output] scores in
    [process_resume]. *)
Definition scored_data (e : extracted_data) : data :=
  as_data (_clean_all_text (as_post_input (map_to_template e))).

(** Data with a name, a LinkedIn address and four long sections. *)
Definition forty_words : string :=
  "one two three four five six seven eight nine ten one two three four five six seven eight nine ten one two three four five six seven eight nine ten one two three four five six seven eight nine ten".

Definition linkedin_only : data :=
  {| candidate_info :=
       Some (<["name" := "Jane Roe"]>
               (<["linkedin" := "linkedin.com/in/janeroe"]> ∅));
     PostProcessor.sections :=
       Some (<["EMPLOYMENT" := forty_words]>
               (<["EDUCATION" := forty_words]>
                  (<["SKILLS" := forty_words]>
                     (<["SUMMARY" := forty_words]> ∅)))) |}.

(** Two blocks of an employment section. *)
Definition two_jobs : extracted_data :=
  {| TemplateMapper.header :=
       Some (<["name" := "Jane Roe"]> (<["email" := "jane@roe.org"]> ∅));
     TemplateMapper.sections :=
       Some [("EMPLOYMENT",
              [plain_block "Engineer at Acme, 2019-2021";
               plain_block "  Analyst at Initech, 2016-2019 "]);
             ("SKILLS", [plain_block "   "])] |}.

End CleaningVocabulary.

Section PhoneVocabulary.
Import PyStr HeaderExtractor.

(** The texts a pattern can match, word boundaries left aside. *)
Fixpoint denotes (r : regex) (w : string) : Prop :=
  match r with
  | Eps | WordB => w = EmptyString
  | Chr c => w = String c EmptyString
  | Cls p => exists c, p c = true /\ w = String c EmptyString
  | Seq r1 r2 =>
      exists w1 w2, w = (w1 ++ w2)%string /\ denotes r1 w1 /\ denotes r2 w2
  | Alt r1 r2 => denotes r1 w \/ denotes r2 w
  | StarCls p => all_chars p w = true
  end.

(** The digits of a text, in order. *)
Fixpoint keep_digits (s : string) : string :=
  match s with
  | EmptyString => EmptyString
  | String c s' =>
      if is_digit c then String c (keep_digits s') else keep_digits s'
  end.

(** A string of [n] digits. *)
Definition digit_string (n : nat) (s : string) : Prop :=
  String.length s = n /\ all_chars is_digit s = true.

(** [(ddd) ddd-dddd] *)
Definition national (area exchange line : string) : string :=
  "(" ++ area ++ ") " ++ exchange ++ "-" ++ line.

(** A header line with a dotted number. *)
Definition dotted_number : string := "Call 555.123.4567 now".

End PhoneVocabulary.

Section QuickExtractVocabulary.
Import PyStr PyDict AdvancedResumeOCR.

(** What [quick_extract] returns for a page on which nothing was found. *)
Definition blank_extract : pyval :=
  PDict [ ("name", PStr ""); ("email", PStr ""); ("phone", PStr "");
          ("sections", PDict []); ("quality", PFloat 0) ].

End QuickExtractVocabulary.

(* ===================================================================== *)
(** * Facts about float comparisons *)
(* ===================================================================== *)

Section NumFacts.
Import PyNum.
Local Open Scope Q_scope.

Lemma Qlt_bool_iff (a b : Q) : Qlt_bool a b = true <-> a < b.
Proof.
  unfold Qlt_bool. rewrite negb_true_iff.
  split.
  - intros H. apply Qnot_le_lt. intros Hle.
    apply Qle_bool_iff in Hle. congruence.
  - intros H. destruct (Qle_bool b a) eqn:E; [|reflexivity].
    apply Qle_bool_iff in E. exfalso. exact (Qlt_not_le _ _ H E).
Qed.

Lemma Qlt_bool_false_iff (a b : Q) : Qlt_bool a b = false <-> b <= a.
Proof.
  unfold Qlt_bool. rewrite negb_false_iff. apply Qle_bool_iff.
Qed.

Lemma Qle_bool_weaken (a b c : Q) :
  a <= b -> Qle_bool b c = true -> Qle_bool a c = true.
Proof.
  intros Hab H. apply Qle_bool_iff. apply Qle_bool_iff in H.
  eapply Qle_trans; eassumption.
Qed.

End NumFacts.

(* ===================================================================== *)
(** * Properties of the orchestrator *)
(* ===================================================================== *)

Section OrchestratorProperties.
Import PyStr PyDict AdvancedResumeOCR.

Lemma failure_result_terminal (e : exn) :
  terminal_failure (failure_result e)
                   ("Error processing resume: " ++ exn_str e)%string.
Proof. repeat split. Qed.

Lemma announce_quiet self src :
  verbose self = false -> announce self src = Ok tt.
Proof. unfold announce. intros ->. reflexivity. Qed.

Lemma handler_quiet self e :
  verbose self = false -> handler self e = Ok (failure_result e).
Proof. unfold handler. intros ->. reflexivity. Qed.

Lemma process_resume_of_raise self src tp t0 t1 e :
  verbose self = false ->
  pipeline self src tp t0 t1 = Raised e ->
  process_resume self src tp t0 t1 = Ok (failure_result e).
Proof.
  intros Hv Hp. unfold process_resume.
  rewrite (announce_quiet _ _ Hv), Hp. cbn [bind].
  exact (handler_quiet _ _ Hv).
Qed.

Lemma print_written self pieces :
  (forall line, stdout self line = Ok tt) -> print self pieces = Ok tt.
Proof.
  intros H. unfold print. destruct (forallb is_ascii pieces); [reflexivity|].
  apply H.
Qed.

(** Running the [try] body: a layer call is replaced by its known outcome,
    a verbose report either passes or ends the body with its own exception,
    and without [verbose] the reports are skipped. *)
Ltac run_body :=
  repeat first
    [ progress cbn [bind when]
    | match goal with
      | H : ?call = _ |- context [bind ?call _] => rewrite H
      | |- exists e', Raised _ = Raised e' /\ _ =>
          eexists; split;
          [ reflexivity | intros; first [reflexivity | discriminate] ]
      | |- context [when (verbose ?s) _] => destruct (verbose s)
      | |- context [bind ?m _] => destruct m as [[]|?]
      end ].

Lemma stage_raises_pipeline self src tp t0 t1 e :
  stage_raises self src tp e ->
  exists e', pipeline self src tp t0 t1 = Raised e'
             /\ (verbose self = false -> e' = e).
Proof.
  intros H; unfold pipeline; destruct H; run_body.
Qed.

(** With [verbose] off nothing is printed, and a failure of a layer is
    contained: [process_resume] returns the handler's dictionary for the
    layer's own exception. *)
Lemma quiet_process_resume_contains_stage_exceptions
      (self : processor) (image_path : source) (template_path : option string)
      (start_time end_time : Q) (e : exn) :
  stage_raises self image_path template_path e ->
  verbose self = false ->
  process_resume self image_path template_path start_time end_time
  = Ok (failure_result e)
  /\ terminal_failure (failure_result e)
                      ("Error processing resume: " ++ exn_str e)%string.
Proof.
  intros H Hv.
  destruct (stage_raises_pipeline self image_path template_path
              start_time end_time e H) as [e' [Hp He]].
  rewrite (He Hv) in Hp.
  split; [exact (process_resume_of_raise _ _ _ _ _ _ Hv Hp)|].
  apply failure_result_terminal.
Qed.

(** With [verbose] on it is contained when the console writes every line:
    the dictionary is that of the exception which ended the [try] body, the
    layer's own or the one of a progress line before it. *)
Lemma process_resume_contains_when_console_writes
      (self : processor) (image_path : source) (template_path : option string)
      (start_time end_time : Q) (e : exn) :
  stage_raises self image_path template_path e ->
  (forall line, stdout self line = Ok tt) ->
  exists e',
    pipeline self image_path template_path start_time end_time = Raised e'
    /\ process_resume self image_path template_path start_time end_time
       = Ok (failure_result e').
Proof.
  intros H Hw.
  destruct (stage_raises_pipeline self image_path template_path
              start_time end_time e H) as [e' [Hp _]].
  exists e'. split; [exact Hp|].
  unfold process_resume, announce, handler. rewrite Hp.
  destruct (verbose self); cbn [when bind]; rewrite ?print_written by exact Hw;
    reflexivity.
Qed.

(** C1.  The handler of [process_resume] does not contain every failure.
    In verbose mode, which is the default, it prints a line with the cross
    mark U+274C before it returns.  On a console whose encoding lacks that
    character the [print] raises [UnicodeEncodeError] inside the handler,
    and this exception leaves [process_resume]: for an image file that is
    missing, layer 1 raises, nothing is returned, and the caller receives
    the [UnicodeEncodeError].  The same call with [verbose] off returns the
    terminal failure dictionary of the layer's exception. *)
Theorem handler_print_escapes_process_resume :
  stage_raises charmap_console_processor (Path "missing.png") None
               missing_file_error
  /\ process_resume charmap_console_processor (Path "missing.png") None 0 1
     = Raised cross_mark_error
  /\ process_resume (with_verbose false charmap_console_processor)
                    (Path "missing.png") None 0 1
     = Ok (failure_result missing_file_error).
Proof.
  split; [apply raises_layer1; reflexivity | split; reflexivity].
Qed.

(** ** DOCX input *)

(** C8.  On a DOCX with no embedded image and no paragraph text the result
    of [process_docx_resume] has [success] false and one warning, but it has
    no key [sections] at all (nor [candidate_info] or [quality_scores]). *)
Theorem process_docx_resume_empty_has_no_sections
        (self : processor) (template_path : option string)
        (start_time end_time : Q) :
  let r := process_docx_resume self empty_docx template_path
                               start_time end_time in
  field r "success" = Some (PBool false)
  /\ field r "warnings" = Some (PList [PStr "DOCX appears to be empty"])
  /\ field r "sections" = None
  /\ field r "candidate_info" = None
  /\ field r "quality_scores" = None.
Proof. repeat split. Qed.

Lemma no_images_no_ocr_image (f : docx_file) :
  relationship_images f = [] -> media_images f = [] ->
  docx_to_ocr_image f = None.
Proof.
  intros Hr Hm. unfold docx_to_ocr_image, extract_and_combine,
    extract_images_from_docx.
  destruct (opens f); [rewrite Hr, Hm|]; reflexivity.
Qed.

(** C10.  On a DOCX with no embedded image whose extracted paragraph text is
    not empty, [process_docx_resume] returns, whatever the seven layers of
    the processor are, the fixed text-only dictionary: [success] true,
    [sections] with the single key [RAW_TEXT] (not a canonical section
    type) holding the text, the candidate name [Unknown], overall quality
    0.5 and one warning. *)
Theorem process_docx_resume_text_only
        (self : processor) (f : docx_file) (template_path : option string)
        (start_time end_time : Q) :
  relationship_images f = [] ->
  media_images f = [] ->
  extract_text_from_docx f <> EmptyString ->
  let r := process_docx_resume self f template_path start_time end_time in
  r = text_only_result (extract_text_from_docx f)
  /\ field r "success" = Some (PBool true)
  /\ field r "sections"
     = Some (PDict [("RAW_TEXT", PStr (extract_text_from_docx f))])
  /\ ~ In "RAW_TEXT" canonical_section_types
  /\ field r "candidate_info" = Some (PDict [("name", PStr "Unknown")])
  /\ field r "quality_scores" = Some (PDict [("overall", PFloat 0.5)])
  /\ exists w, field r "warnings" = Some (PList [PStr w]).
Proof.
  intros Hr Hm Ht r. subst r. unfold process_docx_resume.
  rewrite (no_images_no_ocr_image f Hr Hm).
  destruct (extract_text_from_docx f) as [|c t] eqn:E; [congruence|].
  cbn [truthy].
  repeat split.
  - cbn. intros H.
    repeat (destruct H as [H|H]; [discriminate H|]). exact H.
  - eexists. reflexivity.
Qed.

Lemma process_docx_resume_text_only_witness :
  let r := process_docx_resume failing_processor text_docx None 0 1 in
  r = text_only_result (extract_text_from_docx text_docx)
  /\ field r "success" = Some (PBool true)
  /\ field r "sections"
     = Some (PDict [("RAW_TEXT", PStr (extract_text_from_docx text_docx))])
  /\ ~ In "RAW_TEXT" canonical_section_types
  /\ field r "candidate_info" = Some (PDict [("name", PStr "Unknown")])
  /\ field r "quality_scores" = Some (PDict [("overall", PFloat 0.5)])
  /\ exists w, field r "warnings" = Some (PList [PStr w]).
Proof.
  apply (process_docx_resume_text_only failing_processor text_docx None 0 1).
  - reflexivity.
  - reflexivity.
  - vm_compute. discriminate.
Defined.

End OrchestratorProperties.

(* ===================================================================== *)
(** * Properties of the headingless classifier *)
(* ===================================================================== *)

Section ClassifierProperties.
Import PyStr Spacy SectionIdentifier.
Local Open Scope Z_scope.

Lemma zcount_nonneg (hits : list bool) : 0 <= zcount hits.
Proof. unfold zcount. lia. Qed.

Lemma keyword_hits_nonneg kws text : 0 <= keyword_hits kws text.
Proof. apply zcount_nonneg. Qed.

Lemma pattern_hits_nonneg ps text : 0 <= pattern_hits ps text.
Proof. apply zcount_nonneg. Qed.

(** One strong education pattern is enough to reach the threshold. *)
Lemma strong_pattern_reaches_threshold (content : string) :
  1 <= pattern_hits strong_education_patterns (lower content) ->
  5 <= EDUCATION (priority_scores content).
Proof.
  intros H. cbn [priority_scores EDUCATION]. unfold education_score.
  pose proof (keyword_hits_nonneg education_keywords (lower content)). lia.
Qed.

(** The employment indicators are counted only below the threshold. *)
Lemma employment_counted_only_below_threshold (content : string) :
  EMPLOYMENT (priority_scores content) <> 0 ->
  EDUCATION (priority_scores content) < 5.
Proof.
  cbn [priority_scores EDUCATION EMPLOYMENT]. unfold employment_score.
  destruct (Z.ltb_spec (education_score (lower content)) 5); [lia | congruence].
Qed.

(** C7.  When the education score of a content string reaches 5, the
    classifier answers EDUCATION, with or without a named-entity model, and
    the employment score is still 0 at that point: no employment pattern or
    verb has been counted. *)
Theorem education_short_circuit (nlp : option ner) (content : string) :
  5 <= EDUCATION (priority_scores content) ->
  _classify_content_by_analysis nlp content = Some "EDUCATION"%string
  /\ EMPLOYMENT (priority_scores content) = 0.
Proof.
  intros H. split.
  - unfold _classify_content_by_analysis.
    destruct (Z.leb_spec 5 (EDUCATION (priority_scores content)));
      [reflexivity | lia].
  - destruct (Z.eq_dec (EMPLOYMENT (priority_scores content)) 0) as [E|E];
      [exact E|].
    apply employment_counted_only_below_threshold in E. lia.
Qed.

Lemma education_short_circuit_witness :
  _classify_content_by_analysis None mixed_content = Some "EDUCATION"%string
  /\ EMPLOYMENT (priority_scores mixed_content) = 0.
Proof.
  apply (education_short_circuit None mixed_content).
  vm_compute. discriminate.
Defined.

End ClassifierProperties.

(* ===================================================================== *)
(** * Properties of the layout analyzer: text blocks *)
(* ===================================================================== *)

Section FloatFacts.
Import PyNum.
Local Open Scope Z_scope.




End FloatFacts.

Section PercentFacts.
Import PyNum.
Local Open Scope Q_scope.


End PercentFacts.

Section TextBlockProperties.
Import PyNum PyExc VisualLayoutAnalyzer.
Local Open Scope Q_scope.



(** On the four corner points of EasyOCR the loop stops at [bbox[4]]. *)
Lemma corner_points_raise (env : imaging) (pil_img : pil_image)
      (r : ocr_result) (rest : list ocr_result) (p1 p2 p3 p4 : Q * Q) :
  np_array env pil_img = Ok tt ->
  readtext env pil_img = Ok (r :: rest) ->
  result_bbox r = Corners p1 p2 p3 p4 ->
  _extract_text_blocks env pil_img
  = raise "IndexError" "list index out of range".
Proof.
  intros Ha Hr Hb. unfold _extract_text_blocks. rewrite Ha, Hr.
  cbn [bind enumerate enumerate_from convert_detections convert_detection].
  rewrite Hb. reflexivity.
Qed.





End TextBlockProperties.

(* ===================================================================== *)
(** * Properties of the quality scores *)
(* ===================================================================== *)

Section QualityScoreProperties.
Import PyStr PostProcessor.
Local Open Scope Q_scope.

Lemma name_score_in_unit (d : data) : in_unit (name_score d).
Proof.
  unfold in_unit, name_score.
  repeat match goal with |- context [if ?c then _ else _] => destruct c end;
    split; lra.
Qed.

Lemma section_score_in_unit (d : data) (section_name : string) :
  in_unit (section_score d section_name).
Proof.
  unfold in_unit, section_score.
  repeat match goal with |- context [if ?c then _ else _] => destruct c end;
    split; lra.
Qed.

Lemma contact_score_in_unit (d : data) : in_unit (contact_score d).
Proof.
  unfold in_unit, contact_score.
  assert (H : 0 <= inject_Z (Z.of_nat (contact_count d))).
  { change 0 with (inject_Z 0). rewrite <- Zle_Qle. lia. }
  generalize dependent (inject_Z (Z.of_nat (contact_count d))).
  intros x Hx. change (x / 2) with (x * (1 # 2)).
  destruct (Q.min_spec 1 (x * (1 # 2))) as [[H1 ->]|[H1 ->]]; split; lra.
Qed.

(** The dictionary [scores] as the function leaves it. *)
Lemma quality_scores_shape (d : data) :
  let fields : gmap string Q :=
    <["summary"%string := section_score d "SUMMARY"]>
      (<["skills"%string := section_score d "SKILLS"]>
        (<["education"%string := section_score d "EDUCATION"]>
          (<["employment"%string := section_score d "EMPLOYMENT"]>
            (<["contact"%string := contact_score d]>
              (<["name"%string := name_score d]> ∅))))) in
  _calculate_quality_scores d
  = <["overall"%string := weighted_sum fields weights]> fields.
Proof. reflexivity. Qed.

Lemma weights_sum_to_one : fold_right Qplus 0 (map snd weights) == 1.
Proof. reflexivity. Qed.

(** C3.  The dictionary computed by [_calculate_quality_scores] holds the
    six field scores [name], [contact], [employment], [education], [skills]
    and [summary], each in [0,1], and [overall], which is their sum weighted
    by 0.25, 0.15, 0.25, 0.20, 0.10 and 0.05; these weights add up to 1 and
    [overall] lies in [0,1]. *)
Theorem quality_scores_overall_in_unit (d : data) :
  let scores := _calculate_quality_scores d in
  exists name contact employment education skills summary overall : Q,
    scores !! "name"%string = Some name
    /\ scores !! "contact"%string = Some contact
    /\ scores !! "employment"%string = Some employment
    /\ scores !! "education"%string = Some education
    /\ scores !! "skills"%string = Some skills
    /\ scores !! "summary"%string = Some summary
    /\ scores !! "overall"%string = Some overall
    /\ in_unit name /\ in_unit contact /\ in_unit employment
    /\ in_unit education /\ in_unit skills /\ in_unit summary
    /\ overall == 0.25 * name + 0.15 * contact + 0.25 * employment
                  + 0.20 * education + 0.10 * skills + 0.05 * summary
    /\ fold_right Qplus 0 (map snd weights) == 1
    /\ in_unit overall.
Proof.
  intros scores. subst scores. rewrite quality_scores_shape. cbv zeta.
  pose proof (name_score_in_unit d) as Hn.
  pose proof (contact_score_in_unit d) as Hc.
  pose proof (section_score_in_unit d "EMPLOYMENT") as He.
  pose proof (section_score_in_unit d "EDUCATION") as Hd.
  pose proof (section_score_in_unit d "SKILLS") as Hk.
  pose proof (section_score_in_unit d "SUMMARY") as Hs.
  set (fields := <["summary"%string := _]> _).
  assert (Hsum : weighted_sum fields weights
                 == 0.25 * name_score d + 0.15 * contact_score d
                    + 0.25 * section_score d "EMPLOYMENT"
                    + 0.20 * section_score d "EDUCATION"
                    + 0.10 * section_score d "SKILLS"
                    + 0.05 * section_score d "SUMMARY").
  { unfold weighted_sum, weights, get_score, fields. cbn [fold_left].
    repeat (rewrite ?lookup_insert_eq; rewrite ?lookup_insert_ne by done).
    cbn [default from_option id]. ring. }
  exists (name_score d), (contact_score d), (section_score d "EMPLOYMENT"),
    (section_score d "EDUCATION"), (section_score d "SKILLS"),
    (section_score d "SUMMARY"), (weighted_sum fields weights).
  unfold fields at 1 2 3 4 5 6 7.
  repeat (rewrite ?lookup_insert_eq; rewrite ?lookup_insert_ne by done).
  repeat split; try tauto; try exact Hsum;
    unfold in_unit in *; rewrite ?Hsum; lra.
Qed.

End QualityScoreProperties.

(* ===================================================================== *)
(** * Properties of the layout analyzer: reading order *)
(* ===================================================================== *)

Section SortingFacts.
Import VisualLayoutAnalyzer.
Context {A : Type} (key : A -> Z * Z).

Lemma key_le_total (p q : Z * Z) : key_le p q = false -> key_le q p = true.
Proof.
  unfold key_le. destruct p as [py px], q as [qy qx]; cbn [fst snd].
  intros H. apply orb_false_iff in H. destruct H as [H1 H2].
  apply Z.ltb_ge in H1.
  destruct (Z.eqb_spec py qy) as [->|Hne].
  - cbn in H2. apply Z.leb_gt in H2.
    rewrite Z.eqb_refl. cbn. apply orb_true_iff. right. apply Z.leb_le. lia.
  - apply orb_true_iff. left. apply Z.ltb_lt. lia.
Qed.

Lemma key_le_trans (p q r : Z * Z) :
  key_le p q = true -> key_le q r = true -> key_le p r = true.
Proof.
  unfold key_le. destruct p as [py px], q as [qy qx], r as [ry rx];
    cbn [fst snd].
  rewrite !orb_true_iff, !andb_true_iff, !Z.ltb_lt, !Z.eqb_eq, !Z.leb_le. lia.
Qed.

Lemma insert_sorted_perm (a : A) (l : list A) :
  Permutation (insert_sorted key a l) (a :: l).
Proof.
  induction l as [|b l IH]; cbn.
  - reflexivity.
  - destruct (key_le (key a) (key b)).
    + reflexivity.
    + rewrite IH. apply perm_swap.
Qed.

Lemma sorted_by_perm (l : list A) : Permutation (sorted_by key l) l.
Proof.
  induction l as [|a l IH]; cbn.
  - reflexivity.
  - rewrite insert_sorted_perm. constructor. exact IH.
Qed.

Lemma insert_sorted_strongly (a : A) (l : list A) :
  StronglySorted (key_ordered key) l ->
  StronglySorted (key_ordered key) (insert_sorted key a l).
Proof.
  induction 1 as [|b l Hs IH Hall]; cbn.
  - repeat constructor.
  - destruct (key_le (key a) (key b)) eqn:E.
    + constructor; [constructor; assumption|].
      constructor; [exact E|].
      rewrite List.Forall_forall in *.
      intros c Hc. eapply key_le_trans; [exact E | exact (Hall c Hc)].
    + constructor; [exact IH|].
      rewrite insert_sorted_perm.
      constructor; [apply key_le_total; exact E | exact Hall].
Qed.

Lemma sorted_by_strongly (l : list A) :
  StronglySorted (key_ordered key) (sorted_by key l).
Proof.
  induction l as [|a l IH]; cbn.
  - constructor.
  - apply insert_sorted_strongly. exact IH.
Qed.

Lemma key_le_false_differs (p q : Z * Z) :
  key_le p q = false -> p <> q.
Proof.
  intros H ->. unfold key_le in H. destruct q as [qy qx]. cbn in H.
  rewrite Z.eqb_refl, Z.leb_refl, orb_true_r in H. discriminate.
Qed.

(** The sort is stable: the elements that share a key keep the order they
    have in the input, as with [sorted] and [list.sort]. *)
Lemma insert_sorted_stable (k : Z * Z) (a : A) (l : list A) :
  List.filter (has_key_value key k) (insert_sorted key a l)
  = List.filter (has_key_value key k) (a :: l).
Proof.
  induction l as [|b l IH]; [reflexivity|].
  cbn [insert_sorted]. destruct (key_le (key a) (key b)) eqn:E; [reflexivity|].
  apply key_le_false_differs in E.
  cbn [List.filter] in *. rewrite IH.
  destruct (has_key_value key k a) eqn:Ha; [|reflexivity].
  destruct (has_key_value key k b) eqn:Hb; [|reflexivity].
  exfalso. apply E. unfold has_key_value in Ha, Hb.
  apply andb_true_iff in Ha, Hb. rewrite !Z.eqb_eq in Ha, Hb.
  destruct (key a), (key b); cbn in *. f_equal; lia.
Qed.

Lemma sorted_by_stable (k : Z * Z) (l : list A) :
  List.filter (has_key_value key k) (sorted_by key l)
  = List.filter (has_key_value key k) l.
Proof.
  induction l as [|a l IH]; [reflexivity|].
  cbn [sorted_by]. rewrite insert_sorted_stable. cbn [List.filter].
  now rewrite IH.
Qed.

End SortingFacts.

Section ReadingOrderProperties.
Import PyNum VisualLayoutAnalyzer.
Local Open Scope Q_scope.

Lemma in_enumerate_from_iff {A : Type} (l : list A) (k i : nat) (a : A) :
  In (i, a) (enumerate_from k l)
  <-> (k <= i)%nat /\ nth_error l (i - k) = Some a.
Proof.
  revert k. induction l as [|b l IH]; intros k; cbn [enumerate_from].
  - split; [intros [] | intros [_ H]]. destruct (i - k)%nat; discriminate.
  - cbn [In]. rewrite IH. split.
    + intros [H | [Hle Hn]].
      * injection H as <- <-. split; [lia|]. now rewrite Nat.sub_diag.
      * split; [lia|].
        replace (i - k)%nat with (S (i - S k)) by lia. exact Hn.
    + intros [Hle Hn]. destruct (Nat.eq_dec i k) as [->|Hne].
      * rewrite Nat.sub_diag in Hn. cbn in Hn. left. congruence.
      * right. split; [lia|].
        replace (i - k)%nat with (S (i - S k)) in Hn by lia. exact Hn.
Qed.

Lemma in_enumerate_iff {A : Type} (l : list A) (i : nat) (a : A) :
  In (i, a) (enumerate l) <-> nth_error l i = Some a.
Proof.
  unfold enumerate. rewrite in_enumerate_from_iff, Nat.sub_0_r.
  split; [tauto | split; [lia | assumption]].
Qed.

Lemma enumerate_from_indices {A : Type} (l : list A) (k : nat) :
  map fst (enumerate_from k l) = seq k (List.length l).
Proof.
  revert k. induction l as [|a l IH]; intros k; cbn; [reflexivity|].
  now rewrite IH.
Qed.

Lemma filter_split_perm {A : Type} (f : A -> bool) (l : list A) :
  Permutation (List.filter f l ++ List.filter (fun a => negb (f a)) l) l.
Proof.
  induction l as [|a l IH]; cbn; [reflexivity|].
  destruct (f a); cbn.
  - constructor. exact IH.
  - rewrite <- Permutation_middle. constructor. exact IH.
Qed.

(** The indices of a sorted selection of enumerated blocks are in
    top-to-bottom order. *)
Lemma sorted_indices_top_to_bottom (blocks : list text_block)
      (sel : list (nat * text_block)) :
  (forall e, In e sel -> In e (enumerate blocks)) ->
  top_to_bottom blocks (map fst (sorted_by sort_key sel)).
Proof.
  intros Hsel. unfold top_to_bottom.
  assert (Hin : forall e, In e (sorted_by sort_key sel) ->
                          sort_key e = index_key blocks (fst e)).
  { intros [i b] He.
    apply (Permutation_in _ (sorted_by_perm sort_key sel)) in He.
    apply Hsel, in_enumerate_iff in He.
    unfold index_key, sort_key. cbn [fst snd]. now rewrite He. }
  pose proof (sorted_by_strongly sort_key sel) as Hs.
  induction Hs as [|e l Hs IH Hall]; cbn [map]; constructor.
  - apply IH. intros e' He'. apply Hin. now right.
  - rewrite List.Forall_forall in *. intros j Hj.
    apply in_map_iff in Hj. destruct Hj as [e' [<- He']].
    unfold key_ordered. rewrite <- (Hin e), <- (Hin e').
    + exact (Hall e' He').
    + now right.
    + now left.
Qed.

Lemma in_sorted_selection (blocks : list text_block)
      (f : text_block -> bool) (i : nat) :
  In i (map fst (sorted_by sort_key
                   (List.filter (fun e => f (snd e)) (enumerate blocks))))
  <-> exists b, nth_error blocks i = Some b /\ f b = true.
Proof.
  rewrite in_map_iff. split.
  - intros [[j b] [Hj He]]. cbn in Hj. subst j.
    apply (Permutation_in _ (sorted_by_perm sort_key _)) in He.
    apply filter_In in He. destruct He as [He Hf].
    apply in_enumerate_iff in He. exists b. split; assumption.
  - intros [b [Hb Hf]]. exists (i, b). split; [reflexivity|].
    apply (Permutation_in _ (Permutation_sym (sorted_by_perm sort_key _))).
    apply filter_In. split; [apply in_enumerate_iff; exact Hb | exact Hf].
Qed.

(** C6.  For a one-column layout the reading order is the list of all block
    indices sorted by [(y, x)].  For a two-column layout with divider [d] it
    is [left ++ right], where [left] holds exactly the blocks left of the
    divider and [right] exactly those right of it, each part sorted by
    [(y, x)]; it lists every block index once, and every block left of the
    divider is read before every block right of it. *)
Theorem reading_order_left_column_first
        (blocks : list text_block) (cols : columns) :
  (count cols = 1%Z ->
   exists order,
     _create_reading_order blocks cols = Some order
     /\ Permutation order (seq 0 (List.length blocks))
     /\ top_to_bottom blocks order)
  /\ (forall d, count cols = 2%Z -> divider cols = Some d ->
      exists left right,
        _create_reading_order blocks cols = Some (left ++ right)
        /\ Permutation (left ++ right) (seq 0 (List.length blocks))
        /\ (forall i, In i left <-> left_of blocks d i)
        /\ (forall j, In j right <-> right_of blocks d j)
        /\ top_to_bottom blocks left
        /\ top_to_bottom blocks right
        /\ (forall p q i j,
               nth_error (left ++ right) p = Some i ->
               nth_error (left ++ right) q = Some j ->
               left_of blocks d i -> right_of blocks d j ->
               (p < q)%nat)).
Proof.
  split.
  - intros Hc.
    exists (map fst (sorted_by sort_key (enumerate blocks))).
    split; [|split].
    + unfold _create_reading_order. rewrite Hc. cbn.
      destruct blocks; reflexivity.
    + rewrite (Permutation_map fst (sorted_by_perm sort_key _)).
      unfold enumerate. now rewrite enumerate_from_indices.
    + apply sorted_indices_top_to_bottom. tauto.
  - intros d Hc Hd.
    set (lsel := List.filter (fun e => in_left_column d (snd e))
                             (enumerate blocks)).
    set (rsel := List.filter (fun e => negb (in_left_column d (snd e)))
                             (enumerate blocks)).
    exists (map fst (sorted_by sort_key lsel)),
           (map fst (sorted_by sort_key rsel)).
    assert (Hleft : forall i, In i (map fst (sorted_by sort_key lsel))
                              <-> left_of blocks d i).
    { intros i. unfold lsel.
      rewrite (in_sorted_selection blocks (in_left_column d)).
      unfold left_of, in_left_column.
      split; intros [b [Hb Hf]]; exists b; split; try assumption;
        apply Qlt_bool_iff; exact Hf. }
    assert (Hright : forall j, In j (map fst (sorted_by sort_key rsel))
                               <-> right_of blocks d j).
    { intros j. unfold rsel.
      rewrite (in_sorted_selection blocks
                 (fun b => negb (in_left_column d b))).
      unfold right_of, in_left_column.
      split; intros [b [Hb Hf]]; exists b; split; try assumption.
      - apply negb_true_iff in Hf. apply Qlt_bool_false_iff. exact Hf.
      - apply negb_true_iff. apply Qlt_bool_false_iff. exact Hf. }
    split; [|split; [|split; [|split; [|split; [|split]]]]].
    + unfold _create_reading_order. rewrite Hc, Hd. cbn.
      destruct blocks; reflexivity.
    + rewrite <- map_app.
      rewrite (Permutation_map fst
                 (Permutation_app (sorted_by_perm sort_key lsel)
                                  (sorted_by_perm sort_key rsel))).
      unfold lsel, rsel.
      rewrite (Permutation_map fst
                 (filter_split_perm (fun e => in_left_column d (snd e))
                                    (enumerate blocks))).
      unfold enumerate. now rewrite enumerate_from_indices.
    + exact Hleft.
    + exact Hright.
    + apply sorted_indices_top_to_bottom. intros e He.
      apply filter_In in He. tauto.
    + apply sorted_indices_top_to_bottom. intros e He.
      apply filter_In in He. tauto.
    + intros p q i j Hp Hq Hi Hj.
      assert (Hexcl : forall k, left_of blocks d k -> right_of blocks d k -> False).
      { intros k [b [Hb Hlt]] [b' [Hb' Hle]].
        rewrite Hb in Hb'. injection Hb' as <-.
        exact (Qlt_not_le _ _ Hlt Hle). }
      set (L := map fst (sorted_by sort_key lsel)) in *.
      set (R := map fst (sorted_by sort_key rsel)) in *.
      destruct (Nat.lt_ge_cases p (List.length L)) as [HpL|HpL].
      * destruct (Nat.lt_ge_cases q (List.length L)) as [HqL|HqL]; [|lia].
        exfalso. rewrite nth_error_app1 in Hq by exact HqL.
        apply nth_error_In in Hq. apply Hleft in Hq. exact (Hexcl j Hq Hj).
      * exfalso. rewrite nth_error_app2 in Hp by exact HpL.
        apply nth_error_In in Hp. apply Hright in Hp. exact (Hexcl i Hi Hp).
Qed.

(** A block that lies entirely before the divider is a left block, and a
    block that starts at or after it is a right block. *)
Lemma block_before_divider_is_left (blocks : list text_block) (d : Z)
      (i : nat) (b : text_block) :
  nth_error blocks i = Some b ->
  (0 < width b)%Z -> (x b + width b <= d)%Z ->
  left_of blocks d i.
Proof.
  intros Hb Hw Hd. exists b. split; [exact Hb|]. unfold block_center.
  assert (H1 : inject_Z (x b) + inject_Z (width b) <= inject_Z d).
  { rewrite <- inject_Z_plus. rewrite <- Zle_Qle. exact Hd. }
  assert (H2 : 0 < inject_Z (width b)).
  { change 0 with (inject_Z 0). rewrite <- Zlt_Qlt. exact Hw. }
  revert H1 H2.
  generalize (inject_Z (x b)), (inject_Z (width b)), (inject_Z d).
  intros qx qw qd H1 H2. change (qw / 2) with (qw * (1 # 2)). lra.
Qed.

Lemma block_after_divider_is_right (blocks : list text_block) (d : Z)
      (i : nat) (b : text_block) :
  nth_error blocks i = Some b ->
  (0 <= width b)%Z -> (d <= x b)%Z ->
  right_of blocks d i.
Proof.
  intros Hb Hw Hd. exists b. split; [exact Hb|]. unfold block_center.
  assert (H1 : inject_Z d <= inject_Z (x b)).
  { rewrite <- Zle_Qle. exact Hd. }
  assert (H2 : 0 <= inject_Z (width b)).
  { change 0 with (inject_Z 0). rewrite <- Zle_Qle. exact Hw. }
  revert H1 H2.
  generalize (inject_Z (x b)), (inject_Z (width b)), (inject_Z d).
  intros qx qw qd H1 H2. change (qw / 2) with (qw * (1 # 2)). lra.
Qed.

(** A layout detected with two columns always names its divider, so the
    look-up [columns['divider']] of [_create_reading_order] succeeds on it. *)
Lemma detected_layout_has_divider (blocks : list text_block) (page_width : nat) :
  (count (_detect_columns blocks page_width) = 1%Z
   /\ divider (_detect_columns blocks page_width) = None)
  \/ (count (_detect_columns blocks page_width) = 2%Z
      /\ exists d, divider (_detect_columns blocks page_width) = Some d).
Proof.
  unfold _detect_columns. destruct blocks as [|b blocks]; [left; split; reflexivity|].
  destruct (gaps _) as [|g rest]; [left; split; reflexivity|].
  right. split; [reflexivity | eexists; reflexivity].
Qed.

(** The sample page, 400 wide, is detected as two columns split at 200. *)
Lemma sample_page_detected : _detect_columns sample_page 400 = two_columns.
Proof. vm_compute. reflexivity. Qed.

Lemma reading_order_left_column_first_witness :
  exists left right,
    _create_reading_order sample_page two_columns = Some (left ++ right)
    /\ Permutation (left ++ right) (seq 0 (List.length sample_page))
    /\ (forall i, In i left <-> left_of sample_page 200 i)
    /\ (forall j, In j right <-> right_of sample_page 200 j)
    /\ top_to_bottom sample_page left
    /\ top_to_bottom sample_page right
    /\ (forall p q i j,
           nth_error (left ++ right) p = Some i ->
           nth_error (left ++ right) q = Some j ->
           left_of sample_page 200 i -> right_of sample_page 200 j ->
           (p < q)%nat).
Proof.
  apply (proj2 (reading_order_left_column_first sample_page two_columns)
               200%Z).
  - reflexivity.
  - reflexivity.
Defined.

End ReadingOrderProperties.

(* ===================================================================== *)
(** * Properties of the content validator *)
(* ===================================================================== *)

Section ValidatorScoring.
Import PyStr PyNum PyDict Spacy ContentValidator.
Local Open Scope Q_scope.

Variable nlp : option ner.

(** The flag [is_valid] is the test [confidence >= 0.4]. *)
Lemma is_valid_threshold (text section_type : string) :
  fst (fst (_validate_content nlp text section_type))
  = Qle_bool 0.4 (confidence_of nlp text section_type).
Proof.
  unfold confidence_of, _validate_content.
  destruct (dict_get section_type CONTENT_SIGNATURES); reflexivity.
Qed.

Lemma validate_content_eta (text section_type : string) :
  _validate_content nlp text section_type
  = (Qle_bool 0.4 (confidence_of nlp text section_type),
     confidence_of nlp text section_type,
     reason_of nlp text section_type).
Proof.
  rewrite <- is_valid_threshold. unfold confidence_of, reason_of.
  destruct (_validate_content nlp text section_type) as [[v c] r].
  reflexivity.
Qed.

Lemma best_step_unfold (text : string) (best : option string * Q)
      (section_type : string) :
  best_step nlp text best section_type
  = if Qlt_bool (snd best) (confidence_of nlp text section_type)
    then (Some section_type, confidence_of nlp text section_type)
    else best.
Proof.
  unfold best_step. rewrite validate_content_eta. reflexivity.
Qed.

(** The loop of [_find_correct_section] over [types], started from
    [(b0, c0)]: the running confidence never decreases, bounds the
    confidence of every type seen, and is the confidence of the running
    section once one is chosen. *)
Lemma best_fold_spec (text : string) (types : list string)
      (b0 : option string) (c0 : Q) :
  let r := fold_left (best_step nlp text) types (b0, c0) in
  c0 <= snd r
  /\ (forall T, In T types -> confidence_of nlp text T <= snd r)
  /\ (r = (b0, c0)
      \/ exists T, In T types /\ r = (Some T, confidence_of nlp text T)).
Proof.
  revert b0 c0. induction types as [|T types IH]; intros b0 c0; cbn zeta.
  - cbn. split; [apply Qle_refl | split; [tauto | left; reflexivity]].
  - cbn [fold_left]. rewrite best_step_unfold. cbn [snd].
    destruct (Qlt_bool c0 (confidence_of nlp text T)) eqn:E.
    + apply Qlt_bool_iff in E.
      destruct (IH (Some T) (confidence_of nlp text T)) as [H1 [H2 H3]].
      split; [|split].
      * eapply Qle_trans; [apply Qlt_le_weak; exact E | exact H1].
      * intros T' [<-|HT']; [exact H1 | exact (H2 T' HT')].
      * right. destruct H3 as [H3 | [T' [HT' H3]]].
        -- exists T. split; [now left | exact H3].
        -- exists T'. split; [now right | exact H3].
    + apply Qlt_bool_false_iff in E.
      destruct (IH b0 c0) as [H1 [H2 H3]].
      split; [exact H1 | split].
      * intros T' [<-|HT']; [|exact (H2 T' HT')].
        eapply Qle_trans; [exact E | exact H1].
      * destruct H3 as [H3 | [T' [HT' H3]]]; [left; exact H3|].
        right. exists T'. split; [now right | exact H3].
Qed.

(** What [_find_correct_section] returns: a type of the signature table
    whose confidence is at least 0.5 and is the largest of the table. *)
Lemma find_correct_section_some (text T : string) :
  _find_correct_section nlp text = Some T ->
  In T (dict_keys CONTENT_SIGNATURES)
  /\ 0.5 <= confidence_of nlp text T
  /\ forall T', In T' (dict_keys CONTENT_SIGNATURES) ->
                confidence_of nlp text T' <= confidence_of nlp text T.
Proof.
  unfold _find_correct_section, best_section.
  generalize (dict_keys CONTENT_SIGNATURES). intros types.
  destruct (best_fold_spec text types None 0) as [_ [H2 H3]].
  destruct (fold_left (best_step nlp text) types (None, 0)) as [b c].
  cbn [snd] in *.
  destruct (Qle_bool 0.5 c) eqn:E; [|discriminate].
  intros ->. destruct H3 as [H3 | [T' [HT' H3]]]; [discriminate|].
  injection H3 as -> ->. apply Qle_bool_iff in E. auto.
Qed.

(** It returns [None] exactly when no type of the table reaches 0.5. *)
Lemma find_correct_section_none (text : string) :
  _find_correct_section nlp text = None
  <-> forall T, In T (dict_keys CONTENT_SIGNATURES) ->
                confidence_of nlp text T < 0.5.
Proof.
  unfold _find_correct_section, best_section.
  generalize (dict_keys CONTENT_SIGNATURES). intros types.
  destruct (best_fold_spec text types None 0) as [_ [H2 H3]].
  destruct (fold_left (best_step nlp text) types (None, 0)) as [b c].
  cbn [snd] in *.
  destruct (Qle_bool 0.5 c) eqn:E.
  - apply Qle_bool_iff in E.
    destruct H3 as [H3 | [T [HT H3]]].
    + injection H3 as -> ->. exfalso. revert E. apply Qlt_not_le.
      reflexivity.
    + injection H3 as -> ->. split; [discriminate|].
      intros H. exfalso. exact (Qlt_not_le _ _ (H T HT) E).
  - assert (Hc : c < 0.5).
    { apply Qnot_le_lt. intros H. apply Qle_bool_iff in H. congruence. }
    split; [|destruct b; [|reflexivity]].
    + intros _ T HT. eapply Qle_lt_trans; [exact (H2 T HT) | exact Hc].
    + destruct H3 as [H3 | [T [HT H3]]]; [discriminate|].
      injection H3 as -> ->. intros H. reflexivity.
Qed.

End ValidatorScoring.

Section ValidatorDecisions.
Import PyStr PyNum PyDict Spacy ContentValidator.
Local Open Scope Q_scope.

Variable nlp : option ner.

(** The decision for one block, with the tuple of [_validate_content] read
    through [confidence_of] and [reason_of]. *)
Lemma decide_block_unfold (section_name text : string) :
  decide_block nlp section_name text
  = let confidence := confidence_of nlp text section_name in
    let unplaced :=
      if Qlt_bool confidence 0.3 then Remove
      else Flag (reason_of nlp text section_name) in
    if Qle_bool 0.5 confidence then Keep
    else match _find_correct_section nlp text with
         | Some correct_section => Move correct_section
         | None => unplaced
         end.
Proof.
  unfold decide_block. rewrite validate_content_eta. cbv zeta.
  destruct (Qle_bool 0.5 (confidence_of nlp text section_name)) eqn:E.
  - rewrite (Qle_bool_weaken 0.4 0.5 _ ltac:(discriminate) E). reflexivity.
  - rewrite andb_false_r.
    destruct (_find_correct_section nlp text) as [T|] eqn:F; [|reflexivity].
    destruct (String.eqb_spec T section_name) as [->|Hne]; [|reflexivity].
    exfalso. apply find_correct_section_some in F.
    destruct F as [_ [F _]]. apply Qle_bool_iff in F. congruence.
Qed.

Lemma decide_keep_iff (section_name text : string) :
  decide_block nlp section_name text = Keep
  <-> 0.5 <= confidence_of nlp text section_name.
Proof.
  rewrite decide_block_unfold. cbv zeta.
  destruct (Qle_bool 0.5 (confidence_of nlp text section_name)) eqn:E.
  - apply Qle_bool_iff in E. tauto.
  - split.
    + destruct (_find_correct_section nlp text); [discriminate|].
      destruct (Qlt_bool _ _); discriminate.
    + intros H. apply Qle_bool_iff in H. congruence.
Qed.

Lemma decide_move_iff (section_name text T : string) :
  decide_block nlp section_name text = Move T
  <-> confidence_of nlp text section_name < 0.5
      /\ _find_correct_section nlp text = Some T.
Proof.
  rewrite decide_block_unfold. cbv zeta.
  destruct (Qle_bool 0.5 (confidence_of nlp text section_name)) eqn:E.
  - apply Qle_bool_iff in E. split; [discriminate|].
    intros [H _]. exfalso. exact (Qlt_not_le _ _ H E).
  - assert (Hc : confidence_of nlp text section_name < 0.5).
    { apply Qnot_le_lt. intros H. apply Qle_bool_iff in H. congruence. }
    destruct (_find_correct_section nlp text) as [T'|].
    + split; [intros [= ->]; auto | intros [_ [= ->]]; reflexivity].
    + split; [|intros [_ H]; discriminate].
      destruct (Qlt_bool _ _); discriminate.
Qed.

Lemma decide_remove_iff (section_name text : string) :
  decide_block nlp section_name text = Remove
  <-> confidence_of nlp text section_name < 0.3
      /\ _find_correct_section nlp text = None.
Proof.
  rewrite decide_block_unfold. cbv zeta.
  destruct (Qle_bool 0.5 (confidence_of nlp text section_name)) eqn:E.
  - apply Qle_bool_iff in E. split; [discriminate|].
    intros [H _]. exfalso. apply (Qlt_not_le _ _ H).
    eapply Qle_trans; [|exact E]. discriminate.
  - destruct (_find_correct_section nlp text) as [T'|].
    + split; [discriminate | intros [_ H]; discriminate].
    + destruct (Qlt_bool (confidence_of nlp text section_name) 0.3) eqn:L.
      * apply Qlt_bool_iff in L. tauto.
      * apply Qlt_bool_false_iff in L. split; [discriminate|].
        intros [H _]. exfalso. exact (Qlt_not_le _ _ H L).
Qed.

Lemma decide_flag_iff (section_name text reason : string) :
  decide_block nlp section_name text = Flag reason
  <-> 0.3 <= confidence_of nlp text section_name
      /\ confidence_of nlp text section_name < 0.5
      /\ _find_correct_section nlp text = None
      /\ reason = reason_of nlp text section_name.
Proof.
  rewrite decide_block_unfold. cbv zeta.
  destruct (Qle_bool 0.5 (confidence_of nlp text section_name)) eqn:E.
  - apply Qle_bool_iff in E. split; [discriminate|].
    intros [_ [H _]]. exfalso. exact (Qlt_not_le _ _ H E).
  - assert (Hc : confidence_of nlp text section_name < 0.5).
    { apply Qnot_le_lt. intros H. apply Qle_bool_iff in H. congruence. }
    destruct (_find_correct_section nlp text) as [T'|].
    + split; [discriminate | intros [_ [_ [H _]]]; discriminate].
    + destruct (Qlt_bool (confidence_of nlp text section_name) 0.3) eqn:L.
      * apply Qlt_bool_iff in L. split; [discriminate|].
        intros [H _]. exfalso. exact (Qlt_not_le _ _ L H).
      * apply Qlt_bool_false_iff in L.
        split; [intros [= <-]; auto | intros [_ [_ [_ ->]]]; reflexivity].
Qed.

(** A block moved to [T] is one the validator keeps cleanly in [T]. *)
Lemma moved_block_is_kept (section_name text T : string) :
  decide_block nlp section_name text = Move T ->
  decide_block nlp T text = Keep /\ T <> section_name.
Proof.
  intros H. apply decide_move_iff in H. destruct H as [Hc F].
  apply find_correct_section_some in F. destruct F as [_ [F _]].
  split; [apply decide_keep_iff; exact F|].
  intros ->. exact (Qlt_not_le _ _ Hc F).
Qed.

End ValidatorDecisions.

Section ValidatorRuns.
Import PyStr PyNum PyDict Spacy ContentValidator.
Local Open Scope Q_scope.

Variable nlp : option ner.

Lemma has_key_true_iff (k : string) (d : sections) :
  has_key k d = true <-> In k (dict_keys d).
Proof.
  unfold has_key. rewrite existsb_exists. split.
  - intros [k' [Hin Heq]]. apply String.eqb_eq in Heq. now subst.
  - intros H. exists k. split; [exact H | apply String.eqb_refl].
Qed.

Lemma has_key_false_iff (k : string) (d : sections) :
  has_key k d = false <-> ~ In k (dict_keys d).
Proof.
  rewrite <- has_key_true_iff. destruct (has_key k d); split; congruence.
Qed.

Lemma append_block_keys (k : string) (b : block) (d : sections) :
  dict_keys (append_block k b d) = dict_keys d.
Proof.
  induction d as [|[k' bs] d IH]; cbn; [reflexivity|].
  destruct (String.eqb k k'); cbn; [reflexivity | f_equal; exact IH].
Qed.

Lemma ensure_key_has (k : string) (d : sections) :
  has_key k (ensure_key k d) = true.
Proof.
  unfold ensure_key. destruct (has_key k d) eqn:E; [exact E|].
  apply has_key_true_iff. unfold dict_keys. rewrite map_app.
  apply in_or_app. right. now left.
Qed.

Lemma ensure_key_keeps (k k' : string) (d : sections) :
  has_key k' d = true -> has_key k' (ensure_key k d) = true.
Proof.
  unfold ensure_key. destruct (has_key k d); [tauto|].
  intros H. apply has_key_true_iff. apply has_key_true_iff in H.
  unfold dict_keys in *. rewrite map_app. apply in_or_app. now left.
Qed.

Lemma nodup_snoc {A : Type} (l : list A) (a : A) :
  List.NoDup l -> ~ In a l -> List.NoDup (l ++ [a]).
Proof.
  induction 1 as [|b l Hb Hl IH]; cbn; intros Ha.
  - constructor; [intros [] | constructor].
  - constructor.
    + intros Hin. apply in_app_or in Hin. destruct Hin as [Hin|[<-|[]]].
      * exact (Hb Hin).
      * apply Ha. now left.
    + apply IH. intros Hin. apply Ha. now right.
Qed.

Lemma ensure_key_nodup (k : string) (d : sections) :
  List.NoDup (dict_keys d) -> List.NoDup (dict_keys (ensure_key k d)).
Proof.
  unfold ensure_key. destruct (has_key k d) eqn:E; [tauto|].
  apply has_key_false_iff in E. intros H.
  unfold dict_keys in *. rewrite map_app. cbn.
  apply nodup_snoc; assumption.
Qed.

Lemma all_blocks_ensure_key P (k : string) (d : sections) :
  all_blocks P d -> all_blocks P (ensure_key k d).
Proof.
  unfold ensure_key, all_blocks. destruct (has_key k d); [tauto|].
  intros H. apply Forall_app. split; [exact H|]. repeat constructor.
Qed.

Lemma all_blocks_append P (k : string) (b : block) (d : sections) :
  all_blocks P d -> P k b -> all_blocks P (append_block k b d).
Proof.
  unfold all_blocks. intros H Hb.
  induction d as [|[k' bs] d IH]; cbn; [constructor|].
  inversion H as [|e d' He Hd]; subst. cbn [fst snd] in He.
  destruct (String.eqb_spec k k') as [->|Hne].
  - constructor; [|exact Hd]. cbn [fst snd].
    apply Forall_app. split; [exact He | repeat constructor; exact Hb].
  - constructor; [exact He | exact (IH Hd)].
Qed.

Lemma total_blocks_cons (e : string * list block) (d : sections) :
  total_blocks (e :: d) = (List.length (snd e) + total_blocks d)%nat.
Proof. reflexivity. Qed.

Lemma total_blocks_append (k : string) (b : block) (d : sections) :
  has_key k d = true ->
  total_blocks (append_block k b d) = S (total_blocks d).
Proof.
  induction d as [|[k' bs] d IH]; [discriminate|].
  unfold has_key. cbn [dict_keys map fst existsb append_block].
  destruct (String.eqb k k') eqn:E.
  - intros _. rewrite !total_blocks_cons. cbn [snd].
    rewrite length_app. cbn. lia.
  - cbn [orb]. intros H. rewrite !total_blocks_cons. cbn [snd].
    rewrite (IH H). lia.
Qed.

Lemma total_blocks_snoc (e : string * list block) (d : sections) :
  total_blocks (d ++ [e]) = (total_blocks d + List.length (snd e))%nat.
Proof.
  induction d as [|e' d IH]; [cbn; lia|].
  cbn [app]. rewrite !total_blocks_cons, IH. lia.
Qed.

Lemma total_blocks_ensure_key (k : string) (d : sections) :
  total_blocks (ensure_key k d) = total_blocks d.
Proof.
  unfold ensure_key. destruct (has_key k d); [reflexivity|].
  rewrite total_blocks_snoc. cbn. lia.
Qed.

End ValidatorRuns.

Section ValidatorPass.
Import PyStr PyNum PyDict Spacy ContentValidator.
Local Open Scope Q_scope.

Variable nlp : option ner.

(** Case analysis on the body of the block loop. *)
Ltac block_cases name b :=
  unfold process_block;
  destruct (has_nonspace (text b)) eqn:Hblank; cbn [negb];
  [ destruct (decide_block nlp name (text b)) as [|T| |reason] eqn:Hdec | ];
  cbn [validated_sections moved_content removed_content].

Lemma flag_settled (section_name reason : string) (b : block) :
  has_nonspace (text b) = true ->
  decide_block nlp section_name (text b) = Flag reason ->
  settled nlp section_name (flag reason b).
Proof.
  intros Hb Hd. split; [exact Hb|]. right. exists reason. split; [exact Hd|].
  reflexivity.
Qed.

Lemma process_block_settled (section_name : string) (st : vstate) (b : block) :
  all_blocks (settled nlp) (validated_sections st) ->
  all_blocks (settled nlp)
             (validated_sections (process_block nlp section_name st b)).
Proof.
  intros H. block_cases section_name b.
  - apply all_blocks_append; [exact H|]. split; [exact Hblank | now left].
  - apply all_blocks_append; [apply all_blocks_ensure_key; exact H|].
    split; [exact Hblank|]. left.
    exact (proj1 (moved_block_is_kept nlp _ _ _ Hdec)).
  - exact H.
  - apply all_blocks_append; [exact H|]. now apply flag_settled.
  - exact H.
Qed.

Lemma process_block_nodup (section_name : string) (st : vstate) (b : block) :
  List.NoDup (dict_keys (validated_sections st)) ->
  List.NoDup (dict_keys (validated_sections (process_block nlp section_name st b))).
Proof.
  intros H. block_cases section_name b; rewrite ?append_block_keys;
    try exact H.
  apply ensure_key_nodup. exact H.
Qed.

Lemma has_key_append (k k' : string) (b : block) (d : sections) :
  has_key k' (append_block k b d) = has_key k' d.
Proof. unfold has_key. now rewrite append_block_keys. Qed.

Lemma process_block_has_key (section_name k : string) (st : vstate) (b : block) :
  has_key k (validated_sections st) = true ->
  has_key k (validated_sections (process_block nlp section_name st b)) = true.
Proof.
  intros H. block_cases section_name b; rewrite ?has_key_append;
    try exact H.
  apply ensure_key_keeps. exact H.
Qed.

Lemma process_block_moved (section_name : string) (st : vstate) (b : block) :
  moved_content (process_block nlp section_name st b)
  = moved_content st ++ relocation_of nlp section_name b.
Proof.
  unfold relocation_of. block_cases section_name b;
    rewrite ?app_nil_r; reflexivity.
Qed.

Lemma process_block_count (section_name : string) (st : vstate) (b : block) :
  has_key section_name (validated_sections st) = true ->
  (total_blocks (validated_sections (process_block nlp section_name st b))
   + List.length (removed_content (process_block nlp section_name st b))
   = total_blocks (validated_sections st) + List.length (removed_content st)
     + nonblank [b])%nat.
Proof.
  intros H. unfold nonblank. cbn [List.filter]. block_cases section_name b;
    cbn [List.length].
  - rewrite total_blocks_append by exact H. lia.
  - rewrite total_blocks_append by apply ensure_key_has.
    rewrite total_blocks_ensure_key. lia.
  - rewrite length_app. cbn. lia.
  - rewrite total_blocks_append by exact H. lia.
  - lia.
Qed.

(** The same facts for the loop over the blocks of one section. *)
Lemma blocks_loop_facts (section_name : string) (bs : list block) (st : vstate) :
  let st' := fold_left (process_block nlp section_name) bs st in
  (all_blocks (settled nlp) (validated_sections st) ->
   all_blocks (settled nlp) (validated_sections st'))
  /\ (List.NoDup (dict_keys (validated_sections st)) ->
      List.NoDup (dict_keys (validated_sections st')))
  /\ (forall k, has_key k (validated_sections st) = true ->
                has_key k (validated_sections st') = true)
  /\ moved_content st'
     = moved_content st ++ flat_map (relocation_of nlp section_name) bs
  /\ (has_key section_name (validated_sections st) = true ->
      (total_blocks (validated_sections st') + List.length (removed_content st')
       = total_blocks (validated_sections st) + List.length (removed_content st)
         + nonblank bs)%nat).
Proof.
  revert st. induction bs as [|b bs IH]; intros st; cbn zeta.
  - cbn. rewrite app_nil_r. repeat split; auto.
  - cbn [fold_left flat_map].
    destruct (IH (process_block nlp section_name st b))
      as [I1 [I2 [I3 [I4 I5]]]].
    split; [|split; [|split; [|split]]].
    + intros H. apply I1, process_block_settled, H.
    + intros H. apply I2, process_block_nodup, H.
    + intros k H. apply I3, process_block_has_key, H.
    + rewrite I4, process_block_moved, app_assoc. reflexivity.
    + intros H. rewrite I5 by (apply process_block_has_key; exact H).
      rewrite process_block_count by exact H.
      unfold nonblank. cbn [List.filter].
      destruct (has_nonspace (text b)); cbn [List.length]; lia.
Qed.

Lemma nonblank_count_cons (e : string * list block) (d : sections) :
  nonblank_count (e :: d) = (nonblank (snd e) + nonblank_count d)%nat.
Proof. reflexivity. Qed.

(** And for the loop over the sections. *)
Lemma sections_loop_facts (s : sections) (st : vstate) :
  let st' := fold_left (process_section nlp) s st in
  (all_blocks (settled nlp) (validated_sections st) ->
   all_blocks (settled nlp) (validated_sections st'))
  /\ (List.NoDup (dict_keys (validated_sections st)) ->
      List.NoDup (dict_keys (validated_sections st')))
  /\ moved_content st' = moved_content st ++ relocation_notes nlp s
  /\ (total_blocks (validated_sections st') + List.length (removed_content st')
      = total_blocks (validated_sections st) + List.length (removed_content st)
        + nonblank_count s)%nat.
Proof.
  revert st. induction s as [|[name bs] s IH]; intros st; cbn zeta.
  - cbn. rewrite app_nil_r. repeat split; auto.
  - cbn [fold_left]. unfold process_section at 2 4 6 8 10.
    set (st0 := {| validated_sections := ensure_key name (validated_sections st);
                   moved_content := moved_content st;
                   removed_content := removed_content st |}).
    destruct (blocks_loop_facts name bs st0) as [B1 [B2 [_ [B4 B5]]]].
    destruct (IH (fold_left (process_block nlp name) bs st0))
      as [I1 [I2 [I3 I4]]].
    split; [|split; [|split]].
    + intros H. apply I1, B1. cbn. apply all_blocks_ensure_key, H.
    + intros H. apply I2, B2. cbn. apply ensure_key_nodup, H.
    + rewrite I3, B4. cbn [moved_content st0].
      unfold relocation_notes. cbn [flat_map fst snd].
      rewrite app_assoc. reflexivity.
    + rewrite I4, B5 by (cbn; apply ensure_key_has).
      cbn [validated_sections removed_content st0].
      rewrite total_blocks_ensure_key, nonblank_count_cons. cbn [snd]. lia.
Qed.

End ValidatorPass.

Section ValidatorFixedPoint.
Import PyStr PyNum PyDict Spacy ContentValidator.
Local Open Scope Q_scope.

Variable nlp : option ner.

Lemma flag_same (reason : string) (b : block) :
  validation_warning b = Some reason -> flag reason b = b.
Proof. destruct b as [k t p d w]. cbn. intros ->. reflexivity. Qed.

Lemma append_block_last (k : string) (b : block) (acc : sections)
      (done : list block) :
  ~ In k (dict_keys acc) ->
  append_block k b (acc ++ [(k, done)]) = acc ++ [(k, done ++ [b])].
Proof.
  induction acc as [|[k' bs] acc IH]; cbn; intros H.
  - now rewrite String.eqb_refl.
  - destruct (String.eqb_spec k k') as [->|Hne]; [tauto|].
    f_equal. apply IH. tauto.
Qed.

Lemma ensure_key_fresh (k : string) (acc : sections) :
  ~ In k (dict_keys acc) -> ensure_key k acc = acc ++ [(k, [])].
Proof.
  intros H. unfold ensure_key.
  now rewrite (proj2 (has_key_false_iff k acc) H).
Qed.

(** On settled blocks the block loop only appends them, unchanged. *)
Lemma settled_blocks_loop (section_name : string) (acc : sections)
      (bs done : list block) (st : vstate) :
  validated_sections st = acc ++ [(section_name, done)] ->
  ~ In section_name (dict_keys acc) ->
  Forall (settled nlp section_name) bs ->
  validated_sections (fold_left (process_block nlp section_name) bs st)
  = acc ++ [(section_name, done ++ bs)].
Proof.
  intros Hst Hk Hbs. revert done st Hst.
  induction Hbs as [|b bs Hb Hbs IH]; intros done st Hst; cbn [fold_left].
  - now rewrite app_nil_r.
  - replace (done ++ b :: bs) with ((done ++ [b]) ++ bs)
      by (rewrite <- app_assoc; reflexivity).
    apply IH. destruct Hb as [Hblank [Hkeep | [reason [Hflag Hw]]]];
      unfold process_block; rewrite Hblank; cbn [negb].
    + rewrite Hkeep. cbn [validated_sections]. rewrite Hst.
      now apply append_block_last.
    + rewrite Hflag. cbn [validated_sections]. rewrite Hst.
      rewrite (flag_same _ _ Hw). now apply append_block_last.
Qed.

(** On a dictionary of settled blocks the section loop only appends the
    sections, unchanged. *)
Lemma settled_sections_loop (rest : sections) (st : vstate) :
  List.NoDup (dict_keys (validated_sections st ++ rest)) ->
  all_blocks (settled nlp) rest ->
  validated_sections (fold_left (process_section nlp) rest st)
  = validated_sections st ++ rest.
Proof.
  revert st. induction rest as [|[name bs] rest IH]; intros st Hnd Hall;
    cbn [fold_left].
  - now rewrite app_nil_r.
  - inversion Hall as [|e d Hbs Hrest]; subst. cbn [fst snd] in Hbs.
    assert (Hfresh : ~ In name (dict_keys (validated_sections st))).
    { unfold dict_keys in *. rewrite map_app in Hnd. cbn [map fst] in Hnd.
      apply NoDup_remove_2 in Hnd. intros H. apply Hnd.
      apply in_or_app. now left. }
    unfold process_section at 2.
    set (st0 := {| validated_sections := ensure_key name (validated_sections st);
                   moved_content := moved_content st;
                   removed_content := removed_content st |}).
    assert (Hloop :
      validated_sections (fold_left (process_block nlp name) bs st0)
      = validated_sections st ++ [(name, bs)]).
    { apply (settled_blocks_loop name (validated_sections st) bs [] st0).
      - cbn. now apply ensure_key_fresh.
      - exact Hfresh.
      - exact Hbs. }
    rewrite IH.
    + rewrite Hloop, <- app_assoc. reflexivity.
    + rewrite Hloop, <- app_assoc. exact Hnd.
    + exact Hrest.
Qed.

(** A dictionary of settled blocks is a fixed point of [validate_sections]. *)
Lemma validate_settled (d : sections) :
  List.NoDup (dict_keys d) -> all_blocks (settled nlp) d ->
  validate_sections nlp d = d.
Proof.
  intros Hnd Hall. unfold validate_sections, run_validation.
  now rewrite settled_sections_loop.
Qed.

(** What [validate_sections] returns is a dictionary of settled blocks. *)
Lemma validate_sections_settled (s : sections) :
  List.NoDup (dict_keys (validate_sections nlp s))
  /\ all_blocks (settled nlp) (validate_sections nlp s).
Proof.
  unfold validate_sections, run_validation.
  destruct (sections_loop_facts nlp s initial_vstate) as [H1 [H2 _]].
  split; [apply H2; constructor | apply H1; constructor].
Qed.

Lemma settled_confidence (section_name : string) (b : block) :
  settled nlp section_name b ->
  0.3 <= confidence_of nlp (text b) section_name.
Proof.
  intros [_ [H | [reason [H _]]]].
  - apply decide_keep_iff in H. eapply Qle_trans; [|exact H]. discriminate.
  - apply decide_flag_iff in H. tauto.
Qed.

(** Settled blocks are not blank and call for no relocation. *)
Lemma settled_no_relocation (d : sections) :
  all_blocks (settled nlp) d -> relocation_notes nlp d = [].
Proof.
  unfold all_blocks, relocation_notes.
  induction 1 as [|[name bs] d Hbs Hd IH]; [reflexivity|].
  cbn [flat_map fst snd] in *. rewrite IH, app_nil_r.
  clear IH Hd. induction Hbs as [|b bs Hb Hbs IH]; [reflexivity|].
  cbn [flat_map]. rewrite IH, app_nil_r. unfold relocation_of.
  destruct Hb as [-> [-> | [reason [-> _]]]]; reflexivity.
Qed.

Lemma settled_all_nonblank (d : sections) :
  all_blocks (settled nlp) d -> nonblank_count d = total_blocks d.
Proof.
  unfold all_blocks.
  induction 1 as [|[name bs] d Hbs Hd IH]; [reflexivity|].
  rewrite nonblank_count_cons, total_blocks_cons, IH. f_equal.
  cbn [fst snd] in *. clear IH Hd. unfold nonblank.
  induction Hbs as [|b bs Hb Hbs IH]; [reflexivity|].
  cbn [List.filter]. destruct Hb as [-> _]. cbn [List.length]. now rewrite IH.
Qed.

(** A pass over a dictionary of settled blocks records no move and no
    removal. *)
Lemma validate_settled_quiet (d : sections) :
  List.NoDup (dict_keys d) -> all_blocks (settled nlp) d ->
  moved_content (run_validation nlp d) = []
  /\ removed_content (run_validation nlp d) = [].
Proof.
  intros Hnd Hall.
  pose proof (validate_settled d Hnd Hall) as Hfix.
  unfold validate_sections in Hfix.
  destruct (sections_loop_facts nlp d initial_vstate) as [_ [_ [Hm Hc]]].
  fold (run_validation nlp d) in Hm, Hc.
  cbn [initial_vstate moved_content validated_sections removed_content app]
    in Hm, Hc.
  split.
  - rewrite Hm. now apply settled_no_relocation.
  - rewrite Hfix, (settled_all_nonblank d Hall) in Hc.
    destruct (removed_content (run_validation nlp d)); [reflexivity|].
    cbn in Hc. lia.
Qed.

(** The pass over a single section holding a single non-blank block. *)
Lemma single_block_pass (section_name : string) (b : block) :
  has_nonspace (text b) = true ->
  validate_sections nlp [(section_name, [b])]
  = match decide_block nlp section_name (text b) with
    | Keep => [(section_name, [b])]
    | Move T => [(section_name, []); (T, [b])]
    | Remove => [(section_name, [])]
    | Flag reason => [(section_name, [flag reason b])]
    end.
Proof.
  intros Hb. unfold validate_sections, run_validation. cbn [fold_left].
  unfold process_section. cbn [fold_left]. unfold process_block.
  rewrite Hb. cbn [negb].
  destruct (decide_block nlp section_name (text b)) as [|T| |reason] eqn:Hd;
    cbn [validated_sections initial_vstate ensure_key has_key dict_keys map
         existsb app append_block].
  - now rewrite String.eqb_refl.
  - destruct (moved_block_is_kept nlp _ _ _ Hd) as [_ Hne].
    apply String.eqb_neq in Hne.
    unfold ensure_key, has_key. cbn [dict_keys map fst existsb].
    rewrite Hne. cbn [orb app append_block]. rewrite Hne.
    now rewrite String.eqb_refl.
  - reflexivity.
  - now rewrite String.eqb_refl.
Qed.

End ValidatorFixedPoint.

Section ValidatorClaims.
Import PyStr PyNum PyDict Spacy ContentValidator.
Local Open Scope Q_scope.

(** Without a named-entity model it scores 3/7 as EMPLOYMENT (two positive
    keywords, no negative one) and 4/8 as SUMMARY. *)
Lemma borderline_scores :
  confidence_of None (text borderline_block) "EMPLOYMENT" == 3 # 7
  /\ confidence_of None (text borderline_block) "SUMMARY" == 1 # 2
  /\ _find_correct_section None (text borderline_block) = Some "SUMMARY"%string.
Proof. vm_compute. repeat split. Qed.

(** [d[k].append(b)] and [if k not in d: d[k] = []], read through a key. *)
Lemma blocks_under_append (K k : string) (b : block) (d : sections) :
  blocks_under K (append_block k b d)
  = blocks_under K d
    ++ (if has_key k d then if String.eqb k K then [b] else [] else []).
Proof.
  unfold blocks_under, has_key, dict_keys.
  induction d as [|[k' bs] d IH]; [reflexivity|].
  cbn [append_block dict_get map fst existsb].
  destruct (String.eqb_spec k k') as [->|Hk].
  - cbn [orb dict_get]. rewrite (String.eqb_sym k' K).
    destruct (String.eqb K k'); cbn [default from_option id];
      [reflexivity | now rewrite app_nil_r].
  - cbn [orb dict_get].
    destruct (String.eqb_spec K k') as [->|HK]; cbn [default from_option id].
    + replace (String.eqb k k') with false
        by (symmetry; apply String.eqb_neq; exact Hk).
      destruct (existsb (String.eqb k) (map fst d)); now rewrite app_nil_r.
    + exact IH.
Qed.

Lemma dict_get_snoc_empty (K k : string) (d : sections) :
  default [] (dict_get K (d ++ [(k, [])])) = default [] (dict_get K d).
Proof.
  induction d as [|[k' bs] d IH]; cbn [app dict_get].
  - destruct (String.eqb K k); reflexivity.
  - destruct (String.eqb K k'); [reflexivity | exact IH].
Qed.

Lemma blocks_under_ensure_key (K k : string) (d : sections) :
  blocks_under K (ensure_key k d) = blocks_under K d.
Proof.
  unfold blocks_under, ensure_key. destruct (has_key k d); [reflexivity|].
  apply dict_get_snoc_empty.
Qed.

(** The bands and the decision of the block loop agree. *)
Lemma band_destination_decides (nlp : option ner) (section_name : string)
      (b : block) :
  has_nonspace (text b) = true ->
  band_destination nlp section_name b
  = match decide_block nlp section_name (text b) with
    | Keep => Some (section_name, b)
    | Move T => Some (T, b)
    | Remove => None
    | Flag reason => Some (section_name, flag reason b)
    end.
Proof.
  intros Hb. unfold band_destination. rewrite Hb, decide_block_unfold.
  cbv zeta. cbn [negb].
  destruct (Qle_bool 0.5 (confidence_of nlp (text b) section_name));
    [reflexivity|].
  destruct (_find_correct_section nlp (text b)); [reflexivity|].
  destruct (Qlt_bool (confidence_of nlp (text b) section_name) 0.3);
    reflexivity.
Qed.

Lemma process_block_under (nlp : option ner) (K section_name : string)
      (st : vstate) (b : block) :
  has_key section_name (validated_sections st) = true ->
  blocks_under K (validated_sections (process_block nlp section_name st b))
  = blocks_under K (validated_sections st) ++ sent_to nlp K section_name b.
Proof.
  intros Hk. unfold sent_to, process_block.
  destruct (has_nonspace (text b)) eqn:Hb; cbn [negb].
  - rewrite (band_destination_decides nlp section_name b Hb).
    destruct (decide_block nlp section_name (text b)) as [|T| |reason];
      cbn [validated_sections].
    + rewrite blocks_under_append, Hk. reflexivity.
    + rewrite blocks_under_append, ensure_key_has, blocks_under_ensure_key.
      reflexivity.
    + now rewrite app_nil_r.
    + rewrite blocks_under_append, Hk. reflexivity.
  - unfold band_destination. rewrite Hb. cbn [negb]. now rewrite app_nil_r.
Qed.

Lemma blocks_loop_under (nlp : option ner) (K section_name : string)
      (bs : list block) :
  forall st,
    has_key section_name (validated_sections st) = true ->
    blocks_under K
      (validated_sections (fold_left (process_block nlp section_name) bs st))
    = blocks_under K (validated_sections st)
      ++ flat_map (sent_to nlp K section_name) bs.
Proof.
  induction bs as [|b bs IH]; intros st Hk; cbn [fold_left flat_map].
  - now rewrite app_nil_r.
  - rewrite IH by (apply process_block_has_key; exact Hk).
    rewrite (process_block_under nlp K section_name st b Hk).
    now rewrite <- app_assoc.
Qed.

Lemma sections_loop_under (nlp : option ner) (K : string) (s : sections) :
  forall st,
    blocks_under K (validated_sections (fold_left (process_section nlp) s st))
    = blocks_under K (validated_sections st) ++ filed_by_bands nlp K s.
Proof.
  unfold filed_by_bands.
  induction s as [|[section_name bs] s IH]; intros st;
    cbn [fold_left flat_map fst snd].
  - now rewrite app_nil_r.
  - rewrite IH. unfold process_section.
    rewrite blocks_loop_under by (cbn [validated_sections]; apply ensure_key_has).
    cbn [validated_sections]. rewrite blocks_under_ensure_key.
    now rewrite <- app_assoc.
Qed.

(** The result of the pass over [mixed_sections] holds the borderline
    block under SUMMARY and the job line alone under EMPLOYMENT. *)
Lemma borderline_block_leaves_employment :
  blocks_under "EMPLOYMENT" (validate_sections None mixed_sections)
  = [job_line]
  /\ blocks_under "SUMMARY" (validate_sections None mixed_sections)
     = [borderline_block].
Proof. vm_compute. split; reflexivity. Qed.

(** C2, as stated, fails: a block that scores at least 0.4 but less than 0.5
    in its section is not always retained there with a warning.  The
    borderline block, filed under EMPLOYMENT between other blocks, is
    relocated to SUMMARY and is no longer under EMPLOYMENT, flagged or
    not. *)
Lemma band_04_05_block_is_relocated :
  ~ (forall (nlp : option ner) (s : sections) (section_name : string)
            (bs : list block) (b : block),
        In (section_name, bs) s -> In b bs ->
        has_nonspace (text b) = true ->
        0.4 <= confidence_of nlp (text b) section_name ->
        confidence_of nlp (text b) section_name < 0.5 ->
        exists reason,
          In (flag reason b)
             (blocks_under section_name (validate_sections nlp s))).
Proof.
  intros H.
  destruct (H None mixed_sections "EMPLOYMENT"%string
              [job_line; borderline_block; plain_block "   "]
              borderline_block) as [reason Hr].
  - left. reflexivity.
  - right. left. reflexivity.
  - reflexivity.
  - vm_compute. discriminate.
  - vm_compute. reflexivity.
  - rewrite (proj1 borderline_block_leaves_employment) in Hr.
    destruct Hr as [Hr|[]]. discriminate Hr.
Qed.

(** C2, amended.  For every dictionary of sections, [validate_sections]
    files every block of every section by the band of its score [c] against
    the section it comes from: under every key [K] the result holds, in the
    order of the input, exactly the blocks the bands send to [K].  A blank
    block is skipped; a block with [c >= 0.5] is kept as it is; every block
    with [c < 0.5] is offered for relocation and moved, as it is, to the
    best-scoring type [T] of the signature table when that type reaches 0.5,
    and [T] then differs from the section it comes from; no type reaches
    0.5 exactly when [_find_correct_section] finds none, and then the block
    is dropped if [c < 0.3] and otherwise stays in its section with the
    validation reason as warning. *)
Theorem validate_block_bands (nlp : option ner) (s : sections) :
  (forall K,
      blocks_under K (validate_sections nlp s) = filed_by_bands nlp K s)
  /\ (forall section_name bs b,
        In (section_name, bs) s -> In b bs ->
        has_nonspace (text b) = true ->
        let c := confidence_of nlp (text b) section_name in
        let found := _find_correct_section nlp (text b) in
        (0.5 <= c -> band_destination nlp section_name b
                     = Some (section_name, b))
        /\ (forall T, c < 0.5 -> found = Some T ->
              band_destination nlp section_name b = Some (T, b)
              /\ T <> section_name
              /\ 0.5 <= confidence_of nlp (text b) T
              /\ (forall T', In T' (dict_keys CONTENT_SIGNATURES) ->
                    confidence_of nlp (text b) T'
                    <= confidence_of nlp (text b) T))
        /\ (found = None
            <-> forall T, In T (dict_keys CONTENT_SIGNATURES) ->
                          confidence_of nlp (text b) T < 0.5)
        /\ (c < 0.3 -> found = None ->
            band_destination nlp section_name b = None)
        /\ (0.3 <= c -> c < 0.5 -> found = None ->
            band_destination nlp section_name b
            = Some (section_name,
                    flag (reason_of nlp (text b) section_name) b))).
Proof.
  split.
  - intros K. unfold validate_sections, run_validation.
    rewrite sections_loop_under. reflexivity.
  - intros section_name bs b _ _ Hb c found. subst c found.
    rewrite (band_destination_decides nlp section_name b Hb).
    split; [|split; [|split; [|split]]].
    + intros Hc. apply decide_keep_iff in Hc. now rewrite Hc.
    + intros T Hc Hf.
      assert (Hm : decide_block nlp section_name (text b) = Move T)
        by (apply decide_move_iff; auto).
      destruct (find_correct_section_some nlp _ _ Hf) as [_ [H5 Hmax]].
      destruct (moved_block_is_kept nlp _ _ _ Hm) as [_ Hne].
      rewrite Hm. auto.
    + apply find_correct_section_none.
    + intros Hc Hf.
      assert (Hm : decide_block nlp section_name (text b) = Remove)
        by (apply decide_remove_iff; auto).
      now rewrite Hm.
    + intros H3 H5 Hf.
      assert (Hm : decide_block nlp section_name (text b)
                   = Flag (reason_of nlp (text b) section_name))
        by (apply decide_flag_iff; auto).
      now rewrite Hm.
Qed.

Lemma validate_block_bands_witness :
  blocks_under "SUMMARY" (validate_sections None mixed_sections)
  = [borderline_block]
  /\ blocks_under "EMPLOYMENT" (validate_sections None mixed_sections)
     = [job_line]
  /\ band_destination None "EMPLOYMENT" borderline_block
     = Some ("SUMMARY"%string, borderline_block).
Proof.
  split; [|split].
  - rewrite (proj1 (validate_block_bands None mixed_sections) "SUMMARY"%string).
    reflexivity.
  - rewrite (proj1 (validate_block_bands None mixed_sections)
               "EMPLOYMENT"%string).
    reflexivity.
  - refine (proj1 (proj1 (proj2 (proj2 (validate_block_bands None mixed_sections)
                     "EMPLOYMENT"%string _ borderline_block _ _ _))
                   "SUMMARY"%string _ _)).
    + left. reflexivity.
    + right. left. reflexivity.
    + reflexivity.
    + vm_compute. reflexivity.
    + vm_compute. reflexivity.
Defined.

(** C4.  [validate_sections] is idempotent: a second pass over its own
    output returns that output, and it records no move and no removal. *)
Theorem validate_sections_idempotent (nlp : option ner) (s : sections) :
  validate_sections nlp (validate_sections nlp s) = validate_sections nlp s
  /\ moved_content (run_validation nlp (validate_sections nlp s)) = []
  /\ removed_content (run_validation nlp (validate_sections nlp s)) = [].
Proof.
  destruct (validate_sections_settled nlp s) as [Hnd Hall].
  split; [apply validate_settled; assumption|].
  apply validate_settled_quiet; assumption.
Qed.

Lemma relocation_of_length (nlp : option ner) (section_name : string)
      (b : block) :
  (List.length (relocation_of nlp section_name b)
   <= if has_nonspace (text b) then 1 else 0)%nat.
Proof.
  unfold relocation_of. destruct (has_nonspace (text b)); [|cbn; lia].
  destruct (decide_block nlp section_name (text b)); cbn; lia.
Qed.

Lemma block_notes_bound (nlp : option ner) (section_name : string)
      (bs : list block) :
  (List.length (flat_map (relocation_of nlp section_name) bs)
   <= nonblank bs)%nat.
Proof.
  unfold nonblank. induction bs as [|b bs IH]; [cbn; lia|].
  cbn [flat_map List.filter]. rewrite length_app.
  pose proof (relocation_of_length nlp section_name b) as H.
  destruct (has_nonspace (text b)); cbn [List.length]; lia.
Qed.

Lemma relocation_notes_bound (nlp : option ner) (s : sections) :
  (List.length (relocation_notes nlp s) <= nonblank_count s)%nat.
Proof.
  unfold relocation_notes. induction s as [|[name bs] s IH]; [cbn; lia|].
  cbn [flat_map fst snd]. rewrite length_app, nonblank_count_cons.
  pose proof (block_notes_bound nlp name bs). cbn [snd]. lia.
Qed.

(** C5.  After a validation pass every block of the result has confidence
    at least 0.3 against the section that holds it.  The relocations of the
    pass are the notes of the input blocks taken one by one, each block
    contributing at most one, so their number is at most the number of
    non-blank blocks; and every non-blank input block is either filed once
    in the result or recorded once as removed. *)
Theorem validated_blocks_above_drop_threshold
        (nlp : option ner) (s : sections) :
  let st := run_validation nlp s in
  validated_sections st = validate_sections nlp s
  /\ all_blocks (fun T b => 0.3 <= confidence_of nlp (text b) T)
                (validate_sections nlp s)
  /\ moved_content st = relocation_notes nlp s
  /\ (forall section_name b,
        (List.length (relocation_of nlp section_name b)
         <= if has_nonspace (text b) then 1 else 0)%nat)
  /\ (List.length (moved_content st) <= nonblank_count s)%nat
  /\ (total_blocks (validated_sections st) + List.length (removed_content st)
      = nonblank_count s)%nat.
Proof.
  intros st. subst st.
  destruct (validate_sections_settled nlp s) as [_ Hall].
  destruct (sections_loop_facts nlp s initial_vstate) as [_ [_ [Hm Hc]]].
  cbn [initial_vstate moved_content validated_sections removed_content app
       total_blocks fold_right List.length] in Hm, Hc.
  fold (run_validation nlp s) in Hm, Hc.
  split; [reflexivity|].
  split.
  { unfold all_blocks in *. eapply List.Forall_impl; [|exact Hall].
    intros [T bs] Hbs. cbn [fst snd] in *.
    eapply List.Forall_impl; [|exact Hbs].
    intros b. apply settled_confidence. }
  split; [exact Hm|]. split; [apply relocation_of_length|].
  split; [|exact Hc].
  rewrite Hm. apply relocation_notes_bound.
Qed.

End ValidatorClaims.

(* ===================================================================== *)
(** * Deduplication: [check_content_duplication] *)

Section DictFacts.
Import PyDict ContentValidator.

Lemma dict_set_fresh {V : Type} (k : string) (v : V) (d : list (string * V)) :
  ~ In k (dict_keys d) -> dict_set k v d = d ++ [(k, v)].
Proof.
  induction d as [|[k' v'] d IH]; cbn; intros H; [reflexivity|].
  destruct (String.eqb_spec k k') as [->|Hne]; [tauto|].
  f_equal. apply IH. tauto.
Qed.

Lemma dict_set_forall {V : Type} (P : string * V -> Prop) (k : string) (v : V)
      (d : list (string * V)) :
  Forall P d -> P (k, v) -> Forall P (dict_set k v d).
Proof.
  intros Hd Hk. induction Hd as [|[k' v'] d He Hd IH]; cbn.
  - repeat constructor. exact Hk.
  - destruct (String.eqb_spec k k') as [->|Hne]; constructor; assumption.
Qed.

Lemma dict_get_set_same {V : Type} (k : string) (v : V) (d : list (string * V)) :
  dict_get k (dict_set k v d) = Some v.
Proof.
  induction d as [|[k' v'] d IH]; cbn.
  - now rewrite String.eqb_refl.
  - destruct (String.eqb k k') eqn:E; cbn; rewrite E; [reflexivity | exact IH].
Qed.

End DictFacts.

Section DedupLoops.
Import PyStr PyNum PyDict Spacy ContentValidator.

Variable hash : string -> Z.

Lemma dedup_block_unfold (seen : gset Z) (u : list block) (b : block) :
  dedup_block hash (seen, u) b
  = if decide (text_hash hash b ∈ seen) then (seen, u) else (seen ∪ {[ text_hash hash b ]}, u ++ [b]).
Proof. reflexivity. Qed.

(** The block loop: the blocks appended are those of [bs] whose hash was
    not seen before, in their order. *)
Lemma dedup_blocks_loop (bs : list block) (seen : gset Z) (u : list block) :
  exists seen' w,
    fold_left (dedup_block hash) bs (seen, u) = (seen', u ++ w)
    /\ (forall z, z ∈ seen' <-> z ∈ seen \/ In z (map (text_hash hash) bs))
    /\ sublist w bs
    /\ List.NoDup (map (text_hash hash) w)
    /\ (forall z, In z (map (text_hash hash) w) <-> (z ∉ seen) /\ In z (map (text_hash hash) bs)).
Proof.
  revert seen u. induction bs as [|b bs IH]; intros seen u; cbn [fold_left].
  - exists seen, []. rewrite app_nil_r. repeat split; try constructor;
      cbn; tauto.
  - rewrite dedup_block_unfold. destruct (decide (text_hash hash b ∈ seen)) as [Hin|Hout].
    + destruct (IH seen u) as [seen' [w [Hf [Hs [Hsub [Hnd Hw]]]]]].
      exists seen', w. split; [exact Hf|]. split; [|split; [|split]].
      * intros z. rewrite Hs. cbn [map In]. split; [tauto|].
        intros [H|[<-|H]]; tauto.
      * now apply sublist_cons.
      * exact Hnd.
      * intros z. rewrite Hw. cbn [map In]. split; [tauto|].
        intros [H1 [<-|H2]]; tauto.
    + destruct (IH (seen ∪ {[ text_hash hash b ]}) (u ++ [b]))
        as [seen' [w [Hf [Hs [Hsub [Hnd Hw]]]]]].
      exists seen', (b :: w). rewrite <- app_assoc in Hf. cbn [app] in Hf.
      split; [exact Hf|]. split; [|split; [|split]].
      * intros z. rewrite Hs. cbn [map In]. rewrite elem_of_union.
        rewrite elem_of_singleton. split.
        -- intros [[H|H]|H]; auto.
        -- intros [H|[H|H]]; auto.
      * now apply sublist_skip.
      * cbn [map]. constructor; [|exact Hnd].
        intros H. apply Hw in H. destruct H as [H _]. apply H.
        apply elem_of_union. right. now apply elem_of_singleton.
      * intros z. cbn [map In]. rewrite Hw. rewrite elem_of_union.
        rewrite elem_of_singleton. split.
        -- intros [<-|[H1 H2]]; [tauto|]. split; [|tauto].
           intros H. apply H1. now left.
        -- intros [H1 [H2|H2]]; [now left|].
           destruct (Z.eq_dec (text_hash hash b) z) as [E|E]; [now left|right].
           split; [|exact H2]. intros [H|H]; [tauto|]. congruence.
Qed.

(** On blocks of distinct hashes, none of them seen before, the block loop
    appends them all. *)
Lemma dedup_blocks_fresh (bs : list block) (seen : gset Z) (u : list block) :
  List.NoDup (map (text_hash hash) bs) -> (forall z, In z (map (text_hash hash) bs) -> z ∉ seen) ->
  exists seen',
    fold_left (dedup_block hash) bs (seen, u) = (seen', u ++ bs)
    /\ (forall z, z ∈ seen' <-> z ∈ seen \/ In z (map (text_hash hash) bs)).
Proof.
  revert seen u. induction bs as [|b bs IH]; intros seen u Hnd Hfresh;
    cbn [fold_left].
  - exists seen. rewrite app_nil_r. split; [reflexivity|]. cbn. tauto.
  - rewrite dedup_block_unfold. cbn [map] in Hnd, Hfresh.
    inversion Hnd as [|z l Hz Hl]; subst.
    destruct (decide (text_hash hash b ∈ seen)) as [Hin|Hout].
    { exfalso. apply (Hfresh (text_hash hash b)); [now left | exact Hin]. }
    destruct (IH (seen ∪ {[ text_hash hash b ]}) (u ++ [b]) Hl) as [seen' [Hf Hs]].
    { intros z Hz' [H|H]%elem_of_union.
      - apply (Hfresh z); [now right | exact H].
      - apply elem_of_singleton in H. subst. exact (Hz Hz'). }
    exists seen'. rewrite <- app_assoc in Hf. split; [exact Hf|].
    intros z. rewrite Hs, elem_of_union, elem_of_singleton. cbn [map In].
    split; [intros [[H|H]|H] | intros [H|[H|H]]]; auto.
Qed.

Lemma section_hashes_cons (e : string * list block) (d : sections) :
  section_hashes hash (e :: d) = map (text_hash hash) (snd e) ++ section_hashes hash d.
Proof. reflexivity. Qed.

Lemma section_hashes_app (d1 d2 : sections) :
  section_hashes hash (d1 ++ d2)
  = section_hashes hash d1 ++ section_hashes hash d2.
Proof. unfold section_hashes. apply flat_map_app. Qed.

Lemma section_hashes_dict_set_in (k : string) (v : list block) (d : sections)
      (z : Z) :
  In z (section_hashes hash (dict_set k v d)) ->
  In z (map (text_hash hash) v) \/ In z (section_hashes hash d).
Proof.
  induction d as [|[k' bs] d IH]; cbn [dict_set].
  - rewrite section_hashes_cons. cbn [snd]. rewrite in_app_iff. tauto.
  - destruct (String.eqb k k'); rewrite !section_hashes_cons; cbn [snd];
      rewrite !in_app_iff; tauto.
Qed.

Lemma nodup_app_intro {A : Type} (l1 l2 : list A) :
  List.NoDup l1 -> List.NoDup l2 -> (forall x, In x l1 -> ~ In x l2) ->
  List.NoDup (l1 ++ l2).
Proof.
  induction 1 as [|a l1 Ha Hl1 IH]; cbn; intros H2 Hd; [exact H2|].
  constructor.
  - rewrite in_app_iff. intros [H|H]; [tauto|]. apply (Hd a); auto.
  - apply IH; [exact H2|]. intros x Hx. apply Hd. now right.
Qed.

Lemma nodup_app_elim {A : Type} (l1 l2 : list A) :
  List.NoDup (l1 ++ l2) ->
  List.NoDup l1 /\ List.NoDup l2 /\ (forall x, In x l1 -> ~ In x l2).
Proof.
  induction l1 as [|a l1 IH]; cbn; intros H.
  - repeat split; [constructor | exact H | tauto].
  - inversion H as [|x l Ha Hl]; subst. destruct (IH Hl) as [H1 [H2 H3]].
    repeat split; [|exact H2|].
    + constructor; [|exact H1]. intros Hin. apply Ha. apply in_or_app. auto.
    + intros x [<-|Hx]; [|now apply H3].
      intros Hin. apply Ha. apply in_or_app. auto.
Qed.

Lemma section_hashes_dict_set_nodup (k : string) (v : list block)
      (d : sections) :
  List.NoDup (section_hashes hash d) -> List.NoDup (map (text_hash hash) v) ->
  (forall z, In z (map (text_hash hash) v) -> ~ In z (section_hashes hash d)) ->
  List.NoDup (section_hashes hash (dict_set k v d)).
Proof.
  induction d as [|[k' bs] d IH]; cbn [dict_set]; intros Hd Hv Hfresh.
  - rewrite section_hashes_cons. cbn [snd section_hashes flat_map].
    now rewrite app_nil_r.
  - rewrite section_hashes_cons in Hd, Hfresh. cbn [snd] in Hd, Hfresh.
    destruct (nodup_app_elim _ _ Hd) as [H1 [H2 H3]].
    destruct (String.eqb k k'); rewrite section_hashes_cons; cbn [snd].
    + apply nodup_app_intro; [exact Hv | exact H2 |].
      intros z Hz Hin. apply (Hfresh z Hz). apply in_or_app. now right.
    + apply nodup_app_intro; [exact H1 | |].
      * apply IH; [exact H2 | exact Hv |].
        intros z Hz Hin. apply (Hfresh z Hz). apply in_or_app. now right.
      * intros z Hz Hin. apply section_hashes_dict_set_in in Hin.
        destruct Hin as [Hin|Hin]; [|exact (H3 z Hz Hin)].
        apply (Hfresh z Hin). apply in_or_app. now left.
Qed.

Lemma dedup_section_inv (s : sections) (st : gset Z * sections)
      (e : string * list block) :
  In e s -> dedup_inv hash s st -> dedup_inv hash s (dedup_section hash st e).
Proof.
  destruct st as [seen out]. destruct e as [name bs].
  intros He [H1 [H2 [H3 H4]]]. cbn [fst snd] in *.
  unfold dedup_section.
  destruct (dedup_blocks_loop bs seen []) as [seen' [w [Hf [Hs [Hsub [Hnd Hw]]]]]].
  rewrite Hf. cbn [app].
  destruct w as [|b w].
  - repeat split; cbn [fst snd]; try assumption.
    intros z Hz. apply Hs. left. now apply H1.
  - set (w' := b :: w) in *. repeat split; cbn [fst snd].
    + intros z Hz. apply section_hashes_dict_set_in in Hz. apply Hs.
      destruct Hz as [Hz|Hz]; [apply Hw in Hz; tauto | left; now apply H1].
    + apply section_hashes_dict_set_nodup; [exact H2 | exact Hnd |].
      intros z Hz Hin. apply Hw in Hz. destruct Hz as [Hz _].
      apply Hz. now apply H1.
    + apply dict_set_forall; [exact H3 | discriminate].
    + apply dict_set_forall; [exact H4|]. exists bs. cbn [fst snd]. auto.
Qed.

Lemma dedup_sections_inv (s rest : sections) (st : gset Z * sections) :
  incl rest s -> dedup_inv hash s st ->
  dedup_inv hash s (fold_left (dedup_section hash) rest st).
Proof.
  revert st. induction rest as [|e rest IH]; intros st Hincl Hinv;
    cbn [fold_left]; [exact Hinv|].
  apply IH.
  - intros x Hx. apply Hincl. now right.
  - apply dedup_section_inv; [apply Hincl; now left | exact Hinv].
Qed.

Lemma dedup_inv_result (s : sections) :
  dedup_inv hash s (fold_left (dedup_section hash) s (∅, [])).
Proof.
  apply dedup_sections_inv; [apply incl_refl|].
  repeat split; cbn; try constructor. tauto.
Qed.

(** With distinct keys, the section loop appends one entry for every
    section that brings an unseen hash. *)
Lemma dedup_sections_loop (rest : sections) (seen : gset Z) (out : sections) :
  List.NoDup (dict_keys (out ++ rest)) ->
  exists seen' new,
    fold_left (dedup_section hash) rest (seen, out) = (seen', out ++ new)
    /\ sublist (dict_keys new) (dict_keys rest)
    /\ (forall z, z ∈ seen' <-> z ∈ seen \/ In z (section_hashes hash rest))
    /\ (forall z, In z (section_hashes hash new)
                  <-> (z ∉ seen) /\ In z (section_hashes hash rest)).
Proof.
  revert seen out. induction rest as [|[name bs] rest IH]; intros seen out Hk;
    cbn [fold_left].
  - exists seen, []. rewrite app_nil_r. repeat split; try constructor;
      cbn; tauto.
  - assert (Hfresh : ~ In name (dict_keys out)).
    { unfold dict_keys in *. rewrite map_app in Hk. cbn [map fst] in Hk.
      apply NoDup_remove_2 in Hk. intros H. apply Hk.
      apply in_or_app. now left. }
    unfold dedup_section at 2.
    destruct (dedup_blocks_loop bs seen [])
      as [seen1 [w [Hf [Hs [Hsub [Hnd Hw]]]]]].
    rewrite Hf. cbn [app].
    assert (Hstep : exists new1,
               (match w with
                | [] => (seen1, out)
                | _ => (seen1, dict_set name w out)
                end) = (seen1, out ++ new1)
               /\ sublist (dict_keys new1) [name]
               /\ section_hashes hash new1 = map (text_hash hash) w).
    { destruct w as [|b w].
      - exists []. rewrite app_nil_r. repeat split.
        apply sublist_nil_l.
      - exists [(name, b :: w)].
        rewrite (dict_set_fresh _ _ _ Hfresh). repeat split.
        + reflexivity.
        + cbn [section_hashes flat_map snd]. now rewrite app_nil_r. }
    destruct Hstep as [new1 [Hm [Hk1 Hh1]]]. rewrite Hm.
    destruct (IH seen1 (out ++ new1)) as [seen' [new [Hf' [Hk' [Hs' Hw']]]]].
    { unfold dict_keys in *. rewrite !map_app in *. cbn [map fst] in Hk.
      rewrite <- app_assoc.
      apply NoDup_ListNoDup. apply NoDup_ListNoDup in Hk.
      eapply sublist_NoDup; [exact Hk|].
      apply sublist_app; [reflexivity|].
      change (map fst new1 ++ map fst rest `sublist_of` [name] ++ map fst rest).
      apply sublist_app; [exact Hk1 | reflexivity]. }
    exists seen', (new1 ++ new). rewrite app_assoc. split; [exact Hf'|].
    split; [|split].
    + unfold dict_keys in *. rewrite map_app. cbn [map fst].
      change (map fst new1 ++ map fst new `sublist_of` [name] ++ map fst rest).
      now apply sublist_app.
    + intros z. rewrite Hs', Hs, section_hashes_cons, in_app_iff. cbn [snd].
      tauto.
    + intros z. rewrite section_hashes_app, in_app_iff, Hh1, Hw, Hw', Hs.
      rewrite section_hashes_cons, in_app_iff. cbn [snd].
      split; [tauto|]. intros [H1 [H2|H2]]; [tauto|].
      destruct (in_dec Z.eq_dec z (map (text_hash hash) bs)); tauto.
Qed.

(** A dictionary with distinct keys and distinct hashes and no empty section
    passes the section loop unchanged. *)
Lemma dedup_sections_fresh (rest : sections) (seen : gset Z) (out : sections) :
  List.NoDup (dict_keys (out ++ rest)) ->
  List.NoDup (section_hashes hash rest) ->
  (forall z, In z (section_hashes hash rest) -> z ∉ seen) ->
  no_empty_section rest ->
  snd (fold_left (dedup_section hash) rest (seen, out)) = out ++ rest.
Proof.
  revert seen out. induction rest as [|[name bs] rest IH];
    intros seen out Hk Hnd Hfresh Hne; cbn [fold_left].
  - now rewrite app_nil_r.
  - assert (Hname : ~ In name (dict_keys out)).
    { unfold dict_keys in *. rewrite map_app in Hk. cbn [map fst] in Hk.
      apply NoDup_remove_2 in Hk. intros H. apply Hk.
      apply in_or_app. now left. }
    rewrite section_hashes_cons in Hnd, Hfresh. cbn [snd] in Hnd, Hfresh.
    destruct (nodup_app_elim _ _ Hnd) as [H1 [H2 H3]].
    inversion Hne as [|e d Hbs Hrest]; subst. cbn [snd] in Hbs.
    unfold dedup_section at 2.
    destruct (dedup_blocks_fresh bs seen [] H1) as [seen1 [Hf Hs]].
    { intros z Hz. apply Hfresh. apply in_or_app. now left. }
    rewrite Hf. cbn [app]. destruct bs as [|b bs]; [congruence|].
    rewrite (dict_set_fresh _ _ _ Hname).
    rewrite IH.
    + now rewrite <- app_assoc.
    + now rewrite <- app_assoc.
    + exact H2.
    + intros z Hz [H|H]%Hs.
      * apply (Hfresh z); [apply in_or_app; now right | exact H].
      * exact (H3 z H Hz).
    + exact Hrest.
Qed.

End DedupLoops.

Section DedupProperties.
Import PyStr PyNum PyDict Spacy ContentValidator.

Variable hash : string -> Z.

(** X1.  Whatever the hash function is, no two blocks of the result of
    [check_content_duplication] have the same hash of the first 100
    characters of their stripped text, within one section or across
    sections. *)
Theorem check_content_duplication_distinct_hashes (s : sections) :
  List.NoDup (section_hashes hash (check_content_duplication hash s)).
Proof.
  unfold check_content_duplication.
  destruct (dedup_inv_result hash s) as [_ [H _]]. exact H.
Qed.

(** X2.  [check_content_duplication] invents nothing and reorders nothing:
    every section of the result holds, in their order, some of the blocks
    the input holds under the same name, and it holds at least one. *)
Theorem check_content_duplication_drawn_from_input (s : sections) :
  drawn_from (check_content_duplication hash s) s
  /\ no_empty_section (check_content_duplication hash s).
Proof.
  unfold check_content_duplication.
  destruct (dedup_inv_result hash s) as [_ [_ [H1 H2]]]. auto.
Qed.

(** X3.  On a dictionary (distinct keys) every hash of the input is the
    hash of a block of the result and conversely, and the sections of the
    result are sections of the input, in the input's order. *)
Theorem check_content_duplication_keeps_every_hash (s : sections) :
  List.NoDup (dict_keys s) ->
  (forall z, In z (section_hashes hash (check_content_duplication hash s))
             <-> In z (section_hashes hash s))
  /\ sublist (dict_keys (check_content_duplication hash s)) (dict_keys s).
Proof.
  intros Hk.
  destruct (dedup_sections_loop hash s ∅ [] Hk) as [seen' [new [Hf [Hs [_ Hw]]]]].
  assert (E : check_content_duplication hash s = new)
    by exact (f_equal snd Hf).
  rewrite E. split; [|exact Hs].
  intros z. rewrite Hw. split; [tauto|]. intros H. split; [|exact H].
  apply not_elem_of_empty.
Qed.

Lemma check_content_duplication_fixed (d : sections) :
  List.NoDup (dict_keys d) -> List.NoDup (section_hashes hash d) ->
  no_empty_section d ->
  check_content_duplication hash d = d.
Proof.
  intros Hk Hh Hne.
  apply (dedup_sections_fresh hash d ∅ [] Hk Hh); [|exact Hne].
  intros z _. apply not_elem_of_empty.
Qed.

Lemma check_content_duplication_keys (s : sections) :
  List.NoDup (dict_keys s) ->
  List.NoDup (dict_keys (check_content_duplication hash s)).
Proof.
  intros Hk.
  destruct (dedup_sections_loop hash s ∅ [] Hk) as [seen' [new [Hf [Hs _]]]].
  assert (E : check_content_duplication hash s = new)
    by exact (f_equal snd Hf).
  rewrite E.
  apply NoDup_ListNoDup. apply NoDup_ListNoDup in Hk.
  eapply sublist_NoDup; [exact Hk | exact Hs].
Qed.

(** X4.  On a dictionary, deduplicating twice is deduplicating once. *)
Theorem check_content_duplication_idempotent (s : sections) :
  List.NoDup (dict_keys s) ->
  check_content_duplication hash (check_content_duplication hash s)
  = check_content_duplication hash s.
Proof.
  intros Hk. apply check_content_duplication_fixed.
  - now apply check_content_duplication_keys.
  - unfold check_content_duplication.
    destruct (dedup_inv_result hash s) as [_ [H _]]. exact H.
  - unfold check_content_duplication.
    destruct (dedup_inv_result hash s) as [_ [_ [H _]]]. exact H.
Qed.

(** X5.  Two blocks whose stripped texts agree on their first 100
    characters count as duplicates, however they go on: the later one is
    dropped, and when it is the only block of its section the section
    disappears from the result. *)
Theorem shared_prefix_block_is_dropped (k1 k2 : string) (b1 b2 : block) :
  take 100 (strip (text b1)) = take 100 (strip (text b2)) ->
  check_content_duplication hash [(k1, [b1; b2])] = [(k1, [b1])]
  /\ check_content_duplication hash [(k1, [b1]); (k2, [b2])] = [(k1, [b1])].
Proof.
  intros Hp.
  assert (Hh : text_hash hash b2 = text_hash hash b1).
  { unfold text_hash. now rewrite Hp. }
  assert (H1 : dedup_block hash (∅, []) b1 = ({[text_hash hash b1]}, [b1])).
  { rewrite dedup_block_unfold.
    destruct (decide (text_hash hash b1 ∈ (∅ : gset Z))) as [H|_].
    - exfalso. exact (not_elem_of_empty _ H).
    - now rewrite (left_id_L ∅ (∪)). }
  assert (H2 : forall u,
             dedup_block hash ({[text_hash hash b1]}, u) b2
             = ({[text_hash hash b1]}, u)).
  { intros u. rewrite dedup_block_unfold, Hh.
    destruct (decide (text_hash hash b1 ∈ ({[text_hash hash b1]} : gset Z)))
      as [_|H]; [reflexivity|].
    exfalso. apply H. now apply elem_of_singleton. }
  unfold check_content_duplication. split.
  - cbn [fold_left]. unfold dedup_section. cbn [fold_left].
    rewrite H1, H2. reflexivity.
  - cbn [fold_left]. unfold dedup_section at 2. cbn [fold_left].
    rewrite H1. cbn [dict_set]. unfold dedup_section. cbn [fold_left].
    rewrite H2. reflexivity.
Qed.

End DedupProperties.

Section DedupWitnesses.
Import PyStr PyNum PyDict Spacy ContentValidator.

Lemma check_content_duplication_keeps_every_hash_witness :
  List.NoDup (dict_keys repeated_skill)
  /\ ((forall z,
         In z (section_hashes length_hash
                 (check_content_duplication length_hash repeated_skill))
         <-> In z (section_hashes length_hash repeated_skill))
      /\ sublist
           (dict_keys (check_content_duplication length_hash repeated_skill))
           (dict_keys repeated_skill)).
Proof.
  assert (H : List.NoDup (dict_keys repeated_skill)).
  { repeat (apply List.NoDup_cons; [cbn; intuition discriminate|]).
    apply List.NoDup_nil. }
  split; [exact H|].
  exact (check_content_duplication_keeps_every_hash length_hash repeated_skill H).
Defined.

Lemma check_content_duplication_idempotent_witness :
  List.NoDup (dict_keys repeated_skill)
  /\ check_content_duplication length_hash
       (check_content_duplication length_hash repeated_skill)
     = check_content_duplication length_hash repeated_skill.
Proof.
  assert (H : List.NoDup (dict_keys repeated_skill)).
  { repeat (apply List.NoDup_cons; [cbn; intuition discriminate|]).
    apply List.NoDup_nil. }
  split; [exact H|].
  exact (check_content_duplication_idempotent length_hash repeated_skill H).
Defined.

Lemma shared_prefix_block_is_dropped_witness :
  text long_block_1 <> text long_block_2
  /\ check_content_duplication length_hash
       [("EMPLOYMENT", [long_block_1; long_block_2])]
     = [("EMPLOYMENT", [long_block_1])]
  /\ check_content_duplication length_hash
       [("EMPLOYMENT", [long_block_1]); ("PROJECTS", [long_block_2])]
     = [("EMPLOYMENT", [long_block_1])].
Proof.
  split; [discriminate|].
  apply (shared_prefix_block_is_dropped length_hash "EMPLOYMENT" "PROJECTS").
  reflexivity.
Defined.

End DedupWitnesses.

(* ===================================================================== *)
(** * Validation followed by deduplication: [validate_and_fix_sections] *)

Section ValidateAndFixProperties.
Import PyStr PyNum PyDict Spacy ContentValidator.
Local Open Scope Q_scope.

Variable nlp : option ner.
Variable hash : string -> Z.

Lemma drawn_from_all_blocks (P : string -> block -> Prop) (d s : sections) :
  drawn_from d s -> all_blocks P s -> all_blocks P d.
Proof.
  unfold drawn_from, all_blocks. intros Hd Hs.
  rewrite List.Forall_forall in *. intros e He.
  destruct (Hd e He) as [bs [Hin Hsub]].
  specialize (Hs _ Hin). cbn [fst snd] in Hs.
  rewrite List.Forall_forall in *. intros b Hb. apply Hs.
  apply list_elem_of_In. eapply elem_of_sublist; [|exact Hsub].
  now apply list_elem_of_In.
Qed.

Lemma validate_and_fix_settled (s : sections) :
  List.NoDup (dict_keys (validate_and_fix_sections nlp hash s))
  /\ all_blocks (settled nlp) (validate_and_fix_sections nlp hash s).
Proof.
  unfold validate_and_fix_sections.
  destruct (validate_sections_settled nlp s) as [Hk Hall]. split.
  - now apply check_content_duplication_keys.
  - eapply drawn_from_all_blocks; [|exact Hall].
    destruct (dedup_inv_result hash (validate_sections nlp s))
      as [_ [_ [_ H]]]. exact H.
Qed.

(** X6.  Every block [validate_and_fix_sections] returns is non-blank and
    scores at least 0.3 against the section it is filed under; no section
    of the result is empty and no two blocks of the result share the hash
    of their first 100 characters. *)
Theorem validate_and_fix_sections_sound (s : sections) :
  all_blocks (fun k b => has_nonspace (text b) = true
                         /\ 0.3 <= confidence_of nlp (text b) k)
             (validate_and_fix_sections nlp hash s)
  /\ no_empty_section (validate_and_fix_sections nlp hash s)
  /\ List.NoDup (section_hashes hash (validate_and_fix_sections nlp hash s)).
Proof.
  destruct (validate_and_fix_settled s) as [_ Hall].
  split; [|split].
  - unfold all_blocks in *. eapply List.Forall_impl; [|exact Hall].
    intros e He. eapply List.Forall_impl; [|exact He].
    intros b Hb. split; [exact (proj1 Hb) | now apply settled_confidence].
  - unfold validate_and_fix_sections, check_content_duplication.
    destruct (dedup_inv_result hash (validate_sections nlp s))
      as [_ [_ [H _]]]. exact H.
  - unfold validate_and_fix_sections, check_content_duplication.
    destruct (dedup_inv_result hash (validate_sections nlp s))
      as [_ [H _]]. exact H.
Qed.

(** X7.  [validate_and_fix_sections] is idempotent: its result is a fixed
    point of the validation pass and of the deduplication. *)
Theorem validate_and_fix_sections_idempotent (s : sections) :
  validate_and_fix_sections nlp hash (validate_and_fix_sections nlp hash s)
  = validate_and_fix_sections nlp hash s.
Proof.
  destruct (validate_and_fix_settled s) as [Hk Hall].
  unfold validate_and_fix_sections at 1.
  rewrite (validate_settled nlp _ Hk Hall).
  unfold validate_and_fix_sections.
  apply check_content_duplication_fixed.
  - apply check_content_duplication_keys.
    exact (proj1 (validate_sections_settled nlp s)).
  - unfold check_content_duplication.
    destruct (dedup_inv_result hash (validate_sections nlp s))
      as [_ [H _]]. exact H.
  - unfold check_content_duplication.
    destruct (dedup_inv_result hash (validate_sections nlp s))
      as [_ [_ [H _]]]. exact H.
Qed.

End ValidateAndFixProperties.

(* ===================================================================== *)
(** * The aggressive filter: [filter_mismatched_content] *)

Section FilterProperties.
Import PyStr PyNum PyDict Spacy ContentValidator.
Local Open Scope Q_scope.

Variable nlp : option ner.

Lemma filter_block_unfold (section_name : string) (out : sections)
      (fb : list block) (b : block) :
  filter_block nlp section_name (out, fb) b
  = if Qle_bool 0.4 (confidence_of nlp (text b) section_name)
       || Qle_bool 0.3 (confidence_of nlp (text b) section_name)
    then (out, fb ++ [b])
    else match _find_correct_section nlp (text b) with
         | Some correct_section =>
             (append_block correct_section b (ensure_key correct_section out),
              fb)
         | None => (out, fb)
         end.
Proof.
  unfold filter_block. rewrite validate_content_eta. reflexivity.
Qed.

Lemma filter_keep_iff (section_name : string) (b : block) :
  Qle_bool 0.4 (confidence_of nlp (text b) section_name)
  || Qle_bool 0.3 (confidence_of nlp (text b) section_name) = true
  <-> 0.3 <= confidence_of nlp (text b) section_name.
Proof.
  rewrite orb_true_iff, !Qle_bool_iff. split; [|tauto].
  intros [H|H]; [|exact H]. eapply Qle_trans; [|exact H]. discriminate.
Qed.

Lemma no_empty_section_append (k : string) (b : block) (d : sections) :
  no_empty_section d -> no_empty_section (append_block k b (ensure_key k d)).
Proof.
  intros Hd. unfold ensure_key. destruct (has_key k d) eqn:E.
  - clear E. unfold no_empty_section in *.
    induction Hd as [|[k' bs] d He Hd IH]; cbn; [constructor|].
    destruct (String.eqb k k'); constructor; try assumption.
    cbn [snd]. destruct bs; discriminate.
  - apply has_key_false_iff in E. rewrite (append_block_last _ _ _ _ E).
    apply Forall_app. split; [exact Hd|]. repeat constructor. discriminate.
Qed.

Lemma blocks_of_append (k : string) (b : block) (d : sections) (x : block) :
  In x (blocks_of (append_block k b (ensure_key k d))) ->
  x = b \/ In x (blocks_of d).
Proof.
  unfold ensure_key. destruct (has_key k d) eqn:E.
  - clear E. induction d as [|[k' bs] d IH]; cbn [append_block]; [tauto|].
    unfold blocks_of in *. destruct (String.eqb k k'); cbn [flat_map snd];
      rewrite !in_app_iff; cbn [In]; [intuition auto|].
    intros [H|H]; [tauto|]. destruct (IH H); tauto.
  - apply has_key_false_iff in E. rewrite (append_block_last _ _ _ _ E).
    unfold blocks_of. rewrite !flat_map_app, !in_app_iff. cbn. intuition.
Qed.

Lemma blocks_of_dict_set (k : string) (v : list block) (d : sections)
      (x : block) :
  In x (blocks_of (dict_set k v d)) -> In x v \/ In x (blocks_of d).
Proof.
  unfold blocks_of. induction d as [|[k' bs] d IH]; cbn [dict_set].
  - cbn. rewrite app_nil_r. tauto.
  - destruct (String.eqb k k'); cbn [flat_map snd]; rewrite !in_app_iff;
      tauto.
Qed.

Lemma filter_blocks_loop (section_name : string) (bs from : list block)
      (out : sections) (fb : list block) :
  filter_inv nlp from out ->
  Forall (fun b => 0.3 <= confidence_of nlp (text b) section_name) fb ->
  incl fb from ->
  filter_inv nlp (from ++ bs)
             (fst (fold_left (filter_block nlp section_name) bs (out, fb)))
  /\ Forall (fun b => 0.3 <= confidence_of nlp (text b) section_name)
            (snd (fold_left (filter_block nlp section_name) bs (out, fb)))
  /\ incl (snd (fold_left (filter_block nlp section_name) bs (out, fb)))
          (from ++ bs).
Proof.
  revert from out fb. induction bs as [|b bs IH]; intros from out fb Hout Hfb Hin;
    cbn [fold_left].
  - rewrite app_nil_r. cbn [fst snd]. auto.
  - replace (from ++ b :: bs) with ((from ++ [b]) ++ bs)
      by (rewrite <- app_assoc; reflexivity).
    destruct Hout as [H1 [H2 H3]].
    rewrite filter_block_unfold.
    destruct (Qle_bool 0.4 (confidence_of nlp (text b) section_name)
              || Qle_bool 0.3 (confidence_of nlp (text b) section_name))
      eqn:E.
    + apply filter_keep_iff in E. apply IH.
      * repeat split; try assumption. now apply incl_appl.
      * apply Forall_app. split; [exact Hfb | repeat constructor; exact E].
      * apply incl_app; [now apply incl_appl | apply incl_appr, incl_refl].
    + destruct (_find_correct_section nlp (text b)) as [T|] eqn:F.
      * apply find_correct_section_some in F. destruct F as [_ [F _]].
        apply IH; [|exact Hfb | now apply incl_appl].
        repeat split.
        -- apply all_blocks_append; [now apply all_blocks_ensure_key|].
           eapply Qle_trans; [|exact F]. discriminate.
        -- now apply no_empty_section_append.
        -- intros x Hx. apply blocks_of_append in Hx. apply in_or_app.
           destruct Hx as [->|Hx]; [right; now left | left; now apply H3].
      * apply IH; [|exact Hfb | now apply incl_appl].
        repeat split; try assumption. now apply incl_appl.
Qed.

Lemma filter_sections_loop (rest : sections) (from : list block)
      (out : sections) :
  filter_inv nlp from out ->
  filter_inv nlp (from ++ blocks_of rest)
             (fold_left (filter_section nlp) rest out).
Proof.
  revert from out. induction rest as [|[name bs] rest IH]; intros from out Hout;
    cbn [fold_left].
  - unfold blocks_of. cbn. now rewrite app_nil_r.
  - replace (from ++ blocks_of ((name, bs) :: rest))
      with ((from ++ bs) ++ blocks_of rest)
      by (unfold blocks_of; cbn [flat_map snd]; now rewrite app_assoc).
    apply IH. unfold filter_section.
    destruct (filter_blocks_loop name bs from out [] Hout)
      as [[H1 [H2 H3]] [H4 H5]]; [constructor | intros x [] |].
    destruct (fold_left (filter_block nlp name) bs (out, [])) as [out' fb].
    cbn [fst snd] in *. destruct fb as [|b fb]; [repeat split; assumption|].
    repeat split.
    + apply dict_set_forall; [exact H1 | exact H4].
    + apply dict_set_forall; [exact H2 | discriminate].
    + intros x Hx. apply blocks_of_dict_set in Hx.
      destruct Hx as [Hx|Hx]; [now apply H5 | now apply H3].
Qed.

(** X8.  Every block [filter_mismatched_content] returns is a block of the
    input and scores at least 0.3 against the section it is filed under,
    and no section of the result is empty. *)
Theorem filter_mismatched_content_sound (s : sections) :
  all_blocks (fun k b => 0.3 <= confidence_of nlp (text b) k)
             (filter_mismatched_content nlp s)
  /\ no_empty_section (filter_mismatched_content nlp s)
  /\ incl (blocks_of (filter_mismatched_content nlp s)) (blocks_of s).
Proof.
  unfold filter_mismatched_content.
  apply (filter_sections_loop s [] []).
  repeat split; try constructor. intros x [].
Qed.

(** X9.  A block the filter relocates into a section that comes later in
    the input is lost: the assignment [filtered_sections[section_name] =
    filtered_blocks] of the later section replaces the list the block was
    appended to. *)
Theorem filter_overwrites_relocated_block (A B : string) (a b : block) :
  A <> B ->
  confidence_of nlp (text a) A < 0.3 ->
  _find_correct_section nlp (text a) = Some B ->
  0.3 <= confidence_of nlp (text b) B ->
  filter_mismatched_content nlp [(A, [a]); (B, [b])] = [(B, [b])].
Proof.
  intros Hne Ha Hfind Hb.
  unfold filter_mismatched_content. cbn [fold_left].
  unfold filter_section at 2. cbn [fold_left]. rewrite filter_block_unfold.
  assert (E : Qle_bool 0.4 (confidence_of nlp (text a) A)
              || Qle_bool 0.3 (confidence_of nlp (text a) A) = false).
  { apply not_true_is_false. intros H. apply filter_keep_iff in H.
    exact (Qlt_not_le _ _ Ha H). }
  rewrite E, Hfind.
  unfold ensure_key, has_key. cbn [dict_keys map existsb app append_block].
  rewrite String.eqb_refl.
  unfold filter_section. cbn [fold_left]. rewrite filter_block_unfold.
  rewrite (proj2 (filter_keep_iff B b) Hb). cbn [app dict_set].
  now rewrite String.eqb_refl.
Qed.

End FilterProperties.

Section FilterWitnesses.
Import PyStr PyNum PyDict Spacy ContentValidator.

Lemma filter_overwrites_relocated_block_witness :
  filter_mismatched_content None
    [("EMPLOYMENT", [bachelor_block]); ("EDUCATION", [master_block])]
  = [("EDUCATION", [master_block])].
Proof.
  apply (filter_overwrites_relocated_block None "EMPLOYMENT" "EDUCATION").
  - discriminate.
  - reflexivity.
  - vm_compute. reflexivity.
  - vm_compute. discriminate.
Defined.

End FilterWitnesses.

(* ===================================================================== *)
(** * The layout analyzer: zones and accessors *)

Section ZoneProperties.
Import PyNum VisualLayoutAnalyzer.
Local Open Scope Z_scope.

Lemma header_tag_iff (img_height : Z) (idx : nat) (d : detection) :
  zone (block_of_detection img_height idx d) = header
  <-> 20 * y (block_of_detection img_height idx d) < 3 * img_height.
Proof.
  unfold block_of_detection. cbn [zone y].
  set (by_ := int _). clearbody by_.
  destruct (Qlt_bool (inject_Z by_) (inject_Z img_height * header_zone_threshold))
    eqn:E.
  - apply Qlt_bool_iff in E. split; [intros _|reflexivity].
    unfold Qlt, header_zone_threshold in E. cbn in E.
    change (Z.pos (1 * 100)) with 100 in E. lia.
  - apply Qlt_bool_false_iff in E. split; [discriminate|]. intros H.
    exfalso. unfold Qle, header_zone_threshold in E. cbn in E.
    change (Z.pos (1 * 100)) with 100 in E. lia.
Qed.

Lemma header_end_floor (img_height : Z) :
  0 <= img_height ->
  snd (header_zone (_detect_zones img_height)) = 3 * img_height / 20.
Proof.
  intros H. unfold _detect_zones. cbn [header_zone snd].
  unfold int, header_zone_threshold. cbn [Qnum Qden Qmult inject_Z].
  rewrite Z.quot_div_nonneg by lia.
  change (Z.pos (1 * 100)) with 100.
  replace (img_height * 15) with ((3 * img_height) * 5) by lia.
  change 100 with (20 * 5). rewrite Z.div_mul_cancel_r by lia. reflexivity.
Qed.

(** X10.  The zone tag of a block and the zones of [_detect_zones] meet at
    the boundary only when the page height is a multiple of 20: a block is
    tagged header exactly when [20 y < 3 height]; every block above
    [header_end] is tagged header and every header block starts at or above
    [header_end]; a block starting exactly at [header_end], the first row
    of the body zone, is tagged header unless 20 divides the height. *)
Theorem zone_tag_and_detect_zones (img_height : Z) (idx : nat) (d : detection) :
  0 <= img_height ->
  (y (block_of_detection img_height idx d)
   < snd (header_zone (_detect_zones img_height))
   -> zone (block_of_detection img_height idx d) = header)
  /\ (zone (block_of_detection img_height idx d) = header
      -> y (block_of_detection img_height idx d)
         <= snd (header_zone (_detect_zones img_height)))
  /\ (y (block_of_detection img_height idx d)
      = snd (header_zone (_detect_zones img_height))
      -> (zone (block_of_detection img_height idx d) = header
          <-> img_height mod 20 <> 0))
  /\ fst (body_zone (_detect_zones img_height))
     = snd (header_zone (_detect_zones img_height)).
Proof.
  intros H.
  assert (Hbody : fst (body_zone (_detect_zones img_height))
                  = snd (header_zone (_detect_zones img_height)))
    by reflexivity.
  rewrite header_tag_iff, header_end_floor by exact H.
  generalize (y (block_of_detection img_height idx d)). intros yb.
  pose proof (Z.div_mod (3 * img_height) 20 ltac:(lia)) as Hd.
  pose proof (Z.mod_pos_bound (3 * img_height) 20 ltac:(lia)) as Hm.
  assert (Hmod : img_height mod 20 = 0 <-> (3 * img_height) mod 20 = 0).
  { split; intros Hz.
    - rewrite <- Z.mul_mod_idemp_r by lia. rewrite Hz.
      now rewrite Z.mul_0_r.
    - assert (H7 : (7 * (3 * img_height)) mod 20 = 0).
      { rewrite <- Z.mul_mod_idemp_r by lia. rewrite Hz.
        now rewrite Z.mul_0_r. }
      replace (7 * (3 * img_height)) with (img_height + img_height * 20) in H7
        by lia.
      now rewrite Z.mod_add in H7 by lia. }
  split; [lia|]. split; [lia|].
  split; [|rewrite Hbody; now apply header_end_floor].
  intros E. subst yb. rewrite Hmod. lia.
Qed.

End ZoneProperties.

Section ZoneWitnesses.
Import PyNum VisualLayoutAnalyzer.
Local Open Scope Z_scope.

Lemma zone_tag_and_detect_zones_witness :
  zone (block_of_detection 90 0 (detection_at 10 13)) = header
  /\ y (block_of_detection 90 0 (detection_at 10 13)) = 13
  /\ header_zone (_detect_zones 90) = (0, 13)
  /\ body_zone (_detect_zones 90) = (13, 90).
Proof.
  pose proof (zone_tag_and_detect_zones 90 0 (detection_at 10 13)
                ltac:(lia)) as [_ [_ [H _]]].
  split; [apply H; [reflexivity | discriminate] |].
  repeat split.
Defined.

End ZoneWitnesses.

Section AccessorProperties.
Import PyNum VisualLayoutAnalyzer.

Lemma filter_ext_in_bool {A : Type} (f g : A -> bool) (l : list A) :
  (forall a, f a = g a) -> List.filter f l = List.filter g l.
Proof.
  intros H. induction l as [|a l IH]; cbn; [reflexivity|].
  now rewrite H, IH.
Qed.

(** X11.  The header blocks and the body blocks partition the page: each
    block is returned for exactly one of the two zone names, in page order,
    and for any other zone name nothing is returned. *)
Theorem get_blocks_in_zone_partition (blocks : list text_block) :
  Permutation (get_blocks_in_zone blocks "header"
               ++ get_blocks_in_zone blocks "body") blocks
  /\ (forall b, In b (get_blocks_in_zone blocks "header")
                <-> In b blocks /\ zone b = header)
  /\ (forall b, In b (get_blocks_in_zone blocks "body")
                <-> In b blocks /\ zone b = body)
  /\ (forall z, z <> "header" -> z <> "body" ->
                get_blocks_in_zone blocks z = []).
Proof.
  unfold get_blocks_in_zone. split; [|split; [|split]].
  - rewrite (filter_ext_in_bool
               (fun b => String.eqb (zone_str (zone b)) "body")
               (fun b => negb (String.eqb (zone_str (zone b)) "header"))).
    + apply filter_split_perm.
    + intros b. destruct (zone b); reflexivity.
  - intros b. rewrite filter_In. destruct (zone b); cbn; intuition congruence.
  - intros b. rewrite filter_In. destruct (zone b); cbn; intuition congruence.
  - intros z H1 H2. induction blocks as [|b blocks IH]; [reflexivity|].
    cbn [List.filter]. rewrite IH.
    destruct (String.eqb_spec (zone_str (zone b)) z) as [E|E];
      [|reflexivity].
    destruct (zone b); cbn in E; congruence.
Qed.

End AccessorProperties.

(* ===================================================================== *)
(** * The layout analyzer: column detection *)

Section ColumnScan.
Import PyNum VisualLayoutAnalyzer.
Local Open Scope Z_scope.

Variable blocks : list text_block.
Variable page_width : Z.

Lemma scan_step_inv (k : nat) (st : gap_scan) :
  scan_inv blocks page_width (Z.of_nat k) st ->
  scan_inv blocks page_width (Z.of_nat (S k))
           (scan_step blocks page_width st k).
Proof.
  intros [Hg Hin]. unfold scan_step.
  destruct (covered blocks page_width (Z.of_nat k)) eqn:Hc;
    destruct (in_gap st) eqn:Hi.
  - specialize (Hin eq_refl). destruct Hin as [Hs Hblank]. split.
    + cbn [gaps]. intros a b Hab.
      assert (Hcases : In (a, b) (gaps st)
                       \/ ((a, b) = (gap_start st, Z.of_nat k)
                           /\ column_gap_threshold
                              < Z.of_nat k - gap_start st)).
      { destruct (column_gap_threshold <? Z.of_nat k - gap_start st) eqn:E.
        - apply in_app_or in Hab. destruct Hab as [H|[H|[]]]; [now left|].
          right. split; [now symmetry|]. now apply Z.ltb_lt.
        - now left. }
      destruct Hcases as [H|[H Hw]].
      * destruct (Hg a b H) as [H1 [H2 [H3 H4]]]. repeat split; try lia.
        -- apply H4.
        -- apply H4.
      * injection H as -> ->. repeat split; try lia; assumption.
    + cbn [in_gap]. discriminate.
  - split.
    + intros a b Hab. destruct (Hg a b Hab) as [H1 [H2 [H3 H4]]].
      repeat split; try lia; apply H4.
    + rewrite Hi. discriminate.
  - specialize (Hin eq_refl). destruct Hin as [Hs Hblank]. split.
    + intros a b Hab. destruct (Hg a b Hab) as [H1 [H2 [H3 H4]]].
      repeat split; try lia; apply H4.
    + intros _. split; [lia|]. intros px Hpx.
      destruct (Z.eq_dec px (Z.of_nat k)) as [->|Hne]; [exact Hc|].
      apply Hblank. lia.
  - split.
    + cbn [gaps]. intros a b Hab. destruct (Hg a b Hab) as [H1 [H2 [H3 H4]]].
      repeat split; try lia; apply H4.
    + cbn [in_gap gap_start]. intros _. split; [lia|]. intros px Hpx.
      replace px with (Z.of_nat k) by lia. exact Hc.
Qed.

Lemma scan_inv_fold (n : nat) :
  scan_inv blocks page_width (Z.of_nat n)
           (fold_left (scan_step blocks page_width) (seq 0 n) initial_scan).
Proof.
  induction n as [|n IH].
  - split; [intros a b [] | discriminate].
  - rewrite seq_S, fold_left_app. cbn [fold_left Nat.add].
    now apply scan_step_inv.
Qed.

Lemma scan_step_gaps_mono (st : gap_scan) (k : nat) (g : Z * Z) :
  In g (gaps st) -> In g (gaps (scan_step blocks page_width st k)).
Proof.
  intros H. unfold scan_step.
  destruct (covered blocks page_width (Z.of_nat k)); destruct (in_gap st);
    cbn [gaps]; try exact H.
  destruct (column_gap_threshold <? Z.of_nat k - gap_start st);
    [apply in_or_app; now left | exact H].
Qed.

Lemma scan_gaps_mono (l : list nat) (st : gap_scan) (g : Z * Z) :
  In g (gaps st) -> In g (gaps (fold_left (scan_step blocks page_width) l st)).
Proof.
  revert st. induction l as [|k l IH]; intros st H; cbn [fold_left];
    [exact H|]. apply IH. now apply scan_step_gaps_mono.
Qed.

(** While every pixel column is blank the scan stays in its first gap. *)
Lemma scan_blank_prefix (k : nat) :
  (forall px, 0 <= px < Z.of_nat (S k) -> covered blocks page_width px = false) ->
  fold_left (scan_step blocks page_width) (seq 0 (S k)) initial_scan
  = {| gaps := []; in_gap := true; gap_start := 0 |}.
Proof.
  induction k as [|k IH]; intros Hblank.
  - cbn [seq fold_left]. unfold scan_step. rewrite Hblank by lia.
    reflexivity.
  - rewrite seq_S, fold_left_app. cbn [fold_left Nat.add].
    rewrite IH by (intros px Hpx; apply Hblank; lia).
    unfold scan_step. rewrite Hblank by lia. reflexivity.
Qed.

Lemma widest_in (best : Z * Z) (rest : list (Z * Z)) :
  In (widest best rest) (best :: rest).
Proof.
  revert best. induction rest as [|g rest IH]; intros best; cbn [widest].
  - now left.
  - destruct (snd best - fst best <? snd g - fst g).
    + right. apply IH.
    + destruct (IH best) as [H|H]; [now left | right; now right].
Qed.

Lemma widest_is_widest (best : Z * Z) (rest : list (Z * Z)) (g : Z * Z) :
  In g (best :: rest) ->
  snd g - fst g <= snd (widest best rest) - fst (widest best rest).
Proof.
  revert best g. induction rest as [|g' rest IH]; intros best g;
    cbn [widest].
  - intros [->|[]]. lia.
  - destruct (snd best - fst best <? snd g' - fst g') eqn:E.
    + apply Z.ltb_lt in E. intros [Hg|[Hg|Hg]].
      * subst g. specialize (IH g' g' (or_introl eq_refl)). lia.
      * apply IH. now left.
      * apply IH. now right.
    + apply Z.ltb_ge in E. intros [Hg|[Hg|Hg]].
      * apply IH. now left.
      * subst g. specialize (IH best best (or_introl eq_refl)). lia.
      * apply IH. now right.
Qed.

(** A block that starts on the page covers the pixel columns of the page
    under it. *)
Lemma covered_by_block (b : text_block) (px : Z) :
  In b blocks -> 0 <= x b -> x b <= px < x b + width b -> px < page_width ->
  covered blocks page_width px = true.
Proof.
  intros Hb Hx Hpx Hw. unfold covered. apply existsb_exists.
  exists b. split; [exact Hb|]. unfold slice_bound.
  destruct (x b <? 0) eqn:E1; [apply Z.ltb_lt in E1; lia|].
  destruct (Z.min (x b + width b) page_width <? 0) eqn:E2;
    [apply Z.ltb_lt in E2; lia|].
  apply andb_true_iff. split; [apply Z.leb_le | apply Z.ltb_lt]; lia.
Qed.

(** Before the leftmost block nothing is covered. *)
Lemma blank_before_blocks (m px : Z) :
  (forall b, In b blocks -> m <= x b) -> 0 <= px < m ->
  covered blocks page_width px = false.
Proof.
  intros Hm Hpx. unfold covered. apply not_true_is_false. intros H.
  apply existsb_exists in H. destruct H as [b [Hb H]].
  apply andb_true_iff in H. destruct H as [H1 H2].
  apply Z.leb_le in H1. apply Z.ltb_lt in H2. specialize (Hm b Hb).
  unfold slice_bound in H1, H2.
  destruct (x b <? 0) eqn:E1; [apply Z.ltb_lt in E1; lia|].
  destruct (Z.min (x b + width b) page_width <? 0) eqn:E2; lia.
Qed.

End ColumnScan.

Section ColumnProperties.
Import PyNum VisualLayoutAnalyzer.
Local Open Scope Z_scope.

Lemma detect_columns_gap (blocks : list text_block) (page_width : nat) (d : Z) :
  divider (_detect_columns blocks page_width) = Some d ->
  exists a b,
    0 <= a /\ a + column_gap_threshold < b /\ b < Z.of_nat page_width
    /\ blank_stripe blocks (Z.of_nat page_width) a b
    /\ d = (a + b) / 2.
Proof.
  unfold _detect_columns. destruct blocks as [|b0 blocks']; [discriminate|].
  set (blocks := b0 :: blocks').
  pose proof (scan_inv_fold blocks (Z.of_nat page_width) page_width)
    as [Hg _].
  fold initial_scan.
  destruct (gaps (fold_left (scan_step blocks (Z.of_nat page_width))
                            (seq 0 page_width) initial_scan))
    as [|g rest]; [discriminate|].
  cbn [divider]. intros H. injection H as <-.
  pose proof (widest_in g rest) as Hin.
  destruct (widest g rest) as [a b]. exists a, b.
  destruct (Hg a b Hin) as [H1 [H2 [H3 H4]]]. cbn [fst snd]. auto.
Qed.

Lemma divider_gap_bounds (blocks : list text_block) (page_width : nat)
      (d : Z) :
  divider (_detect_columns blocks page_width) = Some d ->
  exists a b,
    0 <= a /\ a + 25 <= d /\ d + 26 <= b /\ b < Z.of_nat page_width
    /\ (forall px, a <= px < b ->
                   covered blocks (Z.of_nat page_width) px = false)
    /\ covered blocks (Z.of_nat page_width) b = true.
Proof.
  intros Hd. destruct (detect_columns_gap blocks page_width d Hd)
    as [a [b [H1 [H2 [H3 [H4 H5]]]]]].
  exists a, b. unfold column_gap_threshold in H2.
  pose proof (Z.div_mod (a + b) 2 ltac:(lia)) as Hdm.
  pose proof (Z.mod_pos_bound (a + b) 2 ltac:(lia)) as Hm.
  repeat split; try lia; apply H4.
Qed.

(** X12.  When [_detect_columns] reports two columns, the divider is the
    middle of a stripe of more than 50 blank pixel columns that starts on
    the page and is closed by a covered pixel column: at least 25 blank
    columns lie at and before the divider and 26 after it, and the
    boundaries are [(0, divider)] and [(divider, page_width)]. *)
Theorem divider_lies_in_blank_stripe (blocks : list text_block)
        (page_width : nat) (d : Z) :
  divider (_detect_columns blocks page_width) = Some d ->
  count (_detect_columns blocks page_width) = 2
  /\ boundaries (_detect_columns blocks page_width)
     = [(0, d); (d, Z.of_nat page_width)]
  /\ exists a b,
       0 <= a /\ a + 25 <= d /\ d + 26 <= b /\ b < Z.of_nat page_width
       /\ blank_stripe blocks (Z.of_nat page_width) a b.
Proof.
  intros Hd. split; [|split].
  - revert Hd. unfold _detect_columns. destruct blocks; [discriminate|].
    destruct (gaps _); [discriminate | reflexivity].
  - revert Hd. unfold _detect_columns. destruct blocks; [discriminate|].
    destruct (gaps _); [discriminate|]. cbn [divider boundaries].
    intros H. injection H as <-. reflexivity.
  - destruct (divider_gap_bounds blocks page_width d Hd)
      as [a [b [H1 [H2 [H3 [H4 [H5 H6]]]]]]].
    exists a, b. repeat split; assumption.
Qed.

(** X13.  No block straddles a detected divider: a block of positive width
    that starts on the page ends at least 25 pixels before the divider, and
    is then a left block of the reading order, or starts at least 26 pixels
    after it, and is then a right block. *)
Theorem no_block_straddles_divider (blocks : list text_block)
        (page_width : nat) (d : Z) (i : nat) (b : text_block) :
  divider (_detect_columns blocks page_width) = Some d ->
  nth_error blocks i = Some b ->
  0 <= x b -> 0 < width b ->
  (x b + width b + 25 <= d /\ left_of blocks d i)
  \/ (d + 26 <= x b /\ right_of blocks d i).
Proof.
  intros Hd Hb Hx Hw.
  destruct (divider_gap_bounds blocks page_width d Hd)
    as [a [c [H1 [H2 [H3 [H4 [Hblank Hc]]]]]]].
  assert (Hin : In b blocks) by (eapply nth_error_In; exact Hb).
  destruct (Z_le_gt_dec (x b + width b) a) as [Hl|Hr].
  - left. split; [lia|].
    apply (block_before_divider_is_left blocks d i b Hb); lia.
  - right.
    assert (Hge : c <= x b).
    { destruct (Z_le_gt_dec c (x b)) as [H|H]; [exact H|]. exfalso.
      assert (Hcov : covered blocks (Z.of_nat page_width) (Z.max a (x b))
                     = true).
      { apply (covered_by_block blocks (Z.of_nat page_width) b); try lia.
        exact Hin. }
      rewrite Hblank in Hcov by lia. discriminate. }
    split; [lia|].
    apply (block_after_divider_is_right blocks d i b Hb); lia.
Qed.

(** X14.  A left margin of more than 50 pixels is a column gap: when the
    leftmost block starts on the page beyond pixel column 50, the page is
    reported with two columns, whatever its layout is. *)
Theorem wide_left_margin_gives_two_columns (blocks : list text_block)
        (page_width : nat) (b : text_block) :
  In b blocks ->
  column_gap_threshold < x b < Z.of_nat page_width ->
  0 < width b ->
  (forall b', In b' blocks -> x b <= x b') ->
  count (_detect_columns blocks page_width) = 2
  /\ exists d, divider (_detect_columns blocks page_width) = Some d.
Proof.
  intros Hb Hx Hw Hleft.
  assert (Hgap : In (0, x b)
                    (gaps (fold_left
                             (scan_step blocks (Z.of_nat page_width))
                             (seq 0 page_width) initial_scan))).
  { unfold column_gap_threshold in Hx.
    assert (Hm : exists k, x b = Z.of_nat (S k) /\ (S k < page_width)%nat).
    { exists (Z.to_nat (x b - 1)). split; lia. }
    destruct Hm as [k [Hk Hlt]].
    assert (Hsplit : seq 0 page_width
                     = seq 0 (S (S k)) ++ seq (S (S k)) (page_width - S (S k))).
    { rewrite <- seq_app. f_equal. lia. }
    rewrite Hsplit, fold_left_app. apply scan_gaps_mono.
    rewrite seq_S, fold_left_app. cbn [fold_left Nat.add].
    rewrite scan_blank_prefix.
    - assert (Hcov : covered blocks (Z.of_nat page_width) (Z.of_nat (S k))
                     = true).
      { apply (covered_by_block blocks (Z.of_nat page_width) b);
          [exact Hb | lia | lia | lia]. }
      unfold scan_step. rewrite Hcov. cbn [in_gap gap_start gaps].
      destruct (column_gap_threshold <? Z.of_nat (S k) - 0) eqn:E.
      + rewrite Hk. now left.
      + apply Z.ltb_ge in E. unfold column_gap_threshold in E. lia.
    - intros px Hpx.
      apply (blank_before_blocks blocks (Z.of_nat page_width) (x b));
        [exact Hleft | lia]. }
  unfold _detect_columns. destruct blocks as [|b0 blocks']; [destruct Hb|].
  fold initial_scan.
  destruct (gaps _) as [|g rest]; [destruct Hgap|].
  split; [reflexivity | eexists; reflexivity].
Qed.

End ColumnProperties.

Section ColumnWitnesses.
Import PyNum VisualLayoutAnalyzer.
Local Open Scope Z_scope.

Lemma divider_lies_in_blank_stripe_witness :
  count (_detect_columns sample_page 400) = 2
  /\ boundaries (_detect_columns sample_page 400) = [(0, 200); (200, 400)]
  /\ exists a b,
       0 <= a /\ a + 25 <= 200 /\ 200 + 26 <= b /\ b < 400
       /\ blank_stripe sample_page 400 a b.
Proof.
  apply (divider_lies_in_blank_stripe sample_page 400 200).
  vm_compute. reflexivity.
Defined.

Lemma no_block_straddles_divider_witness :
  (300 + 100 + 25 <= 200 /\ left_of sample_page 200 0)
  \/ (200 + 26 <= 300 /\ right_of sample_page 200 0).
Proof.
  apply (no_block_straddles_divider sample_page 400 200 0
           (sample_block 300 10 100)).
  - vm_compute. reflexivity.
  - reflexivity.
  - cbn. lia.
  - cbn. lia.
Defined.

Lemma wide_left_margin_gives_two_columns_witness :
  count (_detect_columns margin_page 400) = 2
  /\ exists d, divider (_detect_columns margin_page 400) = Some d.
Proof.
  apply (wide_left_margin_gives_two_columns margin_page 400
           (sample_block 60 10 300)).
  - now left.
  - unfold column_gap_threshold. cbn. lia.
  - cbn. lia.
  - intros b' [<-|[<-|[]]]; cbn; lia.
Defined.

End ColumnWitnesses.

(* ===================================================================== *)
(** * The layout analyzer: the reading order of a detected layout *)

Section LayoutComposition.
Import PyNum PyExc VisualLayoutAnalyzer.

Lemma create_reading_order_perm (blocks : list text_block) (cols : columns)
      (order : list nat) :
  _create_reading_order blocks cols = Some order ->
  Permutation order (seq 0 (List.length blocks)).
Proof.
  unfold _create_reading_order. destruct blocks as [|b0 blocks'] eqn:E.
  { intros H. injection H as <-. reflexivity. }
  rewrite <- E. clear E.
  destruct (count cols =? 1)%Z.
  { intros H. injection H as <-.
    rewrite <- (enumerate_from_indices blocks 0).
    apply Permutation_map. apply sorted_by_perm. }
  destruct (count cols =? 2)%Z.
  - destruct (divider cols) as [d|]; [|discriminate].
    intros H. injection H as <-.
    rewrite <- (enumerate_from_indices blocks 0), <- map_app.
    apply Permutation_map. fold (enumerate blocks).
    rewrite !sorted_by_perm. apply filter_split_perm.
  - intros H. injection H as <-. reflexivity.
Qed.

Lemma map_nth_seq {A : Type} (l : list A) (d : A) :
  map (fun i => nth i l d) (seq 0 (List.length l)) = l.
Proof.
  induction l as [|a l IH]; [reflexivity|].
  cbn [List.length seq map nth]. f_equal.
  rewrite <- seq_shift, map_map. exact IH.
Qed.

Lemma index_nat {A : Type} (l : list A) (i : nat) :
  index l (Z.of_nat i) = nth_error l i.
Proof.
  unfold index. destruct (Z.of_nat i <? 0)%Z eqn:E;
    [apply Z.ltb_lt in E; lia|]. now rewrite Nat2Z.id.
Qed.

(** Indices below the length are all looked up, in their order. *)
Lemma get_blocks_of_valid_order {A : Type} (l : list A) (d : A)
      (order : list nat) :
  Forall (fun i => (i < List.length l)%nat) order ->
  get_blocks_by_reading_order l (map Z.of_nat order)
  = Some (map (fun i => nth i l d) order).
Proof.
  induction 1 as [|i order Hi Ho IH]; [reflexivity|].
  cbn [map get_blocks_by_reading_order].
  destruct (Z.of_nat i <? Z.of_nat (List.length l))%Z eqn:E;
    [|apply Z.ltb_ge in E; lia].
  rewrite index_nat, IH, (nth_error_nth' l d Hi). reflexivity.
Qed.

Lemma get_blocks_of_permutation {A : Type} (l : list A) (order : list nat) :
  Permutation order (seq 0 (List.length l)) ->
  exists ordered,
    get_blocks_by_reading_order l (map Z.of_nat order) = Some ordered
    /\ Permutation ordered l.
Proof.
  intros Hp. destruct l as [|d l'].
  - apply Permutation_sym, Permutation_nil in Hp. subst. exists [].
    split; constructor.
  - set (l := d :: l') in *.
    exists (map (fun i => nth i l d) order). split.
    + apply get_blocks_of_valid_order. apply List.Forall_forall.
      intros i Hi. apply (Permutation_in _ Hp) in Hi.
      apply in_seq in Hi. lia.
    + eapply Permutation_trans; [apply Permutation_map; exact Hp|].
      now rewrite map_nth_seq.
Qed.

Lemma identify_headings_length (boldness : Z * Z * Z * Z -> Q)
      (blocks : list text_block) :
  List.length (fst (_identify_headings boldness blocks))
  = List.length blocks.
Proof.
  unfold _identify_headings.
  destruct (List.filter _ _); cbn [fst]; now rewrite length_map.
Qed.

(** The look-up of the divider never fails on the layout
    [_detect_columns] reports. *)
Lemma reading_order_of_detected_columns (blocks : list text_block)
      (page_width : nat) :
  exists order,
    _create_reading_order blocks (_detect_columns blocks page_width)
    = Some order.
Proof.
  destruct (_create_reading_order blocks (_detect_columns blocks page_width))
    as [order|] eqn:Ho; [exists order; reflexivity|].
  exfalso. revert Ho. unfold _create_reading_order.
  destruct blocks as [|b0 blocks']; [discriminate|].
  destruct (detected_layout_has_divider (b0 :: blocks') page_width)
    as [[Hc _] | [Hc [d Hd]]]; rewrite Hc; cbn [Z.eqb Pos.eqb].
  - discriminate.
  - rewrite Hd. discriminate.
Qed.

(** [analyze_layout] in terms of its two steps that can raise. *)
Lemma analyze_layout_steps (env : imaging) (image_path : image_input) :
  analyze_layout env image_path
  = match load_image env image_path with
    | Raised e => Raised e
    | Ok pil_img =>
        match _extract_text_blocks env pil_img with
        | Raised e => Raised e
        | Ok blocks =>
            let cols := _detect_columns blocks (fst (image_dims pil_img)) in
            let marks :=
              _identify_headings (estimate_boldness env pil_img) blocks in
            match _create_reading_order blocks cols with
            | None => raise "KeyError" "'divider'"
            | Some order =>
                Ok {| zones :=
                        _detect_zones (Z.of_nat (snd (image_dims pil_img)));
                      text_blocks := fst marks; headings := snd marks;
                      layout_columns := cols; reading_order := order;
                      image_size := image_dims pil_img |}
            end
        end
    end.
Proof.
  unfold analyze_layout.
  destruct (load_image env image_path) as [pil_img|e]; [|reflexivity].
  cbn [bind]. destruct pil_img as [m [w h]]. cbn [image_dims fst snd].
  destruct (_extract_text_blocks env _) as [blocks|e']; cbn [bind];
    [|reflexivity].
  destruct (_identify_headings _ blocks); reflexivity.
Qed.

(** X15.  [analyze_layout] returns exactly when the image is loaded and the
    text blocks are extracted: it raises what [Image.open] or [convert]
    raises and what [_extract_text_blocks] raises, and nothing else (the
    look-up of the divider never fails on the layout [_detect_columns]
    reports).  On the four corner points that EasyOCR gives for a box the
    conversion loop raises [IndexError] at the first detection, so
    [analyze_layout] raises whenever the reader finds text in that form.
    Whenever it returns, its reading order lists every block index exactly
    once, and [get_blocks_by_reading_order] applied to its blocks and its
    reading order returns every block exactly once. *)
Theorem analyze_layout_reads_every_block
        (env : imaging) (image_path : image_input) :
  (forall result,
      analyze_layout env image_path = Ok result ->
      Permutation (reading_order result)
                  (seq 0 (List.length (text_blocks result)))
      /\ exists ordered,
           get_blocks_by_reading_order (text_blocks result)
             (map Z.of_nat (reading_order result)) = Some ordered
           /\ Permutation ordered (text_blocks result))
  /\ (forall e,
        analyze_layout env image_path = Raised e
        <-> load_image env image_path = Raised e
            \/ exists pil_img,
                 load_image env image_path = Ok pil_img
                 /\ _extract_text_blocks env pil_img = Raised e)
  /\ (forall pil_img r rest p1 p2 p3 p4,
        load_image env image_path = Ok pil_img ->
        np_array env pil_img = Ok tt ->
        readtext env pil_img = Ok (r :: rest) ->
        result_bbox r = Corners p1 p2 p3 p4 ->
        analyze_layout env image_path
        = raise "IndexError" "list index out of range").
Proof.
  rewrite analyze_layout_steps.
  split; [|split].
  - intros result.
    destruct (load_image env image_path) as [pil_img|e]; [|discriminate].
    destruct (_extract_text_blocks env pil_img) as [blocks|e];
      [|discriminate].
    cbv zeta.
    destruct (_create_reading_order blocks
                (_detect_columns blocks (fst (image_dims pil_img))))
      as [order|] eqn:Ho; [|discriminate].
    intros H. injection H as <-. cbn [reading_order text_blocks].
    pose proof (create_reading_order_perm _ _ _ Ho) as Hp.
    rewrite <- (identify_headings_length (estimate_boldness env pil_img))
      in Hp.
    split; [exact Hp|].
    exact (get_blocks_of_permutation _ _ Hp).
  - intros e.
    destruct (load_image env image_path) as [pil_img|e0].
    + destruct (_extract_text_blocks env pil_img) as [blocks|e1] eqn:Eb.
      * cbv zeta.
        destruct (reading_order_of_detected_columns blocks
                    (fst (image_dims pil_img))) as [order ->].
        split; [discriminate|].
        intros [H|(img & H & H')]; [discriminate|].
        injection H as <-. rewrite Eb in H'. discriminate.
      * split.
        -- intros H. right. exists pil_img. split; [reflexivity|].
           congruence.
        -- intros [H|(img & H & H')]; [discriminate|].
           injection H as <-. congruence.
    + split; [intros H; left; congruence|].
      intros [H|(img & H & _)]; [congruence | discriminate].
  - intros pil_img r rest p1 p2 p3 p4 Hl Ha Hr Hb.
    rewrite Hl, (corner_points_raise env pil_img r rest p1 p2 p3 p4 Ha Hr Hb).
    reflexivity.
Qed.

End LayoutComposition.

Section LayoutCompositionWitnesses.
Import PyNum PyExc VisualLayoutAnalyzer.

Lemma analyze_layout_reads_every_block_witness :
  analyze_layout (reading corner_results) (ImagePath "resume.png")
  = raise "IndexError" "list index out of range"
  /\ exists result,
       analyze_layout (reading flat_results) (ImagePath "resume.png")
       = Ok result
       /\ Permutation (reading_order result)
                      (seq 0 (List.length (text_blocks result))).
Proof.
  split.
  - refine (proj2 (proj2 (analyze_layout_reads_every_block
                            (reading corner_results) (ImagePath "resume.png")))
              sample_image _ [] (10, 20)%Q (110, 20)%Q (110, 40)%Q (10, 40)%Q
              _ _ _ _);
      reflexivity.
  - eexists. split; [vm_compute; reflexivity|].
    apply (proj1 (analyze_layout_reads_every_block
                    (reading flat_results) (ImagePath "resume.png"))).
    vm_compute. reflexivity.
Defined.

End LayoutCompositionWitnesses.

(* ===================================================================== *)
(** * The layout analyzer: headings *)

Section HeadingProperties.
Import PyNum VisualLayoutAnalyzer.

Variable boldness : Z * Z * Z * Z -> Q.

Lemma mark_block_keyword (avg_height : Q) (b : text_block) :
  (PyStr.word_count (text b) <= 5)%nat ->
  existsb (fun kw => PyStr.contains kw (PyStr.lower (text b)))
          section_keywords = true ->
  exists reasons,
    mark_block boldness avg_height b
    = {| base := set_heading b; heading_reasons := Some reasons |}
    /\ In "keyword" reasons.
Proof.
  intros Hw Hk. unfold mark_block.
  assert (Hin : In "keyword" (heading_reasons_of boldness avg_height b)).
  { unfold heading_reasons_of. rewrite Hk.
    apply Nat.leb_le in Hw. rewrite Hw.
    repeat (apply in_or_app; right). now left. }
  destruct (heading_reasons_of boldness avg_height b) as [|r rs];
    [destruct Hin|].
  eexists. split; [reflexivity | exact Hin].
Qed.

(** X16.  On a page with a block of positive height, a line of at most
    five words whose lower-cased text contains one of the fifteen section
    keywords is always returned as a heading, with [keyword] among its
    reasons and [is_heading] set, whatever its size and its boldness are. *)
Theorem keyword_line_is_heading (blocks : list text_block) (b : text_block) :
  In b blocks ->
  (exists b', In b' blocks /\ (0 < height b')%Z) ->
  (PyStr.word_count (text b) <= 5)%nat ->
  existsb (fun kw => PyStr.contains kw (PyStr.lower (text b)))
          section_keywords = true ->
  exists reasons,
    In {| base := set_heading b; heading_reasons := Some reasons |}
       (snd (_identify_headings boldness blocks))
    /\ In {| base := set_heading b; heading_reasons := Some reasons |}
          (fst (_identify_headings boldness blocks))
    /\ In "keyword" reasons.
Proof.
  intros Hb [b' [Hb' Hh]] Hw Hk. unfold _identify_headings.
  destruct (List.filter (fun h => (0 <? h)%Z) (map height blocks))
    as [|h0 hs] eqn:E.
  { exfalso. assert (Hin : In (height b') []).
    { rewrite <- E. apply filter_In. split.
      - apply in_map. exact Hb'.
      - now apply Z.ltb_lt. }
    destruct Hin. }
  cbn [fst snd].
  destruct (mark_block_keyword (median (h0 :: hs)) b Hw Hk)
    as [reasons [Hm Hin]].
  exists reasons.
  assert (Hmarked : In {| base := set_heading b;
                          heading_reasons := Some reasons |}
                       (map (mark_block boldness (median (h0 :: hs))) blocks)).
  { rewrite <- Hm. now apply in_map. }
  split; [|split; [exact Hmarked | exact Hin]].
  apply filter_In. split; [exact Hmarked | reflexivity].
Qed.

(** X17.  On a page where no block has a positive height nothing is a
    heading: [_identify_headings] returns the empty list and leaves every
    block as it is, whatever the texts are. *)
Theorem no_positive_height_no_heading (blocks : list text_block) :
  (forall b, In b blocks -> (height b <= 0)%Z) ->
  _identify_headings boldness blocks = (map unmarked blocks, []).
Proof.
  intros H. unfold _identify_headings.
  destruct (List.filter (fun h => (0 <? h)%Z) (map height blocks))
    as [|h0 hs] eqn:E; [reflexivity|].
  exfalso. assert (Hin : In h0 (List.filter (fun h => (0 <? h)%Z)
                                           (map height blocks))).
  { rewrite E. now left. }
  apply filter_In in Hin. destruct Hin as [Hin Hpos].
  apply in_map_iff in Hin. destruct Hin as [b [<- Hb]].
  apply Z.ltb_lt in Hpos. specialize (H b Hb). lia.
Qed.

Lemma mark_block_geometry (avg_height : Q) (b : text_block) :
  let m := mark_block boldness avg_height b in
  (text (base m), bbox (base m), x (base m), y (base m), width (base m),
   height (base m), zone (base m))
  = (text b, bbox b, x b, y b, width b, height b, zone b)
  /\ (is_marked m = true -> is_heading (base m) = true)
  /\ (is_marked m = false -> base m = b).
Proof.
  unfold mark_block.
  destruct (heading_reasons_of boldness avg_height b); cbn;
    repeat split; congruence.
Qed.

(** X18.  The heading pass changes nothing but the heading marks: the
    blocks keep their number, order, text, geometry and zone; the headings
    returned are the marked blocks, in page order, and each of them has
    [is_heading] set and carries at least one reason. *)
Theorem identify_headings_marks_only (blocks : list text_block) :
  map (fun m => (text (base m), bbox (base m), x (base m), y (base m),
                 width (base m), height (base m), zone (base m)))
      (fst (_identify_headings boldness blocks))
  = map (fun b => (text b, bbox b, x b, y b, width b, height b, zone b))
        blocks
  /\ snd (_identify_headings boldness blocks)
     = List.filter is_marked (fst (_identify_headings boldness blocks))
  /\ Forall (fun m => is_heading (base m) = true
                      /\ exists r rs, heading_reasons m = Some (r :: rs))
            (snd (_identify_headings boldness blocks)).
Proof.
  unfold _identify_headings.
  destruct (List.filter (fun h => (0 <? h)%Z) (map height blocks))
    as [|h0 hs]; cbn [fst snd].
  - split; [|split].
    + rewrite map_map. reflexivity.
    + induction blocks as [|b l IH]; [reflexivity | exact IH].
    + constructor.
  - split; [|split].
    + rewrite map_map. apply map_ext. intros b.
      exact (proj1 (mark_block_geometry (median (h0 :: hs)) b)).
    + reflexivity.
    + apply List.Forall_forall. intros m Hm. apply filter_In in Hm.
      destruct Hm as [Hm Hmarked]. apply in_map_iff in Hm.
      destruct Hm as [b [<- Hb]]. revert Hmarked. unfold mark_block.
      destruct (heading_reasons_of boldness (median (h0 :: hs)) b)
        as [|r rs]; [discriminate|].
      intros _. cbn. split; [reflexivity | eauto].
Qed.

End HeadingProperties.

Section HeadingWitnesses.
Import PyNum VisualLayoutAnalyzer.

Lemma keyword_line_is_heading_witness :
  exists reasons,
    In {| base := set_heading (keyword_block 10);
          heading_reasons := Some reasons |}
       (snd (_identify_headings uniform_boldness heading_page))
    /\ In {| base := set_heading (keyword_block 10);
             heading_reasons := Some reasons |}
          (fst (_identify_headings uniform_boldness heading_page))
    /\ In "keyword" reasons.
Proof.
  apply (keyword_line_is_heading uniform_boldness heading_page
           (keyword_block 10)).
  - now left.
  - exists (keyword_block 10). split; [now left | reflexivity].
  - vm_compute. lia.
  - reflexivity.
Defined.

Lemma no_positive_height_no_heading_witness :
  _identify_headings uniform_boldness [keyword_block 0]
  = ([unmarked (keyword_block 0)], []).
Proof.
  apply (no_positive_height_no_heading uniform_boldness [keyword_block 0]).
  intros b [<-|[]]. cbn. lia.
Defined.

End HeadingWitnesses.

(* ===================================================================== *)
(** * Header matching: [_match_header_to_section] *)

Section HeaderMatching.
Import PyStr PyNum PyDict Spacy ContentValidator SectionIdentifier.
Import SectionAssembly.
Local Open Scope Z_scope.

Variable ratio : string -> string -> Z.
Variable model : option semantic_model.

Lemma exact_match_in (header_clean : string)
      (mappings : list (string * list string)) (s : string) :
  exact_match header_clean mappings = Some s -> In s (dict_keys mappings).
Proof.
  induction mappings as [|[section synonyms] rest IH]; cbn [exact_match];
    [discriminate|].
  destruct (existsb _ synonyms).
  - intros H. injection H as <-. now left.
  - intros H. right. now apply IH.
Qed.

Lemma keyword_match_in (header_clean : string)
      (patterns : list (string * list string)) (s : string) :
  keyword_match header_clean patterns = Some s -> In s (dict_keys patterns).
Proof.
  induction patterns as [|[section keywords] rest IH]; cbn [keyword_match];
    [discriminate|].
  destruct (existsb _ keywords).
  - intros H. injection H as <-. now left.
  - intros H. right. now apply IH.
Qed.

Lemma fuzzy_synonyms_in (header_clean section : string)
      (synonyms : list string) (best : option string * Z) (keys : list string) :
  In section keys ->
  (forall s, fst best = Some s -> In s keys) ->
  forall s,
    fst (fold_left (fuzzy_step ratio header_clean section) synonyms best)
    = Some s -> In s keys.
Proof.
  intros Hsec. revert best.
  induction synonyms as [|synonym synonyms IH]; intros best Hbest;
    cbn [fold_left]; [exact Hbest|].
  apply IH. unfold fuzzy_step.
  destruct (snd best <? ratio header_clean synonym); [|exact Hbest].
  cbn [fst]. intros s H. injection H as <-. exact Hsec.
Qed.

Lemma fuzzy_sections_in (header_clean : string)
      (mappings : list (string * list string)) (best : option string * Z)
      (keys : list string) :
  incl (dict_keys mappings) keys ->
  (forall s, fst best = Some s -> In s keys) ->
  forall s,
    fst (fold_left
           (fun best entry =>
              fold_left (fuzzy_step ratio header_clean (fst entry))
                        (snd entry) best)
           mappings best) = Some s -> In s keys.
Proof.
  revert best. induction mappings as [|[section synonyms] rest IH];
    intros best Hk Hbest; cbn [fold_left]; [exact Hbest|].
  apply IH.
  - intros k Hin. apply Hk. now right.
  - cbn [fst snd]. apply fuzzy_synonyms_in; [|exact Hbest].
    apply Hk. now left.
Qed.

Lemma semantic_loop_in (max_sim : list string -> option Q)
      (mappings : list (string * list string)) (best : option string * Q)
      (keys : list string) (result : option string * Q) :
  incl (dict_keys mappings) keys ->
  (forall s, fst best = Some s -> In s keys) ->
  semantic_loop max_sim mappings best = Some result ->
  forall s, fst result = Some s -> In s keys.
Proof.
  revert best. induction mappings as [|[section synonyms] rest IH];
    intros best Hk Hbest; cbn [semantic_loop].
  - intros H. injection H as <-. exact Hbest.
  - destruct (max_sim synonyms) as [sim|]; [|discriminate].
    apply IH.
    + intros k Hin. apply Hk. now right.
    + destruct (Qlt_bool (snd best) sim); [|exact Hbest].
      cbn [fst]. intros s H. injection H as <-. apply Hk. now left.
Qed.

Lemma keyword_patterns_keys :
  dict_keys keyword_patterns = dict_keys SECTION_MAPPINGS.
Proof. vm_compute. reflexivity. Qed.

Lemma fuzzy_best_in (header_clean s : string) :
  fst (fuzzy_best ratio header_clean) = Some s ->
  In s (dict_keys SECTION_MAPPINGS).
Proof.
  unfold fuzzy_best. apply fuzzy_sections_in; [apply incl_refl|].
  discriminate.
Qed.

Lemma semantic_match_in (header_clean s : string) :
  semantic_match model header_clean = Some (Some s) ->
  In s (dict_keys SECTION_MAPPINGS).
Proof.
  unfold semantic_match.
  destruct model as [encode|]; [|discriminate].
  destruct (encode header_clean) as [max_sim|]; [|discriminate].
  destruct (semantic_loop max_sim SECTION_MAPPINGS (None, 0%Q))
    as [[best_section best_sim]|] eqn:Hl; [|discriminate].
  destruct (Qlt_bool 0.65 best_sim); [|discriminate].
  intros H. injection H as ->.
  apply (semantic_loop_in max_sim SECTION_MAPPINGS (None, 0%Q)
           (dict_keys SECTION_MAPPINGS) (Some s, best_sim));
    [apply incl_refl | discriminate | exact Hl | reflexivity].
Qed.

Lemma match_header_unfold (header_text : string) :
  _match_header_to_section ratio model header_text
  = match clean_header header_text with
    | EmptyString => None
    | _ =>
        match exact_match (clean_header header_text) SECTION_MAPPINGS with
        | Some section => Some section
        | None =>
            if 80 <? snd (fuzzy_best ratio (clean_header header_text))
            then fst (fuzzy_best ratio (clean_header header_text))
            else
              match semantic_match model (clean_header header_text) with
              | Some returned => returned
              | None =>
                  keyword_match (clean_header header_text) keyword_patterns
              end
        end
    end.
Proof.
  unfold _match_header_to_section.
  destruct (clean_header header_text) as [|c h]; [reflexivity|].
  destruct (fuzzy_best ratio (String c h)). reflexivity.
Qed.

Lemma match_header_in (header_text s : string) :
  _match_header_to_section ratio model header_text = Some s ->
  In s (dict_keys SECTION_MAPPINGS).
Proof.
  rewrite match_header_unfold.
  generalize (clean_header header_text). intros header_clean.
  destruct header_clean as [|c h] eqn:Hc; [discriminate|]. rewrite <- Hc.
  clear Hc.
  destruct (exact_match header_clean SECTION_MAPPINGS) as [section|] eqn:He.
  { intros H. injection H as <-. now apply exact_match_in in He. }
  destruct (80 <? snd (fuzzy_best ratio header_clean)).
  { apply fuzzy_best_in. }
  destruct (semantic_match model header_clean) as [returned|] eqn:Hs.
  - intros H. subst returned. now apply semantic_match_in in Hs.
  - intros H. apply keyword_match_in in H.
    rewrite keyword_patterns_keys in H. exact H.
Qed.

(** X19.  Whatever the fuzzy scorer and the semantic model answer,
    [_match_header_to_section] returns [None] or one of the eight section
    names of [SECTION_MAPPINGS]. *)
Theorem match_header_returns_table_section (header_text : string) :
  _match_header_to_section ratio model header_text = None
  \/ exists s,
       _match_header_to_section ratio model header_text = Some s
       /\ In s (dict_keys SECTION_MAPPINGS).
Proof.
  destruct (_match_header_to_section ratio model header_text) as [s|] eqn:H;
    [right | now left].
  exists s. split; [reflexivity | exact (match_header_in _ _ H)].
Qed.

(** X20.  A header that reads, once stripped, lower-cased and rid of
    everything but letters and spaces, as a synonym of the table is matched
    by the first section that lists it, whatever the fuzzy scorer and the
    semantic model answer: [professional summary], listed under EMPLOYMENT
    and under SUMMARY, is always EMPLOYMENT. *)
Theorem professional_summary_is_employment (header_text : string) :
  clean_header header_text = "professional summary" ->
  _match_header_to_section ratio model header_text = Some "EMPLOYMENT"
  /\ (exists synonyms,
         In ("SUMMARY", synonyms) SECTION_MAPPINGS
         /\ In "professional summary" synonyms).
Proof.
  intros H. split.
  - unfold _match_header_to_section. rewrite H. reflexivity.
  - eexists. split.
    + do 3 right. left. reflexivity.
    + right. now left.
Qed.

End HeaderMatching.

Section HeaderMatchingWitnesses.
Import PyStr PyNum PyDict Spacy ContentValidator SectionIdentifier.
Import SectionAssembly.

Lemma professional_summary_is_employment_witness :
  _match_header_to_section exact_ratio None "  Professional Summary: "
  = Some "EMPLOYMENT"
  /\ (exists synonyms,
         In ("SUMMARY", synonyms) SECTION_MAPPINGS
         /\ In "professional summary" synonyms).
Proof.
  apply (professional_summary_is_employment exact_ratio None
           "  Professional Summary: ").
  reflexivity.
Defined.

End HeaderMatchingWitnesses.

(* ===================================================================== *)
(** * The assembly of sections: [identify_sections] *)

Section AssemblyFacts.
Import PyStr PyNum PyDict Spacy ContentValidator SectionIdentifier.
Import SectionAssembly.
Local Open Scope Z_scope.

Lemma argmax_in (best : string * Z) (rest : list (string * Z)) :
  In (fst (argmax best rest)) (fst best :: map fst rest).
Proof.
  revert best. induction rest as [|[k v] rest IH]; intros best;
    cbn [argmax map]; [now left|].
  destruct (snd best <? v).
  - right. apply (IH (k, v)).
  - destruct (IH best) as [H|H]; [now left | right; now right].
Qed.

Lemma classify_in (nlp : option ner) (content s : string) :
  _classify_content_by_analysis nlp content = Some s ->
  In s classifier_names.
Proof.
  unfold _classify_content_by_analysis.
  destruct (5 <=? EDUCATION (priority_scores content)).
  { intros H. injection H as <-. now left. }
  destruct (8 <=? EMPLOYMENT (priority_scores content)).
  { intros H. injection H as <-. right. now left. }
  destruct (best_of _) as [best_section best] eqn:Hb.
  destruct (0 <? best); [|discriminate].
  intros H. injection H as <-.
  unfold best_of in Hb.
  match type of Hb with
  | argmax ?b ?r = _ => pose proof (argmax_in b r) as Hin
  end.
  rewrite Hb in Hin. exact Hin.
Qed.

Lemma classifier_names_in_table :
  incl classifier_names (dict_keys SECTION_MAPPINGS).
Proof.
  intros s Hs. cbn in Hs. cbn. intuition.
Qed.

Lemma named_some (o : option string) :
  named o = true -> o = Some (name_of o) /\ name_of o <> EmptyString.
Proof.
  destruct o as [[|c s]|]; cbn; try discriminate.
  intros _. split; [reflexivity | discriminate].
Qed.

Lemma no_empty_section_append_block (k : string) (b : block) (d : sections) :
  no_empty_section d -> no_empty_section (append_block k b d).
Proof.
  unfold no_empty_section.
  induction 1 as [|[k' bs] d He Hd IH]; cbn [append_block]; [constructor|].
  destruct (String.eqb k k'); constructor; try assumption.
  cbn [snd]. destruct bs; discriminate.
Qed.

Lemma blocks_of_append_block (k : string) (b : block) (d : sections)
      (x : block) :
  In x (blocks_of (append_block k b d)) -> x = b \/ In x (blocks_of d).
Proof.
  unfold blocks_of.
  induction d as [|[k' bs] d IH]; cbn [append_block]; [tauto|].
  destruct (String.eqb k k'); cbn [flat_map snd]; rewrite !in_app_iff.
  - cbn [In]. intuition auto.
  - intros [H|H]; [tauto|]. destruct (IH H); tauto.
Qed.

Lemma ensure_key_keys_incl (k : string) (d : sections) (keys : list string) :
  In k keys -> incl (dict_keys d) keys -> incl (dict_keys (ensure_key k d)) keys.
Proof.
  intros Hk Hd. unfold ensure_key. destruct (has_key k d); [exact Hd|].
  unfold dict_keys. rewrite map_app. apply incl_app; [exact Hd|].
  intros x [<-|[]]. exact Hk.
Qed.

Lemma filed_from_append (pool : list block) (k : string) (b : block)
      (d : sections) :
  filed_from pool d -> In b pool -> filed_from pool (append_block k b d).
Proof.
  intros [H1 [H2 [H3 H4]]] Hb. repeat split.
  - now rewrite append_block_keys.
  - now rewrite append_block_keys.
  - now apply no_empty_section_append_block.
  - intros x Hx. apply blocks_of_append_block in Hx.
    destruct Hx as [->|Hx]; [exact Hb | now apply H4].
Qed.

Lemma filed_from_file_block (pool : list block) (k : string) (b : block)
      (d : sections) :
  filed_from pool d -> In k (dict_keys SECTION_MAPPINGS) -> In b pool ->
  filed_from pool (file_block k b d).
Proof.
  intros [H1 [H2 [H3 H4]]] Hk Hb. unfold file_block. repeat split.
  - rewrite append_block_keys. now apply ensure_key_keys_incl.
  - rewrite append_block_keys. now apply ensure_key_nodup.
  - now apply no_empty_section_append.
  - intros x Hx. apply blocks_of_append in Hx.
    destruct Hx as [->|Hx]; [exact Hb | now apply H4].
Qed.

Lemma filed_from_extend (pool : list block) (k : string) (bs : list block)
      (d : sections) :
  filed_from pool d -> incl bs pool -> filed_from pool (extend_blocks k bs d).
Proof.
  unfold extend_blocks. revert d.
  induction bs as [|b bs IH]; intros d Hd Hbs; cbn [fold_left]; [exact Hd|].
  apply IH.
  - apply filed_from_append; [exact Hd | apply Hbs; now left].
  - intros x Hx. apply Hbs. now right.
Qed.

Lemma filed_from_save (pool : list block) (st : assembly) :
  assembly_inv pool st -> filed_from pool (save_section st).
Proof.
  intros [Hd [_ [Hc Hn]]]. unfold save_section.
  destruct (current_section st) as [[|c s]|]; try exact Hd.
  destruct (current_content st) as [|b bs]; [exact Hd|].
  change (extend_blocks (String c s) (b :: bs)
            (ensure_key (String c s) (matched_sections st)))
    with (extend_blocks (String c s) bs
            (file_block (String c s) b (matched_sections st))).
  apply filed_from_extend.
  - apply filed_from_file_block; [exact Hd | now apply Hn | apply Hc; now left].
  - intros x Hx. apply Hc. now right.
Qed.

Variable nlp : option ner.
Variable ratio : string -> string -> Z.
Variable model : option semantic_model.

Lemma classify_named_in_table (content : string) :
  named (_classify_content_by_analysis nlp content) = true ->
  In (name_of (_classify_content_by_analysis nlp content))
     (dict_keys SECTION_MAPPINGS).
Proof.
  intros H. apply named_some in H. destruct H as [H _].
  apply classifier_names_in_table. eapply classify_in. exact H.
Qed.

Lemma assembly_inv_intro (pool : list block) (d : sections)
      (u : list block) (cs : option string) (cc : list block) :
  filed_from pool d -> incl u pool -> incl cc pool ->
  (named cs = true -> In (name_of cs) (dict_keys SECTION_MAPPINGS)) ->
  assembly_inv pool
    {| matched_sections := d; unmatched_content := u;
       current_section := cs; current_content := cc |}.
Proof. intros H1 H2 H3 H4. repeat split; assumption || apply H1. Qed.

Lemma incl_snoc {A : Type} (l pool : list A) (a : A) :
  incl l pool -> In a pool -> incl (l ++ [a]) pool.
Proof.
  intros Hl Ha. apply incl_app; [exact Hl|]. intros x [<-|[]]. exact Ha.
Qed.

Lemma assemble_step_inv (pool : list block) (st : assembly) (b : block) :
  In b pool -> assembly_inv pool st ->
  assembly_inv pool (assemble_step nlp ratio model st b).
Proof.
  intros Hb Hinv. pose proof (filed_from_save pool st Hinv) as Hsaved.
  pose proof Hinv as [Hd [Hu [Hc Hn]]]. unfold assemble_step.
  destruct (String.eqb (type b) "header").
  - destruct (named (_match_header_to_section ratio model (text b))) eqn:Hm.
    { apply assembly_inv_intro; try assumption; [intros x []|].
      intros _. apply named_some in Hm. destruct Hm as [Hm _].
      exact (match_header_in ratio model _ _ Hm). }
    destruct (named (_classify_content_by_analysis nlp (text b))) eqn:Hcl.
    { apply assembly_inv_intro; try assumption; [intros x []|].
      intros _. now apply classify_named_in_table. }
    case_eq (named (current_section st)); intros Hcur;
      apply assembly_inv_intro; try assumption; now apply incl_snoc.
  - destruct (String.eqb (type b) "body"); [|exact Hinv].
    case_eq (named (current_section st)); intros Hcur.
    + destruct (named (_classify_content_by_analysis nlp (text b))
                && negb (String.eqb
                           (name_of (_classify_content_by_analysis nlp (text b)))
                           (name_of (current_section st)))) eqn:Hmove.
      * apply andb_true_iff in Hmove. destruct Hmove as [Hcl _].
        apply assembly_inv_intro; try assumption.
        apply filed_from_file_block; [exact Hd | | exact Hb].
        now apply classify_named_in_table.
      * apply assembly_inv_intro; try assumption. now apply incl_snoc.
    + apply assembly_inv_intro; try assumption. now apply incl_snoc.
Qed.

Lemma assemble_loop_inv (pool l : list block) (st : assembly) :
  incl l pool -> assembly_inv pool st ->
  assembly_inv pool (fold_left (assemble_step nlp ratio model) l st).
Proof.
  revert st. induction l as [|b l IH]; intros st Hl Hst; cbn [fold_left];
    [exact Hst|].
  apply IH.
  - intros x Hx. apply Hl. now right.
  - apply assemble_step_inv; [apply Hl; now left | exact Hst].
Qed.

Lemma classify_unmatched_loop (pool l : list block) (d : sections) :
  incl l pool -> filed_from pool d ->
  filed_from pool (fold_left (classify_unmatched nlp) l d).
Proof.
  revert d. induction l as [|b l IH]; intros d Hl Hd; cbn [fold_left];
    [exact Hd|].
  apply IH; [intros x Hx; apply Hl; now right|].
  unfold classify_unmatched.
  destruct (named (_classify_content_by_analysis nlp (text b))) eqn:Hcl;
    [|exact Hd].
  apply filed_from_file_block; [exact Hd | | apply Hl; now left].
  now apply classify_named_in_table.
Qed.

Lemma identify_sections_filed (r : ocr_results) :
  filed_from (all_blocks r) (identify_sections nlp ratio model r).
Proof.
  unfold identify_sections.
  assert (Hinv : assembly_inv (all_blocks r)
                   (fold_left (assemble_step nlp ratio model) (all_blocks r)
                              initial_assembly)).
  { apply assemble_loop_inv; [apply incl_refl|].
    apply assembly_inv_intro; try (intros x []); [|discriminate].
    split; [intros x [] | split; [apply List.NoDup_nil | split]].
    - apply List.Forall_nil.
    - intros x []. }
  apply classify_unmatched_loop; [apply Hinv | now apply filed_from_save].
Qed.

Lemma in_all_blocks (r : ocr_results) (b : block) :
  In b (all_blocks r)
  <-> (exists d, In d (section_headers_ocr r) /\ b = make_block "header" d)
      \/ (exists d, In d (body_ocr r) /\ b = make_block "body" d).
Proof.
  unfold all_blocks. split.
  - intros H. apply (Permutation_in _ (sorted_by_perm _ _)) in H.
    apply in_app_or in H. destruct H as [H|H]; apply in_map_iff in H;
      destruct H as [d [<- Hd]]; [left | right]; eauto.
  - intros H.
    apply (Permutation_in _ (Permutation_sym (sorted_by_perm _ _))).
    apply in_or_app.
    destruct H as [[d [Hd ->]]|[d [Hd ->]]]; [left | right]; now apply in_map.
Qed.

(** X21.  Whatever the OCR results are, the dictionary [identify_sections]
    returns has section names of [SECTION_MAPPINGS] only, no empty section,
    and nothing but blocks built from the headers and the body blocks of
    the OCR results. *)
Theorem identify_sections_files_input_blocks (r : ocr_results) :
  incl (dict_keys (identify_sections nlp ratio model r))
       (dict_keys SECTION_MAPPINGS)
  /\ List.NoDup (dict_keys (identify_sections nlp ratio model r))
  /\ no_empty_section (identify_sections nlp ratio model r)
  /\ (forall b, In b (blocks_of (identify_sections nlp ratio model r)) ->
        (exists d, In d (section_headers_ocr r) /\ b = make_block "header" d)
        \/ (exists d, In d (body_ocr r) /\ b = make_block "body" d)).
Proof.
  destruct (identify_sections_filed r) as [H1 [H2 [H3 H4]]].
  repeat split; try assumption.
  intros b Hb. apply in_all_blocks. now apply H4.
Qed.

End AssemblyFacts.

Section DoubleFiling.
Import PyStr PyNum PyDict Spacy ContentValidator SectionIdentifier.
Import VisualLayoutAnalyzer(sorted_by, insert_sorted, key_le).
Import SectionAssembly.
Local Open Scope Z_scope.

Variable nlp : option ner.
Variable ratio : string -> string -> Z.
Variable model : option semantic_model.

Lemma key_le_tops (a b : Z) : key_le (a, 0) (b, 0) = (a <=? b).
Proof.
  unfold key_le. cbn [fst snd].
  destruct (a <? b) eqn:E1; destruct (a =? b) eqn:E2;
    destruct (a <=? b) eqn:E3; try reflexivity;
    try apply Z.ltb_lt in E1; try apply Z.ltb_ge in E1;
    try apply Z.eqb_eq in E2; try apply Z.eqb_neq in E2;
    try apply Z.leb_le in E3; try apply Z.leb_gt in E3; lia.
Qed.

Lemma all_blocks_header_body_header (h1 b h2 : ocr_block) :
  top_of h1 < top_of b -> top_of b < top_of h2 ->
  all_blocks {| section_headers_ocr := [h1; h2]; body_ocr := [b] |}
  = [make_block "header" h1; make_block "body" b; make_block "header" h2].
Proof.
  intros H1 H2. unfold all_blocks.
  change (map (make_block "header")
              (section_headers_ocr
                 {| section_headers_ocr := [h1; h2]; body_ocr := [b] |})
          ++ map (make_block "body")
                 (body_ocr
                    {| section_headers_ocr := [h1; h2]; body_ocr := [b] |}))
    with [make_block "header" h1; make_block "header" h2;
          make_block "body" b].
  set (key := fun x : block => (y x, 0)).
  change (sorted_by key [make_block "header" h1; make_block "header" h2;
                         make_block "body" b])
    with (insert_sorted key (make_block "header" h1)
            (insert_sorted key (make_block "header" h2)
               [make_block "body" b])).
  assert (K1 : key_le (key (make_block "header" h2))
                      (key (make_block "body" b)) = false).
  { change (key_le (top_of h2, 0) (top_of b, 0) = false).
    rewrite key_le_tops. apply Z.leb_gt. lia. }
  assert (K2 : key_le (key (make_block "header" h1))
                      (key (make_block "body" b)) = true).
  { change (key_le (top_of h1, 0) (top_of b, 0) = true).
    rewrite key_le_tops. apply Z.leb_le. lia. }
  cbv beta iota delta [insert_sorted]. rewrite K1.
  cbv beta iota delta [insert_sorted]. rewrite K2. reflexivity.
Qed.

Lemma step_matched_header (st : assembly) (b : block) (S : string) :
  type b = "header" ->
  _match_header_to_section ratio model (text b) = Some S ->
  named (Some S) = true ->
  assemble_step nlp ratio model st b
  = {| matched_sections := save_section st;
       unmatched_content := unmatched_content st;
       current_section := Some S;
       current_content := [] |}.
Proof.
  intros Ht Hm Hn. unfold assemble_step. rewrite Ht, Hm, Hn. reflexivity.
Qed.

Lemma step_unrecognised_header (st : assembly) (b : block) :
  type b = "header" ->
  _match_header_to_section ratio model (text b) = None ->
  _classify_content_by_analysis nlp (text b) = None ->
  named (current_section st) = true ->
  assemble_step nlp ratio model st b
  = {| matched_sections := save_section st;
       unmatched_content := unmatched_content st;
       current_section := current_section st;
       current_content := current_content st ++ [b] |}.
Proof.
  intros Ht Hm Hc Hn. unfold assemble_step. rewrite Ht, Hm, Hc, Hn.
  reflexivity.
Qed.

Lemma step_unclassified_body (st : assembly) (b : block) :
  type b = "body" ->
  _classify_content_by_analysis nlp (text b) = None ->
  named (current_section st) = true ->
  assemble_step nlp ratio model st b
  = {| matched_sections := matched_sections st;
       unmatched_content := unmatched_content st;
       current_section := current_section st;
       current_content := current_content st ++ [b] |}.
Proof.
  intros Ht Hc Hn. unfold assemble_step. rewrite Ht, Hc, Hn. reflexivity.
Qed.

Lemma extend_single (S : string) (bs done : list block) :
  extend_blocks S bs [(S, done)] = [(S, done ++ bs)].
Proof.
  unfold extend_blocks. revert done.
  induction bs as [|b bs IH]; intros done; cbn [fold_left].
  - now rewrite app_nil_r.
  - cbn [append_block]. rewrite String.eqb_refl, IH, <- app_assoc.
    reflexivity.
Qed.

Lemma ensure_key_single (S : string) (done : list block) :
  ensure_key S [(S, done)] = [(S, done)].
Proof.
  unfold ensure_key, has_key. cbn [dict_keys map fst existsb].
  now rewrite String.eqb_refl.
Qed.

(** X22.  Content is filed twice when a header that nothing recognises
    follows it: the content of the current section is saved at the header
    and stays in [current_content], so it is saved again, together with the
    header, at the next header or at the end. *)
Theorem unrecognised_header_files_content_twice (h1 b h2 : ocr_block)
        (S : string) :
  top_of h1 < top_of b -> top_of b < top_of h2 ->
  _match_header_to_section ratio model (ocr_text h1) = Some S ->
  _classify_content_by_analysis nlp (ocr_text b) = None ->
  _match_header_to_section ratio model (ocr_text h2) = None ->
  _classify_content_by_analysis nlp (ocr_text h2) = None ->
  identify_sections nlp ratio model
    {| section_headers_ocr := [h1; h2]; body_ocr := [b] |}
  = [(S, [make_block "body" b; make_block "body" b; make_block "header" h2])].
Proof.
  intros Hy1 Hy2 Hm1 Hcb Hm2 Hc2.
  assert (HS : named (Some S) = true).
  { apply match_header_in in Hm1. destruct S as [|c s]; [|reflexivity].
    exfalso. cbn in Hm1. intuition discriminate. }
  unfold identify_sections.
  rewrite (all_blocks_header_body_header h1 b h2 Hy1 Hy2).
  cbn [fold_left].
  rewrite (step_matched_header initial_assembly (make_block "header" h1) S
             eq_refl Hm1 HS).
  match goal with
  | |- context [assemble_step nlp ratio model ?st (make_block "body" b)] =>
      rewrite (step_unclassified_body st (make_block "body" b) eq_refl
                 Hcb HS)
  end.
  match goal with
  | |- context [assemble_step nlp ratio model ?st (make_block "header" h2)] =>
      rewrite (step_unrecognised_header st (make_block "header" h2) eq_refl
                 Hm2 Hc2 HS)
  end.
  cbn [matched_sections unmatched_content current_section current_content
       app fold_left].
  destruct S as [|c s]; [discriminate|].
  unfold save_section.
  cbn [matched_sections unmatched_content current_section current_content
       initial_assembly].
  change (ensure_key (String c s) []) with [(String c s, @nil block)].
  rewrite extend_single. cbn [app].
  rewrite ensure_key_single, extend_single. reflexivity.
Qed.

End DoubleFiling.

Section AssemblyWitnesses.
Import PyStr PyNum PyDict Spacy ContentValidator SectionIdentifier.
Import SectionAssembly.
Local Open Scope Z_scope.

Lemma unrecognised_header_files_content_twice_witness :
  identify_sections None exact_ratio None references_page
  = [("EMPLOYMENT",
      [make_block "body" (ocr_line "Acme Corp" 150);
       make_block "body" (ocr_line "Acme Corp" 150);
       make_block "header" (ocr_line "References" 400)])].
Proof.
  apply (unrecognised_header_files_content_twice None exact_ratio None
           (ocr_line "WORK EXPERIENCE" 100) (ocr_line "Acme Corp" 150)
           (ocr_line "References" 400) "EMPLOYMENT").
  - reflexivity.
  - reflexivity.
  - reflexivity.
  - vm_compute. reflexivity.
  - vm_compute. reflexivity.
  - vm_compute. reflexivity.
Defined.

End AssemblyWitnesses.

(* ===================================================================== *)
(** * The template mapper: [map_to_template] *)

Section StripFacts.
Import PyStr.

Lemma lstrip_clean (s : string) : starts_clean s = true -> lstrip s = s.
Proof.
  destruct s as [|c s]; [discriminate|]. cbn.
  destruct (is_space c); [discriminate | reflexivity].
Qed.

Lemma rstrip_clean (s : string) : ends_clean s = true -> rstrip s = s.
Proof.
  induction s as [|c s IH]; [discriminate|].
  cbn [ends_clean rstrip]. destruct s as [|d s].
  - cbn. destruct (is_space c); [discriminate | reflexivity].
  - intros H. rewrite (IH H). reflexivity.
Qed.

Lemma strip_clean (s : string) :
  starts_clean s = true -> ends_clean s = true -> strip s = s.
Proof.
  intros H1 H2. unfold strip. rewrite (rstrip_clean s H2).
  now apply lstrip_clean.
Qed.

Lemma rstrip_nonspace (s : string) :
  has_nonspace s = true -> ends_clean (rstrip s) = true.
Proof.
  induction s as [|c s IH]; [discriminate|].
  cbn [has_nonspace rstrip]. destruct (is_space c) eqn:E.
  - intros H. specialize (IH H).
    destruct (rstrip s) as [|d r]; [discriminate|]. exact IH.
  - intros _. destruct (rstrip s) as [|d r] eqn:Er.
    + cbn. now rewrite E.
    + destruct (has_nonspace s) eqn:Hs.
      * specialize (IH eq_refl). exact IH.
      * exfalso. clear IH. revert d r Er Hs.
        induction s as [|e s IHs]; [discriminate|].
        cbn [rstrip has_nonspace]. intros d r.
        destruct (is_space e); [|discriminate].
        destruct (rstrip s) as [|d' r'] eqn:Er'; [discriminate|].
        intros _ Hs. exact (IHs d' r' eq_refl Hs).
Qed.

Lemma rstrip_keeps_nonspace (s : string) :
  has_nonspace (rstrip s) = has_nonspace s.
Proof.
  induction s as [|c s IH]; [reflexivity|].
  cbn [rstrip has_nonspace]. destruct (rstrip s) as [|d r] eqn:Er.
  - destruct (is_space c) eqn:E; cbn [has_nonspace]; rewrite ?E.
    + exact IH.
    + reflexivity.
  - cbn [has_nonspace]. destruct (is_space c); [exact IH | reflexivity].
Qed.

Lemma lstrip_nonspace (s : string) :
  has_nonspace s = true -> starts_clean (lstrip s) = true.
Proof.
  induction s as [|c s IH]; [discriminate|].
  cbn [has_nonspace lstrip]. destruct (is_space c) eqn:E.
  - exact IH.
  - intros _. cbn. now rewrite E.
Qed.

Lemma lstrip_keeps_end (s : string) :
  ends_clean s = true -> ends_clean (lstrip s) = true.
Proof.
  induction s as [|c s IH]; [discriminate|].
  cbn [lstrip]. destruct (is_space c) eqn:E; [|tauto].
  cbn [ends_clean]. destruct s as [|d s].
  - rewrite E. discriminate.
  - exact IH.
Qed.

(** The stripped text of a block that is not blank starts and ends with a
    character that is no white space. *)
Lemma strip_nonspace (s : string) :
  has_nonspace s = true ->
  starts_clean (strip s) = true /\ ends_clean (strip s) = true.
Proof.
  intros H. unfold strip. split.
  - apply lstrip_nonspace. now rewrite rstrip_keeps_nonspace.
  - apply lstrip_keeps_end. now apply rstrip_nonspace.
Qed.

Lemma starts_clean_app (p x : string) :
  starts_clean p = true -> starts_clean (p ++ x) = true.
Proof. destruct p; [discriminate | tauto]. Qed.

Lemma ends_clean_app (x p : string) :
  ends_clean p = true -> ends_clean (x ++ p) = true.
Proof.
  intros H. induction x as [|c x IH]; [exact H|].
  change (String c x ++ p)%string with (String c (x ++ p)).
  destruct (x ++ p)%string as [|a s]; [discriminate IH | exact IH].
Qed.

Lemma join_clean (sep : string) (texts : list string) :
  texts <> [] ->
  Forall (fun t => starts_clean t = true /\ ends_clean t = true) texts ->
  starts_clean (join sep texts) = true /\ ends_clean (join sep texts) = true.
Proof.
  intros Hne H. induction H as [|t texts [H1 H2] Hrest IH]; [congruence|].
  destruct texts as [|t' texts'].
  - cbn. auto.
  - change (join sep (t :: t' :: texts'))
      with (t ++ sep ++ join sep (t' :: texts'))%string.
    destruct IH as [_ IH2]; [discriminate|]. split.
    + now apply starts_clean_app.
    + apply ends_clean_app. now apply ends_clean_app.
Qed.

End StripFacts.

Section TemplateMapperProperties.
Import PyStr PyNum PyDict ContentValidator TemplateMapper.

Lemma block_texts_clean (content_blocks : list block) :
  Forall (fun t => starts_clean t = true /\ ends_clean t = true)
         (block_texts content_blocks).
Proof.
  unfold block_texts. apply List.Forall_forall. intros t Ht.
  apply in_map_iff in Ht. destruct Ht as [b [<- Hb]].
  apply filter_In in Hb. destruct Hb as [_ Hb].
  apply strip_nonspace. destruct (text b); [discriminate | exact Hb].
Qed.

Lemma format_section_content_clean (section_name : string)
      (content_blocks : list block) :
  _format_section_content section_name content_blocks = EmptyString
  \/ (starts_clean (_format_section_content section_name content_blocks)
      = true
      /\ ends_clean (_format_section_content section_name content_blocks)
         = true).
Proof.
  unfold _format_section_content.
  destruct content_blocks as [|b0 bs0]; [now left|].
  pose proof (block_texts_clean (b0 :: bs0)) as Hall.
  destruct (block_texts (b0 :: bs0)) as [|t texts]; [now left|].
  right.
  assert (Hj : forall sep,
             starts_clean (join sep (t :: texts)) = true
             /\ ends_clean (join sep (t :: texts)) = true).
  { intros sep. apply join_clean; [discriminate | exact Hall]. }
  destruct (existsb _ _); [apply Hj|].
  destruct (String.eqb section_name "SKILLS").
  - destruct (contains "," _ || contains bullet _); apply Hj.
  - destruct (String.eqb section_name "SUMMARY"); apply Hj.
Qed.

(** X23.  [map_to_template] lists no empty section: every section text of
    its result is the formatted content of a section of the input, is not
    empty, and neither starts nor ends with white space; a section all of
    whose blocks are blank is formatted to the empty string and left out. *)
Theorem map_to_template_sections_are_trimmed (e : extracted_data) :
  Forall (fun kv =>
            snd kv <> EmptyString
            /\ strip (snd kv) = snd kv
            /\ exists content_blocks,
                 In (fst kv, content_blocks) (default [] (sections e))
                 /\ snd kv = _format_section_content (fst kv) content_blocks)
         (mapped_sections (map_to_template e))
  /\ (forall section_name content_blocks,
         Forall (fun b => has_nonspace (text b) = false) content_blocks ->
         _format_section_content section_name content_blocks = EmptyString).
Proof.
  split.
  - unfold map_to_template. cbn [mapped_sections].
    generalize (default [] (sections e)). intros d.
    assert (Hgen : forall rest acc,
               incl rest d ->
               Forall (fun kv =>
                         snd kv <> EmptyString
                         /\ strip (snd kv) = snd kv
                         /\ exists content_blocks,
                              In (fst kv, content_blocks) d
                              /\ snd kv
                                 = _format_section_content (fst kv)
                                     content_blocks) acc ->
               Forall (fun kv =>
                         snd kv <> EmptyString
                         /\ strip (snd kv) = snd kv
                         /\ exists content_blocks,
                              In (fst kv, content_blocks) d
                              /\ snd kv
                                 = _format_section_content (fst kv)
                                     content_blocks)
                      (fold_left format_entry rest acc)).
    { induction rest as [|[k bs] rest IH]; intros acc Hin Hacc;
        cbn [fold_left]; [exact Hacc|].
      apply IH; [intros x Hx; apply Hin; now right|].
      unfold format_entry. cbn [fst snd].
      destruct (format_section_content_clean k bs) as [Hz|[H1 H2]].
      - rewrite Hz. exact Hacc.
      - destruct (_format_section_content k bs) as [|c v] eqn:Ef;
          [discriminate|].
        apply dict_set_forall; [exact Hacc|]. cbn [fst snd].
        split; [discriminate|]. split; [now apply strip_clean|].
        exists bs. split; [apply Hin; now left | now symmetry]. }
    apply Hgen; [apply incl_refl | constructor].
  - intros section_name content_blocks Hblank.
    unfold _format_section_content.
    destruct content_blocks as [|b0 bs0]; [reflexivity|].
    assert (Hnil : block_texts (b0 :: bs0) = []).
    { unfold block_texts.
      induction Hblank as [|b bs Hb Hbs IH]; [reflexivity|].
      cbn [List.filter]. destruct (text b) as [|c t] eqn:Et; [exact IH|].
      rewrite Hb. exact IH. }
    now rewrite Hnil.
Qed.

End TemplateMapperProperties.

Section TemplateMapperWitnesses.
Import PyStr PyNum PyDict ContentValidator TemplateMapper.

Lemma map_to_template_sections_are_trimmed_witness :
  Forall (fun b => has_nonspace (text b) = false) [plain_block "   "]
  /\ _format_section_content "SKILLS" [plain_block "   "] = EmptyString
  /\ map fst (mapped_sections (map_to_template two_jobs)) = ["EMPLOYMENT"].
Proof.
  assert (H : Forall (fun b => has_nonspace (text b) = false)
                [plain_block "   "]).
  { constructor; [reflexivity | constructor]. }
  split; [exact H|]. split.
  - exact (proj2 (map_to_template_sections_are_trimmed two_jobs) _ _ H).
  - reflexivity.
Defined.

End TemplateMapperWitnesses.

(* ===================================================================== *)
(** * The post-processor: cleaning of the text fields *)

Section SubstitutionFacts.
Import PyStr PostProcessor.

(** A pattern that matches nowhere in a text leaves it as it is; [P] is
    what is known at each position. *)
Lemma sub_scan_id (r : rule) (P : option ascii -> string -> Prop) :
  (forall prev c s, P prev (String c s) ->
                    r prev (String c s) = None /\ P (Some c) s) ->
  forall s prev, P prev s -> sub_scan r 0 prev s = s.
Proof.
  intros HP. induction s as [|c s IH]; intros prev H; cbn [sub_scan];
    [reflexivity|].
  destruct (HP _ _ _ H) as [Hn Hs]. rewrite Hn. f_equal. now apply IH.
Qed.

(** Behind a match the scan goes on at the end of the match. *)
Lemma sub_scan_skip (r : rule) (k : nat) :
  forall s prev,
    exists prev', sub_scan r k prev s = sub_scan r 0 prev' (drop k s).
Proof.
  induction k as [|k IH]; intros s prev.
  - exists prev. destruct s; reflexivity.
  - destruct s as [|c s]; [exists prev; reflexivity|].
    cbn [sub_scan drop]. apply IH.
Qed.

Lemma is_digit_word (c : ascii) : is_digit c = true -> is_word c = true.
Proof.
  unfold is_word. intros ->. now rewrite !orb_true_r.
Qed.

Lemma is_word_not_space (c : ascii) : is_word c = true -> is_space c = false.
Proof.
  destruct c as [[] [] [] [] [] [] [] []]; vm_compute; congruence.
Qed.

Lemma upper_char_space (c : ascii) : is_space (upper_char c) = is_space c.
Proof.
  destruct c as [[] [] [] [] [] [] [] []]; vm_compute; reflexivity.
Qed.

Lemma single_spaced_weaken (s : string) :
  single_spaced_from true s = true -> single_spaced_from false s = true.
Proof.
  destruct s as [|c s]; [reflexivity|]. cbn.
  destruct (is_space c); [discriminate | tauto].
Qed.

Lemma single_spaced_any (b : bool) (s : string) :
  single_spaced_from b s = true -> single_spaced_from false s = true.
Proof. destruct b; [apply single_spaced_weaken | tauto]. Qed.

Lemma single_spaced_tail (b : bool) (c : ascii) (s : string) :
  single_spaced_from b (String c s) = true ->
  single_spaced_from (is_space c) s = true.
Proof.
  cbn. destruct (is_space c); [|tauto]. destruct b; [discriminate | tauto].
Qed.

Lemma single_spaced_drop (k : nat) :
  forall b s, single_spaced_from b s = true ->
              single_spaced_from false (drop k s) = true.
Proof.
  induction k as [|k IH]; intros b s H.
  - destruct s; [reflexivity|]. cbn [drop]. now apply (single_spaced_any b).
  - destruct s as [|c s]; [reflexivity|]. cbn [drop].
    apply (IH (is_space c)). now apply (single_spaced_tail b).
Qed.

Lemma single_spaced_run (s : string) :
  single_spaced_from false s = true -> (run is_space s <= 1)%nat.
Proof.
  destruct s as [|c s]; [cbn; lia|]. cbn.
  destruct (is_space c); [|lia]. destruct s as [|d s]; [cbn; lia|].
  cbn. destruct (is_space d); [discriminate | lia].
Qed.

(** A prefix of characters that are no white space is harmless. *)
Lemma single_spaced_word_prefix (w x : string) (b : bool) :
  w <> EmptyString -> all_chars (fun c => negb (is_space c)) w = true ->
  single_spaced_from b (w ++ x) = single_spaced_from false x.
Proof.
  intros Hne Hw. revert b. induction w as [|c w IH]; intros b; [congruence|].
  cbn [all_chars] in Hw. destruct (is_space c) eqn:E; [discriminate|].
  cbn [negb] in Hw. change (String c w ++ x)%string with (String c (w ++ x)).
  cbn [single_spaced_from]. rewrite E.
  destruct w as [|d w]; [reflexivity|]. apply IH; [discriminate | exact Hw].
Qed.

Lemma take_run_all (p : ascii -> bool) (s : string) (n : nat) :
  (n <= run p s)%nat -> all_chars p (take n s) = true.
Proof.
  revert s. induction n as [|n IH]; intros s H; [reflexivity|].
  destruct s as [|c s]; [cbn in H; lia|]. cbn [run] in H.
  cbn [take all_chars]. destruct (p c); [|lia]. apply IH. lia.
Qed.

Lemma all_chars_impl (p q : ascii -> bool) (s : string) :
  (forall c, p c = true -> q c = true) ->
  all_chars p s = true -> all_chars q s = true.
Proof.
  intros Hpq. induction s as [|c s IH]; [reflexivity|]. cbn.
  destruct (p c) eqn:E; [|discriminate]. rewrite (Hpq c E). exact IH.
Qed.

Lemma all_chars_app (p : ascii -> bool) (s t : string) :
  all_chars p s = true -> all_chars p t = true ->
  all_chars p (s ++ t) = true.
Proof.
  intros Hs Ht. induction s as [|c s IH]; [exact Ht|].
  change (String c s ++ t)%string with (String c (s ++ t)).
  cbn [all_chars] in *. destruct (p c); [now apply IH | discriminate].
Qed.

Lemma take_nonempty (n : nat) (s : string) :
  (1 <= n)%nat -> s <> EmptyString -> take n s <> EmptyString.
Proof.
  destruct n; [lia|]. destruct s; [congruence|]. discriminate.
Qed.

Lemma run_nonempty (p : ascii -> bool) (s : string) :
  (1 <= run p s)%nat -> s <> EmptyString.
Proof. destruct s; [cbn; lia | discriminate]. Qed.

Lemma drop_length (k : nat) (s : string) :
  (String.length (drop k s) <= String.length s)%nat.
Proof.
  revert s. induction k as [|k IH]; intros s; [destruct s; cbn; lia|].
  destruct s as [|c s]; [cbn; lia|]. cbn [drop String.length].
  specialize (IH s). lia.
Qed.

End SubstitutionFacts.

Section SpacingOfCleanText.
Import PyStr PostProcessor.

Lemma collapse_spaces_unfold (prev : option ascii) (s : string) :
  correction 11 prev s
  = if (2 <=? run is_space s)%nat then Some (run is_space s, " "%string)
    else None.
Proof. reflexivity. Qed.

(** After [\s{2,}] is replaced by one space no two neighbouring characters
    are white space. *)
Lemma collapse_spaces_scan (s : string) :
  (forall prev,
      single_spaced_from false (sub_scan (correction 11) 0 prev s) = true)
  /\ (forall prev,
         single_spaced_from true
           (sub_scan (correction 11) (run is_space s) prev s) = true).
Proof.
  induction s as [|c s [IHa IHc]]; [split; reflexivity|].
  assert (Ha : forall prev,
             single_spaced_from false
               (sub_scan (correction 11) 0 prev (String c s)) = true).
  { intros prev. cbn [sub_scan]. rewrite collapse_spaces_unfold.
    cbn [run]. destruct (is_space c) eqn:E.
    - destruct (run is_space s) as [|k] eqn:Er.
      + cbn [Nat.leb]. cbn [single_spaced_from]. rewrite E.
        specialize (IHc (Some c)). try rewrite Er in IHc. exact IHc.
      + cbn [Nat.leb]. cbn [append single_spaced_from].
        change (is_space " ") with true. cbv iota.
        specialize (IHc (Some c)). try rewrite Er in IHc. exact IHc.
    - cbn [Nat.leb]. cbn [single_spaced_from]. rewrite E. apply IHa. }
  split; [exact Ha|].
  intros prev. cbn [run]. destruct (is_space c) eqn:E.
  - cbn [sub_scan]. apply IHc.
  - specialize (Ha prev). cbn [sub_scan] in *.
    rewrite collapse_spaces_unfold in *. cbn [run] in *. rewrite E in *.
    cbn [Nat.leb] in *. cbn [single_spaced_from] in *. rewrite E in *.
    exact Ha.
Qed.

Lemma collapse_spaces_single_spaced (s : string) :
  single_spaced (re_sub (correction 11) s) = true.
Proof. apply collapse_spaces_scan. Qed.

Lemma run_newline_le (s : string) :
  (run (fun c => (code c =? 10)%nat) s <= run is_space s)%nat.
Proof.
  induction s as [|c s IH]; [cbn; lia|]. cbn [run].
  destruct (code c =? 10)%nat eqn:E; [|lia].
  assert (Hs : is_space c = true).
  { apply Nat.eqb_eq in E. unfold is_space, in_range. rewrite E.
    reflexivity. }
  rewrite Hs. lia.
Qed.

(** On a text without neighbouring white space [\n{3,}] matches nowhere. *)
Lemma newlines_rule_idle (s : string) :
  single_spaced s = true -> re_sub (correction 12) s = s.
Proof.
  intros H. unfold re_sub.
  apply (sub_scan_id (correction 12)
           (fun _ t => single_spaced_from false t = true)); [|exact H].
  intros prev c t Ht. split.
  - change (correction 12 prev (String c t))
      with (if (3 <=? run (fun c => (code c =? 10)%nat) (String c t))%nat
            then Some (run (fun c => (code c =? 10)%nat) (String c t),
                       String (ascii_of_nat 10)
                              (String (ascii_of_nat 10) EmptyString))
            else None).
    pose proof (run_newline_le (String c t)) as H1.
    pose proof (single_spaced_run _ Ht) as H2.
    destruct (3 <=? _)%nat eqn:E; [|reflexivity].
    apply Nat.leb_le in E. lia.
  - apply (single_spaced_any (is_space c)).
    now apply (single_spaced_tail false).
Qed.

Lemma broken_word_match (prev : option ascii) (s : string) (n : nat)
      (replacement : string) :
  broken_word prev s = Some (n, replacement) ->
  replacement <> EmptyString
  /\ all_chars (fun c => negb (is_space c)) replacement = true.
Proof.
  unfold broken_word.
  destruct (drop (run is_word s) s) as [|c s2] eqn:E1; [discriminate|].
  destruct ((1 <=? run is_word s)%nat && (code c =? 45)%nat
            && (1 <=? run is_space s2)%nat
            && (1 <=? run is_word (drop (run is_space s2) s2))%nat) eqn:E;
    [|discriminate].
  apply andb_true_iff in E. destruct E as [E E4].
  apply andb_true_iff in E. destruct E as [E E3].
  apply andb_true_iff in E. destruct E as [E1' E2].
  apply Nat.leb_le in E1'. apply Nat.leb_le in E4.
  intros H. injection H as _ <-. split.
  - intros Hz. apply (take_nonempty (run is_word s) s E1').
    + now apply (run_nonempty is_word).
    + destruct (take (run is_word s) s); [reflexivity | discriminate].
  - apply all_chars_app;
      apply (all_chars_impl is_word);
      try (intros a Ha; now rewrite (is_word_not_space a Ha));
      now apply take_run_all.
Qed.

(** Joining broken words brings no white space together. *)
Lemma broken_word_scan (n : nat) :
  forall s b prev,
    (String.length s <= n)%nat ->
    single_spaced_from b s = true ->
    single_spaced_from b (sub_scan broken_word 0 prev s) = true.
Proof.
  induction n as [|n IH]; intros s b prev Hlen Hs.
  - destruct s; [reflexivity | cbn in Hlen; lia].
  - destruct s as [|c s]; [reflexivity|]. cbn [String.length] in Hlen.
    cbn [sub_scan].
    assert (Hplain :
              single_spaced_from b
                (String c (sub_scan broken_word 0 (Some c) s)) = true).
    { cbn [single_spaced_from]. pose proof Hs as Hs'.
      cbn [single_spaced_from] in Hs'. destruct (is_space c).
      - destruct b; [discriminate|]. apply IH; [lia | exact Hs'].
      - apply IH; [lia | exact Hs']. }
    destruct (broken_word prev (String c s)) as [[[|k] replacement]|] eqn:Em;
      try exact Hplain.
    destruct (broken_word_match _ _ _ _ Em) as [Hne Hw].
    rewrite (single_spaced_word_prefix _ _ b Hne Hw).
    destruct (sub_scan_skip broken_word k s (Some c)) as [prev' ->].
    apply IH.
    + pose proof (drop_length k s). lia.
    + apply (single_spaced_drop k (is_space c)).
      now apply (single_spaced_tail b).
Qed.

Lemma broken_word_single_spaced (s : string) :
  single_spaced s = true -> single_spaced (re_sub broken_word s) = true.
Proof. intros H. now apply (broken_word_scan (String.length s)). Qed.

Lemma spaces_of_app (s t : string) :
  spaces_of (s ++ t) = spaces_of s ++ spaces_of t.
Proof.
  induction s as [|c s IH]; [reflexivity|].
  change (String c s ++ t)%string with (String c (s ++ t)).
  cbn [spaces_of]. rewrite IH. reflexivity.
Qed.

Lemma single_spaced_shape (s t : string) (b : bool) :
  spaces_of s = spaces_of t ->
  single_spaced_from b s = single_spaced_from b t.
Proof.
  revert t b. induction s as [|c s IH]; intros [|d t] b H; try discriminate;
    [reflexivity|].
  cbn [spaces_of] in H. injection H as Hc Hs. cbn [single_spaced_from].
  rewrite Hc. destruct (is_space d); [destruct b; [reflexivity|] |];
    now apply IH.
Qed.

Lemma spaces_of_capitalize (p : string) :
  spaces_of (capitalize_first p) = spaces_of p.
Proof.
  destruct p as [|c p]; [reflexivity|]. cbn. now rewrite upper_char_space.
Qed.

Lemma join_cons (sep p : string) (ps : list string) :
  join sep (p :: ps)
  = (p ++ match ps with [] => EmptyString | _ => sep ++ join sep ps end)%string.
Proof.
  destruct ps as [|q ps]; cbn [join]; [|reflexivity].
  induction p as [|c p IH]; [reflexivity|].
  change (String c p ++ EmptyString)%string
    with (String c (p ++ EmptyString)).
  now rewrite <- IH.
Qed.

Lemma spaces_of_join_capitalized (sep : string) (ps : list string) :
  spaces_of (join sep (map capitalize_first ps)) = spaces_of (join sep ps).
Proof.
  induction ps as [|p ps IH]; [reflexivity|].
  cbn [map]. rewrite !join_cons, !spaces_of_app, spaces_of_capitalize.
  f_equal. destruct ps as [|q ps]; [reflexivity|].
  cbn [map] in *. now rewrite !spaces_of_app, IH.
Qed.

Lemma split_scan_nonempty (sep : string) (k : nat) (s : string) :
  split_scan sep k s <> [].
Proof.
  revert k. induction s as [|c s IH]; intros k; cbn [split_scan];
    [discriminate|].
  destruct k as [|k]; [|apply IH].
  destruct (startswith sep (String c s)); [discriminate|].
  destruct (split_scan sep 0 s); discriminate.
Qed.

Lemma join_empty_head (sep : string) (ps : list string) :
  ps <> [] -> join sep (EmptyString :: ps) = (sep ++ join sep ps)%string.
Proof. destruct ps; [congruence | reflexivity]. Qed.

Lemma join_cons_char (sep : string) (c : ascii) (p : string)
      (ps : list string) :
  join sep (String c p :: ps) = String c (join sep (p :: ps)).
Proof. destruct ps; reflexivity. Qed.

(** Splitting at [. ] and joining with [. ] gives the text back. *)
Lemma join_split_sentences (n : nat) :
  forall s, (String.length s <= n)%nat -> join ". " (split ". " s) = s.
Proof.
  unfold split. induction n as [|n IH]; intros s Hlen.
  - destruct s; [reflexivity | cbn in Hlen; lia].
  - destruct s as [|c s]; [reflexivity|]. cbn [String.length] in Hlen.
    cbn [split_scan].
    destruct (startswith ". " (String c s)) eqn:E.
    + cbn [startswith] in E.
      destruct (Ascii.eqb "." c) eqn:Ec; [|discriminate].
      apply Ascii.eqb_eq in Ec. subst c.
      destruct s as [|d s]; [discriminate|].
      destruct (Ascii.eqb " " d) eqn:Ed; [|discriminate].
      apply Ascii.eqb_eq in Ed. subst d.
      change (String.length ". " - 1)%nat with 1%nat.
      cbn [split_scan]. cbn [String.length] in Hlen.
      rewrite join_empty_head by apply split_scan_nonempty.
      rewrite (IH s) by lia. reflexivity.
    + assert (Hj : join ". " (split_scan ". " 0 s) = s) by (apply IH; lia).
      pose proof (split_scan_nonempty ". " 0 s) as Hne.
      destruct (split_scan ". " 0 s) as [|p ps]; [congruence|].
      rewrite join_cons_char. now rewrite Hj.
Qed.

Lemma fix_capitalization_spaces (text : string) :
  spaces_of (_fix_capitalization text) = spaces_of text.
Proof.
  unfold _fix_capitalization. destruct (isupper text); [reflexivity|].
  rewrite spaces_of_join_capitalized.
  now rewrite (join_split_sentences (String.length text)).
Qed.

Lemma lstrip_single_spaced (s : string) (b : bool) :
  single_spaced_from b s = true -> single_spaced_from false (lstrip s) = true.
Proof.
  revert b. induction s as [|c s IH]; intros b H; [reflexivity|].
  cbn [lstrip]. destruct (is_space c) eqn:E.
  - apply (IH (is_space c)). now apply (single_spaced_tail b).
  - now apply (single_spaced_any b).
Qed.

Lemma rstrip_single_spaced (s : string) (b : bool) :
  single_spaced_from b s = true -> single_spaced_from b (rstrip s) = true.
Proof.
  revert b. induction s as [|c s IH]; intros b H; [reflexivity|].
  cbn [rstrip]. pose proof (single_spaced_tail b c s H) as Ht.
  specialize (IH _ Ht). destruct (rstrip s) as [|d r].
  - destruct (is_space c) eqn:E; [reflexivity|]. cbn. now rewrite E.
  - cbn [single_spaced_from] in *. destruct (is_space c); [|exact IH].
    destruct b; [discriminate | exact IH].
Qed.

Lemma strip_single_spaced (s : string) :
  single_spaced s = true -> single_spaced (strip s) = true.
Proof.
  intros H. unfold strip. apply (lstrip_single_spaced _ false).
  now apply rstrip_single_spaced.
Qed.

Lemma rstrip_blank (s : string) : has_nonspace s = false -> rstrip s = EmptyString.
Proof.
  induction s as [|c s IH]; [reflexivity|]. cbn [has_nonspace rstrip].
  destruct (is_space c); [|discriminate]. intros H. now rewrite (IH H).
Qed.

Lemma strip_idempotent (s : string) : strip (strip s) = strip s.
Proof.
  destruct (has_nonspace s) eqn:E.
  - destruct (strip_nonspace s E) as [H1 H2]. now apply strip_clean.
  - assert (Hz : strip s = EmptyString)
      by (unfold strip; now rewrite (rstrip_blank s E)).
    rewrite !Hz. reflexivity.
Qed.

Lemma clean_text_unfold (c : ascii) (t : string) :
  _clean_text (String c t)
  = strip
      (_fix_capitalization
         (re_sub broken_word
            (re_sub (correction 12)
               (re_sub (correction 11)
                  (fold_left (fun t r => re_sub r t)
                             (firstn 11 OCR_CORRECTIONS) (String c t)))))).
Proof. reflexivity. Qed.

Lemma no_blank_line (s : string) (b : bool) (a1 a2 : ascii) :
  is_space a1 = true -> is_space a2 = true ->
  single_spaced_from b s = true ->
  contains (String a1 (String a2 EmptyString)) s = false.
Proof.
  intros H1 H2. revert b. induction s as [|c s IH]; intros b H.
  - reflexivity.
  - cbn [contains]. rewrite (IH _ (single_spaced_tail b c s H)).
    destruct (startswith _ _) eqn:E; [|reflexivity]. exfalso.
    cbn [startswith] in E.
    destruct (Ascii.eqb a1 c) eqn:E1; [|discriminate].
    apply Ascii.eqb_eq in E1. subst c.
    destruct s as [|d s]; [discriminate|].
    destruct (Ascii.eqb a2 d) eqn:E2; [|discriminate].
    apply Ascii.eqb_eq in E2. subst d.
    cbn [single_spaced_from] in H. rewrite H1, H2 in H.
    destruct b; discriminate.
Qed.

(** X24.  The text [_clean_text] returns never has two neighbouring white
    space characters and neither starts nor ends with white space: in
    particular no empty line, and so no paragraph break, survives the
    cleaning. *)
Theorem clean_text_is_single_spaced (text : string) :
  single_spaced (_clean_text text) = true
  /\ strip (_clean_text text) = _clean_text text
  /\ contains (TemplateMapper.LF ++ TemplateMapper.LF) (_clean_text text)
     = false.
Proof.
  assert (H : single_spaced (_clean_text text) = true).
  { destruct text as [|c t]; [reflexivity|]. rewrite clean_text_unfold.
    apply strip_single_spaced. unfold single_spaced.
    rewrite (single_spaced_shape _ _ _ (fix_capitalization_spaces _)).
    apply broken_word_single_spaced.
    rewrite newlines_rule_idle; apply collapse_spaces_single_spaced. }
  split; [exact H|]. split.
  - destruct text as [|c t]; [reflexivity|]. rewrite clean_text_unfold.
    apply strip_idempotent.
  - apply (no_blank_line _ false); [reflexivity | reflexivity | exact H].
Qed.

End SpacingOfCleanText.

Section DeadCorrections.
Import PyStr PostProcessor.

Lemma letter_o_before_digit_never_matches (prev : option ascii) (s : string) :
  correction 1 prev s = None.
Proof.
  destruct s as [|c s]; [reflexivity|].
  change (correction 1 prev (String c s))
    with (if Ascii.eqb c "O" && word_starts prev && word_ends s
             && match head s with Some d => is_digit d | None => false end
          then Some (1%nat, "0"%string) else None).
  destruct (Ascii.eqb c "O"); [|reflexivity].
  destruct (word_starts prev); [|reflexivity]. cbn [andb].
  unfold word_ends. destruct (head s) as [d|]; [|reflexivity].
  cbn [opt_word]. destruct (is_digit d) eqn:E.
  - rewrite (is_digit_word d E). reflexivity.
  - now rewrite andb_false_r.
Qed.

Lemma letter_o_rule_idle (text : string) :
  re_sub (correction 1) text = text.
Proof.
  unfold re_sub.
  apply (sub_scan_id (correction 1) (fun _ _ => True)); [|exact I].
  intros prev c s _. split; [|exact I].
  apply letter_o_before_digit_never_matches.
Qed.

(** X25.  Two of the thirteen corrections never change a text: the pattern
    [\bO\b(?=\d)] matches nowhere (behind the letter O it asks for a word
    boundary and for a digit), and [\n{3,}] finds nothing to replace in
    what [\s{2,}] has left, so three line feeds become one space and never
    two line feeds. *)
Theorem dead_corrections (text : string) :
  re_sub (correction 1) text = text
  /\ re_sub (correction 12) (re_sub (correction 11) text)
     = re_sub (correction 11) text.
Proof.
  split.
  - apply letter_o_rule_idle.
  - apply newlines_rule_idle. apply collapse_spaces_single_spaced.
Qed.

End DeadCorrections.

Section DigitCorruption.
Import PyStr PostProcessor.

Lemma all_chars_run (p : ascii -> bool) (s : string) :
  all_chars p s = true -> run p s = String.length s.
Proof.
  induction s as [|c s IH]; [reflexivity|]. cbn.
  destruct (p c); [|discriminate]. intros H. now rewrite IH.
Qed.

Lemma drop_all (s : string) : drop (String.length s) s = EmptyString.
Proof. induction s as [|c s IH]; [reflexivity | exact IH]. Qed.

Lemma all_chars_tail (p : ascii -> bool) (c : ascii) (s : string) :
  all_chars p (String c s) = true -> p c = true /\ all_chars p s = true.
Proof. cbn. destruct (p c); [tauto | discriminate]. Qed.

(** A rule that asks for the beginning of a word can match a text of word
    characters at its first character only. *)
Lemma word_start_rule_tail (r : rule) (c : ascii) (s : string) :
  (forall prev t, opt_word prev = true -> r prev t = None) ->
  all_chars is_word (String c s) = true ->
  sub_scan r 0 (Some c) s = s.
Proof.
  intros Hr Hall. destruct (all_chars_tail _ _ _ Hall) as [Hc Hs].
  apply (sub_scan_id r
           (fun prev t => opt_word prev = true
                          /\ all_chars is_word t = true)); [|now split].
  intros prev d t [Hp Ht]. destruct (all_chars_tail _ _ _ Ht) as [Hd Ht'].
  split; [now apply Hr | now split].
Qed.

Lemma word_start_rule_idle (r : rule) (c : ascii) (s : string) :
  (forall prev t, opt_word prev = true -> r prev t = None) ->
  all_chars is_word (String c s) = true ->
  r None (String c s) = None ->
  re_sub r (String c s) = String c s.
Proof.
  intros Hr Hall Hn. unfold re_sub. cbn [sub_scan]. rewrite Hn. f_equal.
  now apply word_start_rule_tail.
Qed.

Lemma word_start_rule_fires (r : rule) (c : ascii) (s replacement : string) :
  (forall prev t, opt_word prev = true -> r prev t = None) ->
  all_chars is_word (String c s) = true ->
  r None (String c s) = Some (1%nat, replacement) ->
  re_sub r (String c s) = (replacement ++ s)%string.
Proof.
  intros Hr Hall Hn. unfold re_sub. cbn [sub_scan]. rewrite Hn. f_equal.
  now apply word_start_rule_tail.
Qed.

Lemma whole_word_needs_start (word replacement : string)
      (prev : option ascii) (t : string) :
  opt_word prev = true -> whole_word word replacement prev t = None.
Proof. intros H. unfold whole_word, word_starts. now rewrite H. Qed.

Lemma leading_digit_needs_start (i : nat) (prev : option ascii) (t : string) :
  i = 4%nat \/ i = 5%nat -> opt_word prev = true -> correction i prev t = None.
Proof.
  intros Hi H. destruct t as [|c t]; [destruct Hi; subst; reflexivity|].
  destruct Hi; subst i.
  - change (correction 4 prev (String c t))
      with (if Ascii.eqb c "5" && word_starts prev
               && (2 <=? run is_word t)%nat
            then Some (1%nat, "S"%string) else None).
    unfold word_starts. rewrite H. now rewrite andb_false_r.
  - change (correction 5 prev (String c t))
      with (if Ascii.eqb c "8" && word_starts prev
               && (2 <=? run is_word t)%nat
            then Some (1%nat, "B"%string) else None).
    unfold word_starts. rewrite H. now rewrite andb_false_r.
Qed.

(** A text of word characters has nothing for the rules that look for
    white space or for a hyphen. *)
Lemma spacing_rules_idle (r : rule) (s : string) :
  (forall prev c t, is_word c = true -> all_chars is_word t = true ->
                    r prev (String c t) = None) ->
  all_chars is_word s = true -> re_sub r s = s.
Proof.
  intros Hr Hs. unfold re_sub.
  apply (sub_scan_id r (fun _ t => all_chars is_word t = true)); [|exact Hs].
  intros prev c t Ht. destruct (all_chars_tail _ _ _ Ht) as [Hc Ht'].
  split; [now apply Hr | exact Ht'].
Qed.

Lemma collapse_spaces_on_word (prev : option ascii) (c : ascii) (t : string) :
  is_word c = true -> correction 11 prev (String c t) = None.
Proof.
  intros Hc. rewrite collapse_spaces_unfold. cbn [run].
  now rewrite (is_word_not_space c Hc).
Qed.

Lemma newlines_on_word (prev : option ascii) (c : ascii) (t : string) :
  is_word c = true -> correction 12 prev (String c t) = None.
Proof.
  intros Hc.
  change (correction 12 prev (String c t))
    with (if (3 <=? run (fun c => (code c =? 10)%nat) (String c t))%nat
          then Some (run (fun c => (code c =? 10)%nat) (String c t),
                     String (ascii_of_nat 10)
                            (String (ascii_of_nat 10) EmptyString))
          else None).
  pose proof (run_newline_le (String c t)) as H. cbn [run] in H.
  rewrite (is_word_not_space c Hc) in H.
  destruct (3 <=? _)%nat eqn:E; [|reflexivity].
  apply Nat.leb_le in E. cbn [run] in E. lia.
Qed.

Lemma broken_word_on_word (prev : option ascii) (c : ascii) (t : string) :
  is_word c = true -> all_chars is_word t = true ->
  broken_word prev (String c t) = None.
Proof.
  intros Hc Ht. unfold broken_word.
  assert (Hall : all_chars is_word (String c t) = true)
    by (cbn; now rewrite Hc).
  rewrite (all_chars_run _ _ Hall), drop_all. reflexivity.
Qed.

(** The two rules that look for the letter O or the digit 0 between
    capitals find nothing in a text whose characters behind the first are
    digits, when the first one is neither. *)
Lemma digit_o_rule_idle (c : ascii) (ds : string) :
  Ascii.eqb c "O" = false -> all_chars is_digit ds = true ->
  re_sub (correction 2) (String c ds) = String c ds.
Proof.
  intros Hc Hds. unfold re_sub.
  apply (sub_scan_id (correction 2)
           (fun _ t => match t with
                       | String a t' =>
                           Ascii.eqb a "O" = false
                           /\ all_chars is_digit t' = true
                       | EmptyString => True
                       end)); [|now split].
  intros prev a t [Ha Ht]. split.
  - change (correction 2 prev (String a t))
      with (if Ascii.eqb a "O"
               && match prev with Some d => is_digit d | None => false end
               && word_ends t
            then Some (1%nat, "0"%string) else None).
    now rewrite Ha.
  - destruct t as [|b t]; [exact I|].
    destruct (all_chars_tail _ _ _ Ht) as [Hb Ht']. split; [|exact Ht'].
    destruct (Ascii.eqb b "O") eqn:E; [|reflexivity].
    apply Ascii.eqb_eq in E. subst b. discriminate.
Qed.

Lemma zero_rule_idle (c : ascii) (ds : string) :
  Ascii.eqb c "0" = false -> all_chars is_digit ds = true ->
  re_sub (correction 3) (String c ds) = String c ds.
Proof.
  intros Hc Hds. unfold re_sub.
  assert (Hstep : forall prev a t,
             all_chars is_digit t = true ->
             (Ascii.eqb a "0" = false
              \/ match prev with Some d => is_upper d | None => false end
                 = false
              \/ True) ->
             match head t with Some d => is_upper d | None => false end
             = false \/ Ascii.eqb a "0" = false ->
             correction 3 prev (String a t) = None).
  { intros prev a t _ _ H.
    change (correction 3 prev (String a t))
      with (if Ascii.eqb a "0"
               && match prev with Some d => is_upper d | None => false end
               && match head t with Some d => is_upper d | None => false end
            then Some (1%nat, "O"%string) else None).
    destruct H as [H|H]; rewrite H; [now rewrite andb_false_r | reflexivity]. }
  assert (Hhead : forall t, all_chars is_digit t = true ->
                            match head t with
                            | Some d => is_upper d
                            | None => false
                            end = false).
  { intros [|d t] Ht; [reflexivity|]. cbn [head].
    destruct (all_chars_tail _ _ _ Ht) as [Hd _].
    revert Hd. unfold is_digit, is_upper, in_range.
    destruct (48 <=? code d)%nat eqn:E1; [|discriminate].
    destruct (code d <=? 57)%nat eqn:E2; [|discriminate].
    intros _. apply Nat.leb_le in E2.
    destruct (65 <=? code d)%nat eqn:E3; [|reflexivity].
    apply Nat.leb_le in E3. lia. }
  cbn [sub_scan]. rewrite Hstep; [|exact Hds | now left | now right].
  f_equal.
  apply (sub_scan_id (correction 3)
           (fun _ t => all_chars is_digit t = true)); [|exact Hds].
  intros prev a t Ht. destruct (all_chars_tail _ _ _ Ht) as [Ha Ht'].
  split; [|exact Ht'].
  apply Hstep; [exact Ht' | now right; right | left; now apply Hhead].
Qed.

Lemma digits_are_words (ds : string) :
  all_chars is_digit ds = true -> all_chars is_word ds = true.
Proof. apply all_chars_impl. exact is_digit_word. Qed.

Lemma digits_have_no_lower (ds : string) :
  all_chars is_digit ds = true -> has_lower ds = false.
Proof.
  induction ds as [|d ds IH]; [reflexivity|]. intros H.
  destruct (all_chars_tail _ _ _ H) as [Hd Hds]. cbn [has_lower].
  rewrite (IH Hds).
  revert Hd. unfold is_digit, is_lower, in_range.
  destruct (48 <=? code d)%nat eqn:E1; [|discriminate].
  destruct (code d <=? 57)%nat eqn:E2; [|discriminate].
  intros _. apply Nat.leb_le in E2.
  destruct (97 <=? code d)%nat eqn:E3; [|reflexivity].
  apply Nat.leb_le in E3. lia.
Qed.

Lemma words_end_clean (s : string) :
  s <> EmptyString -> all_chars is_word s = true -> ends_clean s = true.
Proof.
  induction s as [|c s IH]; [congruence|]. intros _ H.
  destruct (all_chars_tail _ _ _ H) as [Hc Hs]. cbn [ends_clean].
  destruct s as [|d s].
  - now rewrite (is_word_not_space c Hc).
  - apply IH; [discriminate | exact Hs].
Qed.

Lemma clean_text_steps (c : ascii) (t : string) :
  _clean_text (String c t)
  = strip
      (_fix_capitalization
         (re_sub broken_word
            (fold_left (fun t i => re_sub (correction i) t) (seq 0 13)
                       (String c t)))).
Proof. reflexivity. Qed.

(** The text as it is after the corrections, for a first character [c1]
    that the rule with index [i] turns into the capital [c2]. *)
Lemma number_is_relabelled (i : nat) (c1 c2 : ascii) (ds : string) :
  (i = 4%nat /\ c1 = "5"%char /\ c2 = "S"%char)
  \/ (i = 5%nat /\ c1 = "8"%char /\ c2 = "B"%char) ->
  all_chars is_digit ds = true -> (2 <= String.length ds)%nat ->
  _clean_text (String c1 ds) = String c2 ds.
Proof.
  intros Hi Hds Hlen.
  pose proof (digits_are_words ds Hds) as Hw.
  assert (Hrun : (2 <=? run is_word ds)%nat = true).
  { rewrite (all_chars_run _ _ Hw). now apply Nat.leb_le. }
  assert (H1 : is_word c1 = true) by (destruct Hi as [[_ [-> _]]|[_ [-> _]]];
                                      reflexivity).
  assert (H2 : is_word c2 = true) by (destruct Hi as [[_ [_ ->]]|[_ [_ ->]]];
                                      reflexivity).
  assert (Hall1 : all_chars is_word (String c1 ds) = true)
    by (cbn [all_chars]; now rewrite H1).
  assert (Hall2 : all_chars is_word (String c2 ds) = true)
    by (cbn [all_chars]; now rewrite H2).
  rewrite clean_text_steps. cbn [fold_left seq].
  (* nothing to correct in a number *)
  rewrite (word_start_rule_idle (correction 0) c1 ds
             (whole_word_needs_start "l" "I") Hall1)
    by (destruct Hi as [[_ [-> _]]|[_ [-> _]]]; reflexivity).
  rewrite letter_o_rule_idle.
  rewrite digit_o_rule_idle
    by (first [exact Hds | destruct Hi as [[_ [-> _]]|[_ [-> _]]];
                           reflexivity]).
  rewrite zero_rule_idle
    by (first [exact Hds | destruct Hi as [[_ [-> _]]|[_ [-> _]]];
                           reflexivity]).
  (* the digit becomes a letter *)
  assert (Hrelabel :
            re_sub (correction 5) (re_sub (correction 4) (String c1 ds))
            = String c2 ds).
  { destruct Hi as [[_ [-> ->]]|[_ [-> ->]]].
    - rewrite (word_start_rule_fires (correction 4) "5" ds "S"
                 (fun prev t => leading_digit_needs_start 4 prev t
                                  (or_introl eq_refl)) Hall1).
      + apply (word_start_rule_idle (correction 5) "S" ds
                 (fun prev t => leading_digit_needs_start 5 prev t
                                  (or_intror eq_refl)) Hall2).
        reflexivity.
      + change (correction 4 None (String "5" ds))
          with (if (2 <=? run is_word ds)%nat
                then Some (1%nat, "S"%string) else None).
        now rewrite Hrun.
    - rewrite (word_start_rule_idle (correction 4) "8" ds
                 (fun prev t => leading_digit_needs_start 4 prev t
                                  (or_introl eq_refl)) Hall1)
        by reflexivity.
      apply (word_start_rule_fires (correction 5) "8" ds "B"
               (fun prev t => leading_digit_needs_start 5 prev t
                                (or_intror eq_refl)) Hall1).
      change (correction 5 None (String "8" ds))
        with (if (2 <=? run is_word ds)%nat
              then Some (1%nat, "B"%string) else None).
      now rewrite Hrun. }
  rewrite Hrelabel.
  (* no misread word, no white space, no hyphen *)
  rewrite (word_start_rule_idle (correction 6) c2 ds
             (whole_word_needs_start "wa5" "was") Hall2)
    by (destruct Hi as [[_ [_ ->]]|[_ [_ ->]]]; reflexivity).
  rewrite (word_start_rule_idle (correction 7) c2 ds
             (whole_word_needs_start "h4s" "has") Hall2)
    by (destruct Hi as [[_ [_ ->]]|[_ [_ ->]]]; reflexivity).
  rewrite (word_start_rule_idle (correction 8) c2 ds
             (whole_word_needs_start "4nd" "and") Hall2)
    by (destruct Hi as [[_ [_ ->]]|[_ [_ ->]]]; reflexivity).
  rewrite (word_start_rule_idle (correction 9) c2 ds
             (whole_word_needs_start "th3" "the") Hall2)
    by (destruct Hi as [[_ [_ ->]]|[_ [_ ->]]]; reflexivity).
  rewrite (word_start_rule_idle (correction 10) c2 ds
             (whole_word_needs_start "c4n" "can") Hall2)
    by (destruct Hi as [[_ [_ ->]]|[_ [_ ->]]]; reflexivity).
  rewrite (spacing_rules_idle (correction 11) _
             (fun prev c t Hc _ => collapse_spaces_on_word prev c t Hc)
             Hall2).
  rewrite (spacing_rules_idle (correction 12) _
             (fun prev c t Hc _ => newlines_on_word prev c t Hc) Hall2).
  rewrite (spacing_rules_idle broken_word _ broken_word_on_word Hall2).
  (* capitals and digits only *)
  assert (Hup : isupper (String c2 ds) = true).
  { unfold isupper. cbn [has_lower has_upper].
    rewrite (digits_have_no_lower ds Hds).
    destruct Hi as [[_ [_ ->]]|[_ [_ ->]]]; reflexivity. }
  unfold _fix_capitalization. rewrite Hup.
  apply strip_clean.
  - cbn [starts_clean]. now rewrite (is_word_not_space c2 H2).
  - apply words_end_clean; [discriminate | exact Hall2].
Qed.

(** X26.  A number of three or more digits that starts with 5 or with 8
    does not survive the cleaning: [_clean_text] returns it with the
    letter S, resp. B, in place of its first digit. *)
Theorem leading_five_or_eight_becomes_letter (ds : string) :
  all_chars is_digit ds = true -> (2 <= String.length ds)%nat ->
  _clean_text (String "5" ds) = String "S" ds
  /\ _clean_text (String "8" ds) = String "B" ds.
Proof.
  intros Hds Hlen. split.
  - apply (number_is_relabelled 4); auto.
  - apply (number_is_relabelled 5); auto.
Qed.

End DigitCorruption.

Section CleaningWitnesses.
Import PyStr PostProcessor.

Lemma leading_five_or_eight_becomes_letter_witness :
  _clean_text "5557" = "S557"%string /\ _clean_text "8557" = "B557"%string.
Proof.
  apply (leading_five_or_eight_becomes_letter "557").
  - reflexivity.
  - cbn. lia.
Defined.

End CleaningWitnesses.

(* ===================================================================== *)
(** * The post-processor: completeness and scores *)

Section CompletenessProperties.
Import PyStr PostProcessor.
Local Open Scope Q_scope.

Lemma overall_value (d : data) :
  get_score (_calculate_quality_scores d) "overall"
  == 0.25 * name_score d + 0.15 * contact_score d
     + 0.25 * section_score d "EMPLOYMENT"
     + 0.20 * section_score d "EDUCATION"
     + 0.10 * section_score d "SKILLS"
     + 0.05 * section_score d "SUMMARY".
Proof.
  rewrite quality_scores_shape. cbv zeta. unfold get_score at 1.
  rewrite lookup_insert_eq. cbn [default from_option id].
  unfold weighted_sum, weights, get_score. cbn [fold_left].
  repeat (rewrite ?lookup_insert_eq; rewrite ?lookup_insert_ne by done).
  cbn [default from_option id]. ring.
Qed.

Lemma name_score_bound (d : data) :
  0 <= name_score d <= 0.95
  /\ (truthy (get_str (default ∅ (candidate_info d)) "name") = false ->
      name_score d == 0).
Proof.
  unfold name_score.
  destruct (truthy (get_str (default ∅ (candidate_info d)) "name")).
  - repeat match goal with |- context [if ?c then _ else _] => destruct c end;
      (split; [split; lra | discriminate]).
  - split; [split; lra | reflexivity].
Qed.

Lemma section_score_bound (d : data) (section_name : string) :
  0 <= section_score d section_name <= 0.9
  /\ (truthy (get_str (default ∅ (sections d)) section_name) = false ->
      section_score d section_name == 0).
Proof.
  unfold section_score.
  destruct (truthy (get_str (default ∅ (sections d)) section_name)).
  - repeat match goal with |- context [if ?c then _ else _] => destruct c end;
      (split; [split; lra | discriminate]).
  - split; [split; lra | reflexivity].
Qed.

Lemma contact_score_zero (d : data) :
  contact_count d = 0%nat -> contact_score d == 0.
Proof. intros H. unfold contact_score. rewrite H. reflexivity. Qed.

(** X27.  A high overall score needs the name, the employment and the
    education section and a contact: whenever [overall] is at least 0.78,
    and so whenever the report says high quality (0.8), the completeness
    check finds [name], [employment] and [education], and one of email,
    phone and LinkedIn is present.  The required fields may still be
    incomplete: with a LinkedIn address as the only contact [overall]
    exceeds 0.85 while [required_fields_present] is false. *)
Theorem high_score_needs_required_fields (d : data) :
  0.78 <= get_score (_calculate_quality_scores d) "overall" ->
  has_name (_validate_completeness d) = true
  /\ has_employment (_validate_completeness d) = true
  /\ has_education (_validate_completeness d) = true
  /\ (1 <= contact_count d)%nat
  /\ 0.85 <= get_score (_calculate_quality_scores linkedin_only) "overall"
  /\ required_fields_present (_validate_completeness linkedin_only) = false.
Proof.
  rewrite overall_value. intros H.
  destruct (name_score_bound d) as [Hn Hn0].
  pose proof (contact_score_in_unit d) as Hc. unfold in_unit in Hc.
  destruct (section_score_bound d "EMPLOYMENT") as [He He0].
  destruct (section_score_bound d "EDUCATION") as [Hd Hd0].
  destruct (section_score_bound d "SKILLS") as [Hk _].
  destruct (section_score_bound d "SUMMARY") as [Hs _].
  cbn [_validate_completeness has_name has_employment has_education].
  split; [|split; [|split; [|split; [|split]]]].
  - destruct (truthy _) eqn:E; [reflexivity|]. specialize (Hn0 eq_refl).
    exfalso. lra.
  - destruct (truthy (get_str (default ∅ (sections d)) "EMPLOYMENT")) eqn:E;
      [reflexivity|]. specialize (He0 eq_refl). exfalso. lra.
  - destruct (truthy (get_str (default ∅ (sections d)) "EDUCATION")) eqn:E;
      [reflexivity|]. specialize (Hd0 eq_refl). exfalso. lra.
  - destruct (contact_count d) eqn:E; [|lia].
    pose proof (contact_score_zero d E) as Hz. exfalso. lra.
  - vm_compute. discriminate.
  - vm_compute. reflexivity.
Qed.

(** X28.  In [process_resume] the post-processor is given the dictionary of
    [map_to_template], which has no key [candidate_info]: whatever the
    header extractor found, the cleaned data hold no candidate information,
    the completeness check finds no name, no email, no phone and reports
    the required fields as missing, the name and contact scores are 0, and
    [overall] is at most 0.54, below the bound 0.6 of low quality. *)
Theorem pipeline_scores_without_candidate_info (e : TemplateMapper.extracted_data) :
  candidate_info (scored_data e) = None
  /\ has_name (_validate_completeness (scored_data e)) = false
  /\ has_email (_validate_completeness (scored_data e)) = false
  /\ has_phone (_validate_completeness (scored_data e)) = false
  /\ required_fields_present (_validate_completeness (scored_data e)) = false
  /\ get_score (_calculate_quality_scores (scored_data e)) "name" == 0
  /\ get_score (_calculate_quality_scores (scored_data e)) "contact" == 0
  /\ get_score (_calculate_quality_scores (scored_data e)) "overall" <= 0.54.
Proof.
  assert (Hci : candidate_info (scored_data e) = None) by reflexivity.
  assert (Hname : name_score (scored_data e) == 0).
  { apply name_score_bound. unfold get_str. rewrite Hci. reflexivity. }
  assert (Hcontact : contact_score (scored_data e) == 0).
  { apply contact_score_zero. unfold contact_count. rewrite Hci.
    reflexivity. }
  split; [exact Hci|].
  unfold _validate_completeness. rewrite Hci.
  cbn [has_name has_email has_phone required_fields_present].
  repeat (split; [reflexivity|]).
  rewrite overall_value, Hname, Hcontact.
  destruct (section_score_bound (scored_data e) "EMPLOYMENT") as [He _].
  destruct (section_score_bound (scored_data e) "EDUCATION") as [Hd _].
  destruct (section_score_bound (scored_data e) "SKILLS") as [Hk _].
  destruct (section_score_bound (scored_data e) "SUMMARY") as [Hs _].
  lra.
Qed.

End CompletenessProperties.

Section CompletenessWitnesses.
Import PyStr PostProcessor.
Local Open Scope Q_scope.

Lemma high_score_needs_required_fields_witness :
  has_name (_validate_completeness linkedin_only) = true
  /\ has_employment (_validate_completeness linkedin_only) = true
  /\ has_education (_validate_completeness linkedin_only) = true
  /\ (1 <= contact_count linkedin_only)%nat
  /\ 0.85 <= get_score (_calculate_quality_scores linkedin_only) "overall"
  /\ required_fields_present (_validate_completeness linkedin_only) = false.
Proof.
  apply (high_score_needs_required_fields linkedin_only).
  vm_compute. discriminate.
Defined.

End CompletenessWitnesses.

(* ===================================================================== *)
(** * The header extractor: phone numbers *)

Section AppendFacts.

Lemma string_app_assoc (a b c : string) :
  ((a ++ b) ++ c = a ++ (b ++ c))%string.
Proof.
  induction a as [|x a IH]; [reflexivity|].
  change (String x ((a ++ b) ++ c) = String x (a ++ (b ++ c)))%string.
  rewrite IH. reflexivity.
Qed.

Lemma string_app_length (a b : string) :
  String.length (a ++ b) = (String.length a + String.length b)%nat.
Proof.
  induction a as [|x a IH]; [reflexivity|].
  change (S (String.length (a ++ b))
          = S (String.length a + String.length b))%nat.
  rewrite IH. reflexivity.
Qed.

End AppendFacts.

Section MatcherSoundness.
Import PyStr HeaderExtractor.
Context {A : Type}.

Lemma greedy_cls_sound (p : ascii -> bool)
      (k : option ascii -> string -> option A) (s : string) :
  forall prev x,
    greedy_cls p k prev s = Some x ->
    exists w rest prev',
      s = (w ++ rest)%string /\ all_chars p w = true
      /\ k prev' rest = Some x.
Proof.
  induction s as [|c s IH]; intros prev x H; cbn [greedy_cls] in H.
  - exists EmptyString, EmptyString, prev. auto.
  - destruct (p c) eqn:Ep.
    + destruct (greedy_cls p k (Some c) s) as [y|] eqn:Eg.
      * injection H as <-.
        destruct (IH _ _ Eg) as (w & rest & prev' & -> & Hw & Hk).
        exists (String c w), rest, prev'. cbn [all_chars]. rewrite Ep. auto.
      * exists EmptyString, (String c s), prev. auto.
    + exists EmptyString, (String c s), prev. auto.
Qed.

Lemma rfind_sound (r : regex) :
  forall (k : option ascii -> string -> option A) prev s x,
    rfind r k prev s = Some x ->
    exists w rest prev',
      s = (w ++ rest)%string /\ denotes r w /\ k prev' rest = Some x.
Proof.
  induction r as [|c|p|r1 IH1 r2 IH2|r1 IH1 r2 IH2|p|];
    intros k prev s x H; cbn [rfind] in H.
  - exists EmptyString, s, prev. cbn. auto.
  - destruct s as [|d s]; [discriminate|].
    destruct (Ascii.eqb c d) eqn:E; [|discriminate].
    apply Ascii.eqb_eq in E. subst d.
    exists (String c EmptyString), s, (Some c). cbn. auto.
  - destruct s as [|d s]; [discriminate|].
    destruct (p d) eqn:E; [|discriminate].
    exists (String d EmptyString), s, (Some d). cbn. eauto.
  - destruct (IH1 _ _ _ _ H) as (w1 & rest1 & prev1 & -> & H1 & Hk1).
    destruct (IH2 _ _ _ _ Hk1) as (w2 & rest & prev' & -> & H2 & Hk).
    exists (w1 ++ w2)%string, rest, prev'. split; [|split].
    + symmetry. apply string_app_assoc.
    + cbn. eauto.
    + exact Hk.
  - destruct (rfind r1 k prev s) as [y|] eqn:E1.
    + injection H as <-.
      destruct (IH1 _ _ _ _ E1) as (w & rest & prev' & -> & H1 & Hk).
      exists w, rest, prev'. cbn. auto.
    + destruct (IH2 _ _ _ _ H) as (w & rest & prev' & -> & H2 & Hk).
      exists w, rest, prev'. cbn. auto.
  - destruct (greedy_cls_sound _ _ _ _ _ H) as (w & rest & prev' & -> & Hw & Hk).
    exists w, rest, prev'. cbn. auto.
  - destruct (at_boundary prev s); [|discriminate].
    exists EmptyString, s, prev. cbn. auto.
Qed.

End MatcherSoundness.

Section PhoneShapes.
Import PyStr HeaderExtractor.

Lemma take_app_length (w rest : string) :
  take (String.length (w ++ rest) - String.length rest) (w ++ rest) = w.
Proof.
  assert (E : (String.length (w ++ rest) - String.length rest
               = String.length w)%nat).
  { rewrite string_app_length. lia. }
  rewrite E. clear E.
  induction w as [|c w IH]; cbn.
  - destruct rest; reflexivity.
  - change ((String c w ++ rest)%string) with (String c (w ++ rest)).
    cbn. f_equal. exact IH.
Qed.

Lemma matched_text_denoted (r : regex) (prev : option ascii)
      (s rest : string) :
  rfind r (fun _ rest => Some rest) prev s = Some rest ->
  denotes r (take (String.length s - String.length rest) s).
Proof.
  intros E.
  destruct (rfind_sound _ _ _ _ _ E) as (w & rest' & _ & -> & Hw & Hk).
  injection Hk as <-. rewrite take_app_length. exact Hw.
Qed.

Lemma group_from_sound (r : regex) (s : string) :
  forall prev m, group_from r prev s = Some m -> denotes r m.
Proof.
  induction s as [|c s IH]; intros prev m H; cbn [group_from] in H.
  - destruct (rfind r (fun _ rest => Some rest) prev EmptyString)
      as [rest|] eqn:E; [|discriminate].
    injection H as <-. exact (matched_text_denoted _ _ _ _ E).
  - destruct (rfind r (fun _ rest => Some rest) prev (String c s))
      as [rest|] eqn:E.
    + injection H as <-. exact (matched_text_denoted _ _ _ _ E).
    + exact (IH _ _ H).
Qed.

Lemma non_digit_scan (s : string) :
  forall prev, sub_scan non_digit 0 prev s = keep_digits s.
Proof.
  induction s as [|c s IH]; intros prev; [reflexivity|].
  cbn [sub_scan non_digit keep_digits].
  destruct (is_digit c).
  - rewrite IH. reflexivity.
  - rewrite IH. reflexivity.
Qed.

Lemma keep_digits_app (a b : string) :
  keep_digits (a ++ b) = (keep_digits a ++ keep_digits b)%string.
Proof.
  induction a as [|c a IH]; [reflexivity|].
  change ((String c a ++ b)%string) with (String c (a ++ b)).
  cbn [keep_digits]. destruct (is_digit c); rewrite IH; reflexivity.
Qed.

Lemma keep_digits_none (p : ascii -> bool) (w : string) :
  (forall c, p c = true -> is_digit c = false) ->
  all_chars p w = true -> keep_digits w = EmptyString.
Proof.
  intros Hp. induction w as [|c w IH]; [reflexivity|].
  cbn [all_chars keep_digits]. destruct (p c) eqn:E; [|discriminate].
  rewrite (Hp _ E). exact IH.
Qed.

Lemma keep_digits_all (w : string) :
  all_chars is_digit w = true -> keep_digits w = w.
Proof.
  induction w as [|c w IH]; [reflexivity|].
  cbn [all_chars keep_digits]. destruct (is_digit c); [|discriminate].
  intros H. rewrite (IH H). reflexivity.
Qed.

Lemma space_is_no_digit (c : ascii) : is_space c = true -> is_digit c = false.
Proof.
  unfold is_space, is_digit, in_range. generalize (code c). intros n H.
  destruct (48 <=? n)%nat eqn:E1; [|reflexivity].
  destruct (n <=? 57)%nat eqn:E2; [|reflexivity].
  apply Nat.leb_le in E1. apply Nat.leb_le in E2.
  assert (F1 : (n <=? 13)%nat = false) by (apply Nat.leb_gt; lia).
  assert (F2 : (n <=? 31)%nat = false) by (apply Nat.leb_gt; lia).
  assert (F3 : (n =? 32)%nat = false) by (apply Nat.eqb_neq; lia).
  rewrite F1, F2, F3, !andb_false_r in H. discriminate.
Qed.

Lemma separator_is_no_digit (c : ascii) :
  phone_separator c = true -> is_digit c = false.
Proof.
  unfold phone_separator. intros H.
  destruct (is_space c) eqn:Es; [exact (space_is_no_digit _ Es)|].
  cbn [orb] in H. unfold is_digit, in_range.
  apply orb_true_iff in H. destruct H as [H|H]; apply Nat.eqb_eq in H;
    rewrite H; reflexivity.
Qed.

Lemma optional_symbol (c : ascii) (w : string) :
  is_digit c = false -> denotes (opt (Chr c)) w ->
  keep_digits w = EmptyString.
Proof.
  intros Hc [->| ->]; cbn [keep_digits]; [rewrite Hc|]; reflexivity.
Qed.

Lemma optional_one (w : string) :
  denotes (opt (Chr "1")) w -> keep_digits w = EmptyString \/ keep_digits w = "1".
Proof. intros [->| ->]; [right | left]; reflexivity. Qed.

Lemma spaces_have_no_digit (w : string) :
  denotes (StarCls is_space) w -> keep_digits w = EmptyString.
Proof. exact (keep_digits_none _ _ space_is_no_digit). Qed.

Lemma separator_has_no_digit (w : string) :
  denotes (Cls phone_separator) w -> keep_digits w = EmptyString.
Proof.
  intros (c & Hc & ->). cbn [keep_digits].
  rewrite (separator_is_no_digit _ Hc). reflexivity.
Qed.

Lemma optional_separator (w : string) :
  denotes (opt (Cls phone_separator)) w -> keep_digits w = EmptyString.
Proof.
  intros [H| ->]; [exact (separator_has_no_digit _ H) | reflexivity].
Qed.

Lemma three_digits (w : string) : denotes (digits 3) w -> digit_string 3 w.
Proof.
  intros (w1 & w' & -> & (c1 & H1 & ->) & (w2 & w3 & -> & (c2 & H2 & ->)
          & (c3 & H3 & ->))).
  split; [reflexivity|]. cbv -[is_digit]. rewrite H1, H2, H3. reflexivity.
Qed.

Lemma four_digits (w : string) : denotes (digits 4) w -> digit_string 4 w.
Proof.
  intros (w1 & w' & -> & (c1 & H1 & ->) & (w2 & w'' & -> & (c2 & H2 & ->)
          & (w3 & w4 & -> & (c3 & H3 & ->) & (c4 & H4 & ->)))).
  split; [reflexivity|]. cbv -[is_digit]. rewrite H1, H2, H3, H4. reflexivity.
Qed.

Lemma digit_string_kept (n : nat) (w : string) :
  digit_string n w -> keep_digits w = w.
Proof. intros [_ H]. exact (keep_digits_all _ H). Qed.

(** The digits of what a phone pattern matches: ten, or the digit 1 and
    ten more. *)
Lemma phone_pattern_digits (pattern : regex) (w : string) :
  In pattern phone_patterns -> denotes pattern w ->
  exists country area exchange line,
    (country = EmptyString \/ country = "1")
    /\ digit_string 3 area /\ digit_string 3 exchange /\ digit_string 4 line
    /\ keep_digits w = (country ++ area ++ exchange ++ line)%string.
Proof.
  intros [<-|[<-|[<-|[]]]] H.
  - destruct H as (w1 & ? & -> & H1 & w2 & ? & -> & H2 & w3 & ? & -> & H3
                   & w4 & ? & -> & H4 & w5 & ? & -> & H5 & w6 & ? & -> & H6
                   & w7 & ? & -> & H7 & w8 & ? & -> & H8 & w9 & w10 & -> & H9
                   & H10).
    exists (keep_digits w2), w5, w8, w10.
    apply three_digits in H5. apply three_digits in H8.
    apply four_digits in H10.
    split; [|split; [exact H5|split; [exact H8|split; [exact H10|]]]].
    + destruct (optional_one _ H2) as [E|E]; rewrite E; auto.
    + rewrite !keep_digits_app.
      rewrite (optional_symbol "+"%char _ eq_refl H1),
        (spaces_have_no_digit _ H3),
        (optional_symbol "("%char _ eq_refl H4),
        (optional_symbol ")"%char _ eq_refl H6),
        (optional_separator _ H7), (optional_separator _ H9),
        (digit_string_kept _ _ H5), (digit_string_kept _ _ H8),
        (digit_string_kept _ _ H10).
      reflexivity.
  - destruct H as (w1 & ? & -> & H1 & w2 & ? & -> & H2 & w3 & ? & -> & H3
                   & w4 & w5 & -> & H4 & H5).
    exists EmptyString, w1, w3, w5.
    apply three_digits in H1. apply three_digits in H3.
    apply four_digits in H5.
    split; [auto|split; [exact H1|split; [exact H3|split; [exact H5|]]]].
    rewrite !keep_digits_app.
    rewrite (separator_has_no_digit _ H2), (separator_has_no_digit _ H4),
      (digit_string_kept _ _ H1), (digit_string_kept _ _ H3),
      (digit_string_kept _ _ H5).
    reflexivity.
  - destruct H as (w1 & ? & -> & H1 & w2 & ? & -> & H2 & w3 & ? & -> & H3
                   & w4 & ? & -> & H4 & w5 & ? & -> & H5 & w6 & w7 & -> & H6
                   & H7).
    exists EmptyString, w2, w5, w7.
    apply three_digits in H2. apply three_digits in H5.
    apply four_digits in H7.
    split; [auto|split; [exact H2|split; [exact H5|split; [exact H7|]]]].
    rewrite !keep_digits_app. cbn in H1, H3. subst w1 w3.
    rewrite (spaces_have_no_digit _ H4), (separator_has_no_digit _ H6),
      (digit_string_kept _ _ H2), (digit_string_kept _ _ H5),
      (digit_string_kept _ _ H7).
    reflexivity.
Qed.

Lemma normalize_phone_digits (phone country area exchange line : string) :
  (country = EmptyString \/ country = "1") ->
  digit_string 3 area -> digit_string 3 exchange -> digit_string 4 line ->
  keep_digits phone = (country ++ area ++ exchange ++ line)%string ->
  _normalize_phone phone
  = if String.eqb country EmptyString then national area exchange line
    else ("+1 " ++ national area exchange line)%string.
Proof.
  intros Hc [La _] [Lb _] [Ll _] E.
  unfold _normalize_phone, re_sub. rewrite non_digit_scan, E.
  destruct area as [|a1 [|a2 [|a3 [|]]]]; try discriminate La.
  destruct exchange as [|b1 [|b2 [|b3 [|]]]]; try discriminate Lb.
  destruct line as [|c1 [|c2 [|c3 [|c4 [|]]]]]; try discriminate Ll.
  destruct Hc as [->| ->]; reflexivity.
Qed.

Lemma normalize_phone_fixed (country area exchange line : string) :
  (country = EmptyString \/ country = "1") ->
  digit_string 3 area -> digit_string 3 exchange -> digit_string 4 line ->
  let phone := if String.eqb country EmptyString
               then national area exchange line
               else ("+1 " ++ national area exchange line)%string in
  _normalize_phone phone = phone.
Proof.
  intros Hc Ha Hb Hl phone.
  rewrite (normalize_phone_digits phone country area exchange line Hc Ha Hb Hl);
    [reflexivity|].
  subst phone. destruct Ha as [La Da], Hb as [Lb Db], Hl as [Ll Dl].
  destruct area as [|a1 [|a2 [|a3 [|]]]]; try discriminate La.
  destruct exchange as [|b1 [|b2 [|b3 [|]]]]; try discriminate Lb.
  destruct line as [|c1 [|c2 [|c3 [|c4 [|]]]]]; try discriminate Ll.
  cbn [all_chars] in Da, Db, Dl.
  destruct (is_digit a1) eqn:A1; [|discriminate].
  destruct (is_digit a2) eqn:A2; [|discriminate].
  destruct (is_digit a3) eqn:A3; [|discriminate].
  destruct (is_digit b1) eqn:B1; [|discriminate].
  destruct (is_digit b2) eqn:B2; [|discriminate].
  destruct (is_digit b3) eqn:B3; [|discriminate].
  destruct (is_digit c1) eqn:C1; [|discriminate].
  destruct (is_digit c2) eqn:C2; [|discriminate].
  destruct (is_digit c3) eqn:C3; [|discriminate].
  destruct (is_digit c4) eqn:C4; [|discriminate].
  destruct Hc as [->| ->]; cbv -[is_digit];
    rewrite ?A1, ?A2, ?A3, ?B1, ?B2, ?B3, ?C1, ?C2, ?C3, ?C4; reflexivity.
Qed.

Lemma first_phone_found (patterns : list regex) (text phone : string) :
  first_phone patterns text = Some phone ->
  exists pattern m,
    In pattern patterns /\ search_group pattern text = Some m
    /\ phone = _normalize_phone m.
Proof.
  induction patterns as [|p ps IH]; [discriminate|].
  cbn [first_phone]. destruct (search_group p text) as [m|] eqn:E.
  - intros H. injection H as <-. exists p, m. cbn. auto.
  - intros H. destruct (IH H) as (q & m & Hq & Hm & Hp).
    exists q, m. cbn. auto.
Qed.

(** X29.  Every phone number [_extract_phone] returns is in one of two
    forms, [(ddd) ddd-dddd] or [+1 (ddd) ddd-dddd], whatever the header
    text is: each of the three patterns matches ten digits, or the digit 1
    and ten more, so [_normalize_phone] never returns the matched text as
    it is.  Normalising such a number again changes nothing. *)
Theorem extract_phone_is_canonical (text phone : string) :
  _extract_phone text = Some phone ->
  exists area exchange line,
    digit_string 3 area /\ digit_string 3 exchange /\ digit_string 4 line
    /\ (phone = national area exchange line
        \/ phone = ("+1 " ++ national area exchange line)%string)
    /\ _normalize_phone phone = phone.
Proof.
  intros H. unfold _extract_phone in H.
  destruct (first_phone_found _ _ _ H) as (p & m & Hp & Hm & ->).
  apply group_from_sound in Hm.
  destruct (phone_pattern_digits _ _ Hp Hm)
    as (country & area & exchange & line & Hc & Ha & Hb & Hl & E).
  exists area, exchange, line.
  rewrite (normalize_phone_digits _ _ _ _ _ Hc Ha Hb Hl E).
  split; [exact Ha|]. split; [exact Hb|]. split; [exact Hl|]. split.
  - destruct Hc as [->| ->]; [left | right]; reflexivity.
  - exact (normalize_phone_fixed _ _ _ _ Hc Ha Hb Hl).
Qed.

End PhoneShapes.

Section PhoneWitnesses.
Import PyStr HeaderExtractor.

Lemma extract_phone_is_canonical_witness :
  _extract_phone dotted_number = Some "(555) 123-4567"
  /\ exists area exchange line,
       digit_string 3 area /\ digit_string 3 exchange /\ digit_string 4 line
       /\ ("(555) 123-4567" = national area exchange line
           \/ "(555) 123-4567" = ("+1 " ++ national area exchange line)%string)
       /\ _normalize_phone "(555) 123-4567" = "(555) 123-4567".
Proof.
  split; [reflexivity|].
  apply (extract_phone_is_canonical dotted_number). reflexivity.
Defined.

End PhoneWitnesses.

(* ===================================================================== *)
(** * The orchestrator: [quick_extract] *)

Section QuickExtractProperties.
Import PyStr PyDict AdvancedResumeOCR.

(** X30.  [quick_extract] hides a failed run: whenever the [try] body of
    [process_resume] raises, whatever the exception is, [quick_extract]
    returns empty strings for name, email and phone, no section and quality
    0, with no key [success] or [error]; the caller cannot tell a failure
    from a page on which nothing was found. *)
Theorem quick_extract_hides_failure (self : processor) (image_path : source)
        (start_time end_time : Q) (e : exn) :
  pipeline (with_verbose false self) image_path None start_time end_time
  = Raised e ->
  quick_extract self image_path start_time end_time = Ok blank_extract
  /\ field blank_extract "success" = None
  /\ field blank_extract "error" = None.
Proof.
  intros H. split; [|split; reflexivity].
  unfold quick_extract, process_resume_image.
  rewrite (process_resume_of_raise (with_verbose false self) _ _ _ _ _
             eq_refl H).
  reflexivity.
Qed.

Lemma quick_extract_hides_failure_witness :
  quick_extract failing_processor (Path "resume.png") 0 1 = Ok blank_extract
  /\ field blank_extract "success" = None
  /\ field blank_extract "error" = None.
Proof.
  apply (quick_extract_hides_failure failing_processor (Path "resume.png") 0 1
           {| exn_class := "OSError";
              exn_str := "cannot identify image file" |}).
  reflexivity.
Defined.

End QuickExtractProperties.

(* ===================================================================== *)
(** * Worked examples *)
(* ===================================================================== *)

Section ValidatorExamples.
Import PyStr PyNum PyDict Spacy ContentValidator.

(** A degree line filed under EMPLOYMENT is relocated to EDUCATION. *)
Example degree_block_is_relocated :
  validate_sections None
    [("EMPLOYMENT"%string,
      [plain_block "Bachelor of Science in Computer Science, MIT"])]
  = [("EMPLOYMENT"%string, []);
     ("EDUCATION"%string,
      [plain_block "Bachelor of Science in Computer Science, MIT"])].
Proof. vm_compute. reflexivity. Qed.

(** The sample sections of the module's self-test, without spaCy. *)
Example self_test_sections :
  validate_sections None
    [("EMPLOYMENT"%string,
      [plain_block "Software Engineer at Google, 2020-2023";
       plain_block "Bachelor of Science in Computer Science, MIT"]);
     ("EDUCATION"%string,
      [plain_block "Master of Science in AI, Stanford, 2020"]);
     ("SKILLS"%string,
      [plain_block "Python, Java, JavaScript, SQL, AWS, Docker"])]
  = [("EMPLOYMENT"%string, []);
     ("EDUCATION"%string,
      [plain_block "Software Engineer at Google, 2020-2023";
       plain_block "Bachelor of Science in Computer Science, MIT";
       plain_block "Master of Science in AI, Stanford, 2020"]);
     ("SKILLS"%string,
      [plain_block "Python, Java, JavaScript, SQL, AWS, Docker"])].
Proof. vm_compute. reflexivity. Qed.

(** The text below scores 2/7 as EMPLOYMENT and reaches 0.5 in no section
    (the word role counts against EDUCATION): filed under EMPLOYMENT it is
    removed, and blank blocks are skipped. *)
Example weak_block_is_removed :
  validate_sections None
    [("EMPLOYMENT"%string, [plain_block "my role"; plain_block "  "])]
  = [("EMPLOYMENT"%string, [])].
Proof. vm_compute. reflexivity. Qed.

(** Filed under SKILLS the same text scores 2/6 and stays there, flagged. *)
Example weak_block_is_flagged :
  validate_sections None [("SKILLS"%string, [plain_block "my role"])]
  = [("SKILLS"%string,
      [flag "no matching indicators" (plain_block "my role")])].
Proof. vm_compute. reflexivity. Qed.

(** A text without any indicator scores 10/15 as EDUCATION, which has no
    keyword against it, and is moved there. *)
Example plain_block_goes_to_education :
  validate_sections None [("EMPLOYMENT"%string, [plain_block "lorem ipsum"])]
  = [("EMPLOYMENT"%string, []);
     ("EDUCATION"%string, [plain_block "lorem ipsum"])].
Proof. vm_compute. reflexivity. Qed.

(** A block of a section without signature is kept as it is. *)
Example unknown_section_is_kept :
  validate_sections None [("LANGUAGES"%string, [plain_block "French"])]
  = [("LANGUAGES"%string, [plain_block "French"])].
Proof. vm_compute. reflexivity. Qed.

End ValidatorExamples.

Section ClassifierExamples.
Import PyStr Spacy SectionIdentifier.

Example classify_degree_line :
  _classify_content_by_analysis None "Bachelor of Science in CS, MIT, 2020"
  = Some "EDUCATION"%string.
Proof. vm_compute. reflexivity. Qed.

Example classify_skill_list :
  _classify_content_by_analysis None "Python, Java, SQL"
  = Some "SKILLS"%string.
Proof. vm_compute. reflexivity. Qed.

Example classify_employment_text :
  _classify_content_by_analysis None
    "Responsibilities: managed team, 5 years of work experience"
  = Some "EMPLOYMENT"%string.
Proof. vm_compute. reflexivity. Qed.

Example classify_nothing :
  _classify_content_by_analysis None "hello" = None.
Proof. vm_compute. reflexivity. Qed.

End ClassifierExamples.

Section LayoutExamples.
Import VisualLayoutAnalyzer.

(** Left column top to bottom (blocks 2 and 1), then the right column
    (blocks 3 and 0). *)
Example sample_page_reading_order :
  _create_reading_order sample_page two_columns = Some [2; 1; 3; 0]%nat.
Proof. vm_compute. reflexivity. Qed.

Example sample_page_single_column :
  _create_reading_order sample_page
    {| count := 1; boundaries := [(0, 400)]%Z; divider := None |}
  = Some [3; 2; 0; 1]%nat.
Proof. vm_compute. reflexivity. Qed.

End LayoutExamples.
